(** * APK forensic toolkit: the security analyzer ([core/analyzer.py])

    A shallow embedding of [SecurityAnalyzer] and the properties of its
    risk scorer, source scanner, manifest and permission analyzers and of
    the orchestrating [full_analysis]. *)

From Stdlib Require Import List ZArith NArith Lia String Ascii Bool Sorted
  Permutation DecimalString.
Import ListNotations.

Local Open Scope Z_scope.

(** ** Python strings

    A Python [str] is a sequence of Unicode code points.  Literals of the
    source that are plain ASCII are written with [str]; the Arabic literals
    are given by their code points. *)

Definition pystr := list N.

Definition str (s : string) : pystr :=
  map N_of_ascii (list_ascii_of_string s).

Definition pystr_eqb (a b : pystr) : bool :=
  if list_eq_dec N.eq_dec a b then true else false.

(** The double quote and the apostrophe, as code points. *)
Definition dquote : N := 34%N.
Definition squote : N := 39%N.

(** ** Exceptions and fallible computations *)

Module Py.

(** An exception: its class, what [str(e)] gives, and whether the class
    derives from [Exception] (a bare [except:] also catches the others). *)
Record exn := mkExn {
  exc_class : string;
  exc_str : pystr;
  exc_is_Exception : bool
}.

Inductive result (A : Type) : Type :=
| Ok (a : A)
| Raise (e : exn).
Arguments Ok {A} a.
Arguments Raise {A} e.

Definition bind {A B} (c : result A) (k : A -> result B) : result B :=
  match c with
  | Ok a => k a
  | Raise e => Raise e
  end.

Definition KeyError (key : string) : exn :=
  mkExn "KeyError" (str ("'" ++ key ++ "'")) true.

Definition UnboundLocalError (var : string) : exn :=
  mkExn "UnboundLocalError"
    (str ("cannot access local variable '" ++ var
          ++ "' where it is not associated with a value")) true.

Definition AttributeError (attr : string) : exn :=
  mkExn "AttributeError"
    (str ("'SecurityAnalyzer' object has no attribute '" ++ attr ++ "'"))
    true.

Definition ParseError (msg : string) : exn :=
  mkExn "ParseError" (str msg) true.

Definition PermissionError (msg : string) : exn :=
  mkExn "PermissionError" (str msg) true.

End Py.
Import Py.

Notation "x <- c ;; k" := (Py.bind c (fun x => k))
  (at level 61, c at next level, right associativity).

(** ** Findings

    A finding is a dictionary with some of the keys ['file'], ['line'],
    ['type'], ['severity'], ['description'], ['code_snippet'] and
    ['recommendation']; an absent key is [None]. *)

Record Finding := mkFinding {
  v_file : option pystr;
  v_line : option Z;
  v_type : option pystr;
  v_severity : option pystr;
  v_description : option pystr;
  v_code_snippet : option pystr;
  v_recommendation : option pystr
}.


(** ** Risk scorer *)

(** [d.get(k, default)] on a dictionary with string keys. *)
Fixpoint dict_get {V : Type} (d : list (pystr * V)) (k : pystr) (default : V)
  : V :=
  match d with
  | [] => default
  | (k', v) :: rest => if pystr_eqb k' k then v else dict_get rest k default
  end.

Definition severity_scores : list (pystr * Z) :=
  [ (str "CRITICAL", 10); (str "HIGH", 7); (str "MEDIUM", 4);
    (str "LOW", 2); (str "INFO", 1) ].

(** [vuln.get('severity', 'INFO')]. *)
Definition get_severity (vuln : Finding) : pystr :=
  match v_severity vuln with
  | Some s => s
  | None => str "INFO"
  end.

(** The body of the loop of [calculate_risk_score]. *)
Definition add_score (score : Z) (vuln : Finding) : Z :=
  let severity := get_severity vuln in
  score + dict_get severity_scores severity 1.

Definition calculate_risk_score (vulnerabilities : list Finding) : Z :=
  let score := fold_left add_score vulnerabilities 0 in
  Z.min score 100.

(** The severities of the data model and their weights, as the
    specification lists them. *)
Inductive Severity := CRITICAL | HIGH | MEDIUM | LOW | INFO.

Definition weight (s : Severity) : Z :=
  match s with
  | CRITICAL => 10
  | HIGH => 7
  | MEDIUM => 4
  | LOW => 2
  | INFO => 1
  end.

Definition severity_label (s : Severity) : pystr :=
  match s with
  | CRITICAL => str "CRITICAL"
  | HIGH => str "HIGH"
  | MEDIUM => str "MEDIUM"
  | LOW => str "LOW"
  | INFO => str "INFO"
  end.

(** The severity a label names, if it names one. *)
Definition parse_severity (l : pystr) : option Severity :=
  if pystr_eqb l (str "CRITICAL") then Some CRITICAL
  else if pystr_eqb l (str "HIGH") then Some HIGH
  else if pystr_eqb l (str "MEDIUM") then Some MEDIUM
  else if pystr_eqb l (str "LOW") then Some LOW
  else if pystr_eqb l (str "INFO") then Some INFO
  else None.

(** The weight of a finding: that of its severity; a finding that carries
    no severity counts as INFO, and one whose label names none of the five
    counts 1. *)
Definition finding_weight (v : Finding) : Z :=
  match v_severity v with
  | None => weight INFO
  | Some l =>
      match parse_severity l with
      | Some s => weight s
      | None => 1
      end
  end.

Definition sum_weights (vs : list Finding) : Z :=
  fold_right (fun v acc => finding_weight v + acc) 0 vs.

(** A finding of a given severity; the other keys are arbitrary. *)
Definition with_severity (s : Severity) (v : Finding) : Finding :=
  mkFinding (v_file v) (v_line v) (v_type v) (Some (severity_label s))
    (v_description v) (v_code_snippet v) (v_recommendation v).

(** ** Text operations of the scanner *)

(** The characters [str.strip()] removes and [\s] matches. *)
Definition whitespace : list N :=
  [ 9; 10; 11; 12; 13; 28; 29; 30; 31; 32; 133; 160; 5760;
    8192; 8193; 8194; 8195; 8196; 8197; 8198; 8199; 8200; 8201; 8202;
    8232; 8233; 8239; 8287; 12288 ]%N.

Definition mem (c : N) (cs : list N) : bool :=
  existsb (N.eqb c) cs.

Definition is_space (c : N) : bool := mem c whitespace.

Fixpoint lstrip (s : pystr) : pystr :=
  match s with
  | [] => []
  | c :: rest => if is_space c then lstrip rest else s
  end.

Definition rstrip (s : pystr) : pystr := rev (lstrip (rev s)).

(** [s.strip()]. *)
Definition strip (s : pystr) : pystr := rstrip (lstrip s).

(** [s.split(sep)] for a separator of one character. *)
Fixpoint split (sep : N) (s : pystr) : list pystr :=
  match s with
  | [] => [[]]
  | c :: rest =>
      if N.eqb c sep then [] :: split sep rest
      else match split sep rest with
           | l :: ls => (c :: l) :: ls
           | [] => [[c]]
           end
  end.

Definition newline : N := 10%N.

(** [sep.join(items)]. *)
Fixpoint join (sep : pystr) (items : list pystr) : pystr :=
  match items with
  | [] => []
  | item :: rest =>
      match rest with
      | [] => item
      | _ :: _ => item ++ sep ++ join sep rest
      end
  end.

Fixpoint startswith (s prefix : pystr) : bool :=
  match prefix, s with
  | [], _ => true
  | _ :: _, [] => false
  | p :: prefix', c :: s' => N.eqb p c && startswith s' prefix'
  end.

(** [needle in hay]. *)
Fixpoint contains (needle hay : pystr) : bool :=
  startswith hay needle ||
  match hay with
  | [] => false
  | _ :: hay' => contains needle hay'
  end.

(** ** Regular expressions

    The fragment of [re] the scanner's patterns use.  A character set is
    given by the characters it holds or excludes; [\s] is [Whitespace]. *)

Inductive charset :=
| OneOf (cs : list N)
| NoneOf (cs : list N)
| Whitespace.

Definition charset_mem (cs : charset) (c : N) : bool :=
  match cs with
  | OneOf l => mem c l
  | NoneOf l => negb (mem c l)
  | Whitespace => is_space c
  end.

Inductive regex :=
| Void
| Eps
| Chr (cs : charset)
| Seq (r1 r2 : regex)
| Alt (r1 r2 : regex)
| Star (r : regex).

Definition Plus (r : regex) : regex := Seq r (Star r).
Definition Opt (r : regex) : regex := Alt Eps r.

Fixpoint nullable (r : regex) : bool :=
  match r with
  | Void => false
  | Eps => true
  | Chr _ => false
  | Seq r1 r2 => nullable r1 && nullable r2
  | Alt r1 r2 => nullable r1 || nullable r2
  | Star _ => true
  end.

(** The derivative of [r] by the character [c]. *)
Fixpoint deriv (c : N) (r : regex) : regex :=
  match r with
  | Void => Void
  | Eps => Void
  | Chr cs => if charset_mem cs c then Eps else Void
  | Seq r1 r2 =>
      if nullable r1 then Alt (Seq (deriv c r1) r2) (deriv c r2)
      else Seq (deriv c r1) r2
  | Alt r1 r2 => Alt (deriv c r1) (deriv c r2)
  | Star r1 => Seq (deriv c r1) (Star r1)
  end.

(** [re.match(r, s)]: some prefix of [s] is in the language of [r]. *)
Fixpoint re_match (r : regex) (s : pystr) : bool :=
  nullable r ||
  match s with
  | [] => false
  | c :: s' => re_match (deriv c r) s'
  end.

(** [re.search(r, s)]: [r] matches at some position of [s]. *)
Fixpoint re_search (r : regex) (s : pystr) : bool :=
  re_match r s ||
  match s with
  | [] => false
  | _ :: s' => re_search r s'
  end.

(** A literal, case sensitive. *)
Fixpoint literal (s : pystr) : regex :=
  match s with
  | [] => Eps
  | c :: s' => Seq (Chr (OneOf [c])) (literal s')
  end.

(** What a lower-case ASCII letter matches under [(?i)]: itself, its
    upper case, and the characters Unicode folds to it (dotted and dotless
    i for [i], long s for [s], the Kelvin sign for [k]). *)
Definition ignorecase (c : N) : list N :=
  c :: (c - 32)%N ::
  (if N.eqb c 105 then [304; 305]
   else if N.eqb c 115 then [383]
   else if N.eqb c 107 then [8490]
   else [])%N.

(** A literal of lower-case ASCII letters under [(?i)]. *)
Fixpoint literal_i (s : pystr) : regex :=
  match s with
  | [] => Eps
  | c :: s' => Seq (Chr (OneOf (ignorecase c))) (literal_i s')
  end.

Definition quote : regex := Chr (OneOf [dquote; squote]).
Definition not_quote : regex := Chr (NoneOf [dquote; squote]).
Definition spaces : regex := Star (Chr Whitespace).

(** The tail the first three patterns share: optional spaces, an equals
    sign, optional spaces, a quote of either kind, one or more characters
    that are no quote, and a quote of either kind. *)
Definition assigned_literal : regex :=
  Seq spaces (Seq (literal (str "=")) (Seq spaces
    (Seq quote (Seq (Plus not_quote) quote)))).

Definition pattern_password : regex :=
  Seq (literal_i (str "password")) assigned_literal.

Definition pattern_api_key : regex :=
  Seq (literal_i (str "api"))
    (Seq (Opt (Chr (OneOf (str "_-"))))
       (Seq (literal_i (str "key")) assigned_literal)).

Definition pattern_token : regex :=
  Seq (literal_i (str "token")) assigned_literal.

Definition pattern_http : regex := literal (str "http://").

Definition pattern_cleartext : regex :=
  literal (str "android:usesCleartextTraffic=" ++ [dquote] ++ str "true"
           ++ [dquote]).

(** The Arabic literals of the source. *)
Definition issue_password : pystr :=
  [1603; 1604; 1605; 1577; 32; 1605; 1585; 1608; 1585; 32; 1606; 1589;
   1610; 1577]%N.
Definition issue_api_key : pystr :=
  [1605; 1601; 1578; 1575; 1581; 32; 65; 80; 73]%N.
Definition issue_token : pystr := str "Token".
Definition issue_http : pystr :=
  [1575; 1578; 1589; 1575; 1604; 32; 72; 84; 84; 80; 32; 1594; 1610; 1585;
   32; 1570; 1605; 1606]%N.
Definition issue_cleartext : pystr :=
  [1578; 1589; 1585; 1610; 1581; 32; 1581; 1585; 1603; 1577; 32; 1606;
   1589; 1610; 1577; 32; 1608; 1575; 1590; 1581; 1577]%N.
Definition sensitive_prefix : pystr :=
  [1605; 1593; 1604; 1608; 1605; 1575; 1578; 32; 1581; 1587; 1575; 1587;
   1577; 58; 32]%N.
Definition webview_description : pystr :=
  [87; 101; 98; 86; 105; 101; 119; 32; 1605; 1593; 32; 1578; 1605; 1603;
   1610; 1606; 32; 74; 97; 118; 97; 83; 99; 114; 105; 112; 116; 32; 1576;
   1583; 1608; 1606; 32; 1602; 1610; 1608; 1583; 32; 1571; 1605; 1606;
   1610; 1577; 32; 1603; 1575; 1601; 1610; 1577]%N.
Definition webview_recommendation : pystr :=
  [1578; 1593; 1591; 1610; 1604; 32; 74; 97; 118; 97; 83; 99; 114; 105;
   112; 116; 32; 1571; 1608; 32; 1578; 1591; 1576; 1610; 1602; 32; 1587;
   1610; 1575; 1587; 1575; 1578; 32; 1571; 1605; 1606; 1610; 1577; 32;
   1589; 1575; 1585; 1605; 1577]%N.
Definition dangerous_prefix : pystr :=
  [1573; 1584; 1606; 32; 1582; 1591; 1610; 1585; 58; 32]%N.
Definition dangerous_recommendation : pystr :=
  [1575; 1604; 1578; 1581; 1602; 1602; 32; 1605; 1606; 32; 1590; 1585;
   1608; 1585; 1577; 32; 1607; 1584; 1575; 32; 1575; 1604; 1573; 1584;
   1606]%N.
Definition unused_prefix : pystr :=
  [1573; 1584; 1606; 32; 1594; 1610; 1585; 32; 1605; 1587; 1578; 1582;
   1583; 1605; 58; 32]%N.
Definition unused_recommendation : pystr :=
  [1573; 1586; 1575; 1604; 1577; 32; 1575; 1604; 1573; 1584; 1606; 32;
   1594; 1610; 1585; 32; 1575; 1604; 1590; 1585; 1608; 1585; 1610]%N.
Definition perm_error_prefix : pystr :=
  [1582; 1591; 1571; 32; 1601; 1610; 32; 1578; 1581; 1604; 1610; 1604; 32;
   1575; 1604; 1571; 1584; 1608; 1606; 1575; 1578; 58; 32]%N.

Definition sensitive_patterns : list (regex * pystr) :=
  [ (pattern_password, issue_password);
    (pattern_api_key, issue_api_key);
    (pattern_token, issue_token);
    (pattern_http, issue_http);
    (pattern_cleartext, issue_cleartext) ].


(** ** The project tree *)

(** A parsed XML element, as [ET.parse(...).getroot()] gives it. *)
#[local] Unset Elimination Schemes.
Inductive Element :=
| Elem (tag : pystr) (attrib : list (pystr * pystr)) (children : list Element).
#[local] Set Elimination Schemes.

(** A file under a source directory: its path relative to the directory,
    and what [open(...)] followed by [f.read()] gives: the exception
    raised, or the text as text mode delivers it, decoded as UTF-8 with
    [errors='ignore'] and with every [\r\n] and lone [\r] of the file
    turned into a newline. *)
Record SourceFile := mkSourceFile {
  rel_path : pystr;
  read : result pystr
}.

(** A directory handed to a scanner: its path, and its files in the order
    [rglob] yields them, or [None] when the directory does not exist. *)
Definition Dir := (pystr * option (list SourceFile))%type.

(** The decompiled project: [manifest] is [None] when
    [manifest/AndroidManifest.xml] does not exist and otherwise the outcome
    of [ET.parse] on it; [java] holds the [*.java] files under [java/] and
    [smali] the files under [smali/]. *)
Record Project := mkProject {
  project_dir : pystr;
  manifest : option (result Element);
  java : option (list SourceFile);
  smali : option (list SourceFile)
}.

(** The paths of the source are [pathlib] paths, of the POSIX flavour: a
    path is a root ([/], [//] or none) and the components that are neither
    empty nor [.]; repeated and trailing slashes vanish, [..] stays. *)
Definition slash : N := 47%N.

Fixpoint lstrip_slashes (s : pystr) : pystr :=
  match s with
  | [] => []
  | c :: rest => if N.eqb c slash then lstrip_slashes rest else s
  end.

(** [splitroot]: exactly two leading slashes are a root of their own, any
    other number of them is the root [/]. *)
Definition splitroot (part : pystr) : pystr * pystr :=
  match part with
  | [] => ([], part)
  | c :: _ =>
      if N.eqb c slash then
        let stripped := lstrip_slashes part in
        if Nat.eqb (List.length part - List.length stripped) 2
        then (str "//", stripped)
        else (str "/", stripped)
      else ([], part)
  end.

Record PurePath := mkPurePath {
  path_root : pystr;
  path_parts : list pystr
}.

Definition is_component (x : pystr) : bool :=
  negb (pystr_eqb x [] || pystr_eqb x (str ".")).

(** [Path(s)]. *)
Definition parse_path (s : pystr) : PurePath :=
  let (root, rel) := splitroot s in
  mkPurePath root (filter is_component (split slash rel)).

(** [a / b]: a [b] with a root replaces [a]. *)
Definition path_child (a b : PurePath) : PurePath :=
  match path_root b with
  | [] => mkPurePath (path_root a) (path_parts a ++ path_parts b)
  | _ :: _ => b
  end.

(** [str(p)]. *)
Definition path_str (p : PurePath) : pystr :=
  match path_root p, path_parts p with
  | [], [] => str "."
  | root, parts => root ++ join (str "/") parts
  end.

(** [str(Path(dir) / name)]. *)
Definition joinpath (dir name : pystr) : pystr :=
  path_str (path_child (parse_path dir) (parse_path name)).

Definition java_dir (p : Project) : Dir :=
  (joinpath (project_dir p) (str "java"), java p).

Definition smali_dir (p : Project) : Dir :=
  (joinpath (project_dir p) (str "smali"), smali p).

(** ** Methods the class calls and does not define *)

(** Modelled from the spec: the component declaration of the data model,
    which [analyze_components] is to return; the source holds no type
    for it. *)
Inductive ComponentKind := activity | service | receiver | provider.

Record ComponentDecl := mkComponentDecl {
  kind : ComponentKind;
  exported : bool;
  has_intent_filter : bool;
  name : pystr
}.

(** Modelled from the spec: the result of the resource analysis, of which
    the source only shows the call; the data model gives it a list of
    findings. *)
Record ResourceAnalysis := mkResourceAnalysis {
  ra_vulnerabilities : list Finding
}.

(** The methods [SecurityAnalyzer] calls on [self] whose definitions are
    not in the source.  Each is a parameter of the analysis: a function of
    its arguments that returns or raises. *)
Record Helpers := mkHelpers {
  extract_permissions : Element -> result (list pystr);
  analyze_components : Element -> result (list ComponentDecl);
  check_component_vulnerabilities :
    list ComponentDecl -> result (list Finding);
  analyze_intent_filters : Element -> result (list Finding);
  check_security_config : Element -> result (list Finding);
  analyze_smali_code : Dir -> result (list Finding);
  count_files : Dir -> result Z;
  analyze_database_security : pystr -> pystr -> result (list Finding);
  detect_used_permissions : Dir -> result (list pystr);
  analyze_resources : Project -> result ResourceAnalysis
}.

(** The class exactly as the source has it: a call of a method that is not
    defined raises [AttributeError]. *)
Definition undefined_methods : Helpers :=
  mkHelpers
    (fun _ => Raise (AttributeError "extract_permissions"))
    (fun _ => Raise (AttributeError "analyze_components"))
    (fun _ => Raise (AttributeError "check_component_vulnerabilities"))
    (fun _ => Raise (AttributeError "analyze_intent_filters"))
    (fun _ => Raise (AttributeError "check_security_config"))
    (fun _ => Raise (AttributeError "analyze_smali_code"))
    (fun _ => Raise (AttributeError "count_files"))
    (fun _ _ => Raise (AttributeError "analyze_database_security"))
    (fun _ => Raise (AttributeError "detect_used_permissions"))
    (fun _ => Raise (AttributeError "analyze_resources")).


(** ** Source scanner *)

(** [analyze_webview_security]. *)
Definition analyze_webview_security (content file_path : pystr)
  : list Finding :=
  let issues := [] in
  if contains (str "setJavaScriptEnabled(true)") content then
    if negb (contains (str "setAllowFileAccess(false)") content) then
      issues ++
      [ mkFinding (Some file_path) None (Some (str "WEBVIEW_INSECURE"))
          (Some (str "HIGH")) (Some webview_description) None
          (Some webview_recommendation) ]
    else issues
  else issues.

(** The finding the line loop appends. *)
Definition sensitive_finding (relative : pystr) (line_num : Z)
  (issue line : pystr) : Finding :=
  mkFinding (Some relative) (Some line_num) (Some (str "SENSITIVE_DATA"))
    (Some (str "HIGH")) (Some (sensitive_prefix ++ issue))
    (Some (strip line)) None.

(** [for pattern, issue in sensitive_patterns: ...] on one line. *)
Definition scan_line (relative : pystr) (line_num : Z) (line : pystr)
  (vulnerabilities : list Finding) : list Finding :=
  fold_left
    (fun vulnerabilities '(pattern, issue) =>
       if re_search pattern line
       then vulnerabilities ++ [sensitive_finding relative line_num issue line]
       else vulnerabilities)
    sensitive_patterns vulnerabilities.

(** [for line in content.split('\n'): line_num += 1; ...]: the state of
    the loop is the list of findings and the counter. *)
Definition scan_lines (relative : pystr) (lines : list pystr)
  (vulnerabilities : list Finding) : list Finding * Z :=
  fold_left
    (fun '(vulnerabilities, line_num) line =>
       let line_num := line_num + 1 in
       (scan_line relative line_num line vulnerabilities, line_num))
    lines (vulnerabilities, 0).

(** The body of the [try] for one file.  It returns the findings list as
    the body leaves it, also when it raises: what was appended before the
    exception stays appended. *)
Definition scan_java_file (h : Helpers) (dir : pystr) (f : SourceFile)
  (vulnerabilities : list Finding) : list Finding * result unit :=
  match read f with
  | Raise e => (vulnerabilities, Raise e)
  | Ok content =>
      let vulnerabilities :=
        fst (scan_lines (rel_path f) (split newline content)
               vulnerabilities) in
      let file_path := joinpath dir (rel_path f) in
      let vulnerabilities :=
        if contains (str "WebView") content
        then vulnerabilities ++ analyze_webview_security content file_path
        else vulnerabilities in
      match analyze_database_security h content file_path with
      | Raise e => (vulnerabilities, Raise e)
      | Ok found => (vulnerabilities ++ found, Ok tt)
      end
  end.

(** [analyze_java_code]: the bare [except: continue] drops whatever the
    body raised and goes on with the next file. *)
Definition analyze_java_code (h : Helpers) (dir : pystr)
  (files : list SourceFile) : result (list Finding) :=
  Ok (fold_left
        (fun vulnerabilities f =>
           match scan_java_file h dir f vulnerabilities with
           | (vulnerabilities, Ok _) => vulnerabilities
           | (vulnerabilities, Raise _) => vulnerabilities
           end)
        files []).

Record CodeAnalysis := mkCodeAnalysis {
  ca_vulnerabilities : list Finding;
  files_analyzed : Z
}.

(** [analyze_code]. *)
Definition analyze_code (h : Helpers) (p : Project) : result CodeAnalysis :=
  let vulnerabilities := [] in
  vulnerabilities <-
    match java p with
    | Some files =>
        found <- analyze_java_code h (fst (java_dir p)) files ;;
        Ok (vulnerabilities ++ found)
    | None => Ok vulnerabilities
    end ;;
  vulnerabilities <-
    match smali p with
    | Some _ =>
        found <- analyze_smali_code h (smali_dir p) ;;
        Ok (vulnerabilities ++ found)
    | None => Ok vulnerabilities
    end ;;
  n_java <- count_files h (java_dir p) ;;
  n_smali <- count_files h (smali_dir p) ;;
  Ok (mkCodeAnalysis vulnerabilities (n_java + n_smali)).

(** ** Manifest analyzer *)

(** A local variable that is read: unbound, it raises. *)
Definition local {A : Type} (var : string) (value : option A) : result A :=
  match value with
  | Some a => Ok a
  | None => Raise (UnboundLocalError var)
  end.

(** [f"{prefix}{e}"]. *)
Definition fmt (prefix : pystr) (e : exn) : pystr := prefix ++ exc_str e.

(** The dictionary [analyze_manifest] returns: the one with the single key
    ['error'], or the one with the four keys. *)
Inductive ManifestAnalysis :=
| ManifestError (error : pystr)
| ManifestReport (permissions : list pystr) (components : list ComponentDecl)
    (vulnerabilities : list Finding) (issues : list pystr).

(** The local variables of [analyze_manifest] that the [try] block
    assigns. *)
Record ManifestLocals := mkManifestLocals {
  ml_permissions : option (list pystr);
  ml_components : option (list ComponentDecl);
  ml_vulnerabilities : list Finding
}.

(** The [try] block of [analyze_manifest]: the locals as the block leaves
    them, and whether it ran to its end or raised. *)
Definition manifest_try (h : Helpers) (parsed : result Element)
  : ManifestLocals * result unit :=
  let vulnerabilities := [] in
  match parsed with
  | Raise e => (mkManifestLocals None None vulnerabilities, Raise e)
  | Ok root =>
  match extract_permissions h root with
  | Raise e => (mkManifestLocals None None vulnerabilities, Raise e)
  | Ok permissions =>
  match analyze_components h root with
  | Raise e =>
      (mkManifestLocals (Some permissions) None vulnerabilities, Raise e)
  | Ok components =>
  let bound := mkManifestLocals (Some permissions) (Some components) in
  match check_component_vulnerabilities h components with
  | Raise e => (bound vulnerabilities, Raise e)
  | Ok found =>
  let vulnerabilities := vulnerabilities ++ found in
  match analyze_intent_filters h root with
  | Raise e => (bound vulnerabilities, Raise e)
  | Ok found =>
  let vulnerabilities := vulnerabilities ++ found in
  match check_security_config h root with
  | Raise e => (bound vulnerabilities, Raise e)
  | Ok found =>
  let vulnerabilities := vulnerabilities ++ found in
  (bound vulnerabilities, Ok tt)
  end end end end end end.

(** [analyze_manifest]. *)
Definition analyze_manifest (h : Helpers) (p : Project)
  : result ManifestAnalysis :=
  match manifest p with
  | None => Ok (ManifestError (str "Manifest not found"))
  | Some parsed =>
      let issues := [] in
      let '(locals, outcome) := manifest_try h parsed in
      (* except Exception as e *)
      issues <-
        match outcome with
        | Ok _ => Ok issues
        | Raise e =>
            if exc_is_Exception e
            then Ok (issues ++ [fmt (str "Error parsing manifest: ") e])
            else Raise e
        end ;;
      permissions <- local "permissions" (ml_permissions locals) ;;
      components <- local "components" (ml_components locals) ;;
      Ok (ManifestReport permissions components (ml_vulnerabilities locals)
            issues)
  end.

(** ** Permission analyzer *)

Definition dangerous_perms : list pystr :=
  [ str "android.permission.READ_SMS";
    str "android.permission.SEND_SMS";
    str "android.permission.RECORD_AUDIO";
    str "android.permission.ACCESS_FINE_LOCATION";
    str "android.permission.CAMERA";
    str "android.permission.READ_CONTACTS";
    str "android.permission.WRITE_CONTACTS" ].

(** [x in l] on strings. *)
Definition str_in (x : pystr) (l : list pystr) : bool :=
  existsb (pystr_eqb x) l.

Definition dangerous_finding (perm : pystr) : Finding :=
  mkFinding None None (Some (str "DANGEROUS_PERMISSION"))
    (Some (str "MEDIUM")) (Some (dangerous_prefix ++ perm)) None
    (Some dangerous_recommendation).

Definition unused_finding (perm : pystr) : Finding :=
  mkFinding None None (Some (str "UNUSED_PERMISSION")) (Some (str "LOW"))
    (Some (unused_prefix ++ perm)) None (Some unused_recommendation).

Definition analysis_error_finding (e : exn) : Finding :=
  mkFinding None None (Some (str "ANALYSIS_ERROR")) (Some (str "INFO"))
    (Some (fmt perm_error_prefix e)) None None.

(** [for perm in permissions: if perm in dangerous_perms: ...]. *)
Definition flag_dangerous (permissions : list pystr)
  (vulnerabilities : list Finding) : list Finding :=
  fold_left
    (fun vulnerabilities perm =>
       if str_in perm dangerous_perms
       then vulnerabilities ++ [dangerous_finding perm]
       else vulnerabilities)
    permissions vulnerabilities.

(** [for perm in permissions: if perm not in used_perms: ...]. *)
Definition flag_unused (permissions used_perms : list pystr)
  (vulnerabilities : list Finding) : list Finding :=
  fold_left
    (fun vulnerabilities perm =>
       if negb (str_in perm used_perms)
       then vulnerabilities ++ [unused_finding perm]
       else vulnerabilities)
    permissions vulnerabilities.

(** The dictionary [analyze_permissions] returns; the key ['permissions']
    is absent when the manifest does not exist. *)
Record PermissionAnalysis := mkPermissionAnalysis {
  pa_permissions : option (list pystr);
  pa_vulnerabilities : list Finding
}.

(** The [try] block of [analyze_permissions]: the local [permissions] and
    the findings list as the block leaves them, and its outcome. *)
Definition permissions_try (h : Helpers) (p : Project)
  (parsed : result Element)
  : option (list pystr) * list Finding * result unit :=
  let vulnerabilities := [] in
  match parsed with
  | Raise e => (None, vulnerabilities, Raise e)
  | Ok root =>
  match extract_permissions h root with
  | Raise e => (None, vulnerabilities, Raise e)
  | Ok permissions =>
  let vulnerabilities := flag_dangerous permissions vulnerabilities in
  let code_dir := java_dir p in
  match detect_used_permissions h code_dir with
  | Raise e => (Some permissions, vulnerabilities, Raise e)
  | Ok used_perms =>
  let vulnerabilities := flag_unused permissions used_perms vulnerabilities in
  (Some permissions, vulnerabilities, Ok tt)
  end end end.

(** [analyze_permissions]. *)
Definition analyze_permissions (h : Helpers) (p : Project)
  : result PermissionAnalysis :=
  match manifest p with
  | None => Ok (mkPermissionAnalysis None [])
  | Some parsed =>
      let '(permissions, vulnerabilities, outcome) :=
        permissions_try h p parsed in
      (* except Exception as e *)
      vulnerabilities <-
        match outcome with
        | Ok _ => Ok vulnerabilities
        | Raise e =>
            if exc_is_Exception e
            then Ok (vulnerabilities ++ [analysis_error_finding e])
            else Raise e
        end ;;
      permissions <- local "permissions" permissions ;;
      Ok (mkPermissionAnalysis (Some permissions) vulnerabilities)
  end.

(** ** Orchestrator *)

(** The attributes of the analyzer object that the analysis reads. *)
Record SecurityAnalyzer := mkSecurityAnalyzer {
  self_vulnerabilities : list Finding;
  self_security_issues : list pystr
}.

Record AnalysisResult := mkAnalysisResult {
  manifest_analysis : ManifestAnalysis;
  code_analysis : CodeAnalysis;
  permission_analysis : PermissionAnalysis;
  resource_analysis : ResourceAnalysis;
  vulnerabilities : list Finding;
  security_issues : list pystr;
  risk_score : Z
}.

(** [results['manifest_analysis']['vulnerabilities']]. *)
Definition manifest_vulnerabilities (m : ManifestAnalysis)
  : result (list Finding) :=
  match m with
  | ManifestError _ => Raise (KeyError "vulnerabilities")
  | ManifestReport _ _ vulnerabilities _ => Ok vulnerabilities
  end.

(** What [full_analysis] computes, the analyzer object being [self]. *)
Definition run_analysis (h : Helpers) (self : SecurityAnalyzer) (p : Project)
  : result AnalysisResult :=
  manifest_analysis <- analyze_manifest h p ;;
  code_analysis <- analyze_code h p ;;
  permission_analysis <- analyze_permissions h p ;;
  resource_analysis <- analyze_resources h p ;;
  let all_vulns := [] in
  found <- manifest_vulnerabilities manifest_analysis ;;
  let all_vulns := all_vulns ++ found in
  let all_vulns := all_vulns ++ ca_vulnerabilities code_analysis in
  let all_vulns := all_vulns ++ pa_vulnerabilities permission_analysis in
  Ok (mkAnalysisResult manifest_analysis code_analysis permission_analysis
        resource_analysis all_vulns (self_security_issues self)
        (calculate_risk_score all_vulns)).

(** [full_analysis], with the analyzer object threaded through: the method
    assigns no attribute of [self], so the object comes out as it went
    in. *)
Definition full_analysis (h : Helpers) (self : SecurityAnalyzer)
  (p : Project) : result AnalysisResult * SecurityAnalyzer :=
  (run_analysis h self p, self).

(** ** Definitions the statements use *)

(** What one line adds to the findings, pattern by pattern. *)
Definition line_findings (relative : pystr) (line_num : Z) (line : pystr)
  : list Finding :=
  flat_map
    (fun '(pattern, issue) =>
       if re_search pattern line
       then [sensitive_finding relative line_num issue line]
       else [])
    sensitive_patterns.

(** What the lines after line [line_num] add. *)
Fixpoint lines_findings (relative : pystr) (line_num : Z)
  (lines : list pystr) : list Finding :=
  match lines with
  | [] => []
  | line :: rest =>
      line_findings relative (line_num + 1) line
      ++ lines_findings relative (line_num + 1) rest
  end.

(** What one file adds to the findings of the scan. *)
Definition file_findings (h : Helpers) (dir : pystr) (f : SourceFile)
  : list Finding :=
  match read f with
  | Raise _ => []
  | Ok content =>
      lines_findings (rel_path f) 0 (split newline content)
      ++ (if contains (str "WebView") content
          then analyze_webview_security content (joinpath dir (rel_path f))
          else [])
      ++ match analyze_database_security h content
                 (joinpath dir (rel_path f)) with
         | Ok found => found
         | Raise _ => []
         end
  end.

Definition opt_str_eqb (a : option pystr) (b : pystr) : bool :=
  match a with
  | Some s => pystr_eqb s b
  | None => false
  end.

Definition opt_Z_eqb (a : option Z) (b : Z) : bool :=
  match a with
  | Some n => Z.eqb n b
  | None => false
  end.

(** The sensitive-data findings recorded for line [line_num] of the file
    [relative]. *)
Definition is_sensitive_at (relative : pystr) (line_num : Z) (v : Finding)
  : bool :=
  opt_str_eqb (v_type v) (str "SENSITIVE_DATA")
  && opt_str_eqb (v_file v) relative
  && opt_Z_eqb (v_line v) line_num.

(** The findings of a given type with a given description. *)
Definition is_reported (type description : pystr) (v : Finding) : bool :=
  opt_str_eqb (v_type v) type
  && opt_str_eqb (v_description v) description.

Definition password_line : pystr :=
  str "String password = " ++ [dquote] ++ str "abc123" ++ [dquote]
  ++ str ";".

Definition CAMERA : pystr := str "android.permission.CAMERA".





(** The phases of the run whose findings are combined. *)
Inductive Phase := ManifestPhase | CodePhase | PermissionPhase.

(** Phase [ph] raises [e], the phases before it having returned. *)
Definition fails_in (h : Helpers) (p : Project) (ph : Phase) (e : exn)
  : Prop :=
  match ph with
  | ManifestPhase => analyze_manifest h p = Raise e
  | CodePhase =>
      (exists m, analyze_manifest h p = Ok m)
      /\ analyze_code h p = Raise e
  | PermissionPhase =>
      (exists m, analyze_manifest h p = Ok m)
      /\ (exists c, analyze_code h p = Ok c)
      /\ analyze_permissions h p = Raise e
  end.

Definition is_AnalysisError (e : exn) : bool :=
  String.eqb (exc_class e) "AnalysisError".

(** Helpers that find nothing, for examples. *)
Definition quiet_methods : Helpers :=
  mkHelpers
    (fun _ => Ok []) (fun _ => Ok []) (fun _ => Ok []) (fun _ => Ok [])
    (fun _ => Ok []) (fun _ => Ok []) (fun _ => Ok 0) (fun _ _ => Ok [])
    (fun _ => Ok []) (fun _ => Ok (mkResourceAnalysis [])).

Definition fresh_analyzer : SecurityAnalyzer := mkSecurityAnalyzer [] [].

(** A project root with no manifest and no source directory. *)
Definition empty_project : Project :=
  mkProject (str "/work/app") None None None.

(** A project whose manifest is not well-formed XML. *)
Definition malformed_manifest_project : Project :=
  mkProject (str "/work/app")
    (Some (Raise (ParseError "syntax error: line 1, column 0"))) None None.

Definition empty_manifest : Element := Elem (str "manifest") [] [].

(** A project with two source files, which [rglob] yields [B.java] first;
    [A.java] also enables JavaScript in a WebView. *)
Definition two_files_project : Project :=
  mkProject (str "/work/app") (Some (Ok empty_manifest))
    (Some
       [ mkSourceFile (str "B.java") (Ok password_line);
         mkSourceFile (str "A.java")
           (Ok (password_line ++ [newline]
                ++ str "WebView w; w.getSettings().setJavaScriptEnabled(true);")) ])
    None.

(** A project that declares the CAMERA permission. *)
Definition camera_project : Project :=
  mkProject (str "/work/app") (Some (Ok empty_manifest)) (Some []) None.

Definition camera_methods (used : list pystr) : Helpers :=
  mkHelpers
    (fun _ => Ok [CAMERA; str "android.permission.INTERNET"])
    (fun _ => Ok []) (fun _ => Ok []) (fun _ => Ok [])
    (fun _ => Ok []) (fun _ => Ok []) (fun _ => Ok 0) (fun _ _ => Ok [])
    (fun _ => Ok used) (fun _ => Ok (mkResourceAnalysis [])).

(** The structural data-store check reports under a category of its own:
    none of its findings has the type of the line rules. *)
Definition database_check_is_structural (h : Helpers) : Prop :=
  forall content file_path found v,
    analyze_database_security h content file_path = Ok found ->
    In v found -> v_type v <> Some (str "SENSITIVE_DATA").

(** The finding the scanner is to record for [password_line] found at
    line [line_num] of the file [relative]. *)
Definition password_finding (relative : pystr) (line_num : Z) : Finding :=
  mkFinding (Some relative) (Some line_num) (Some (str "SENSITIVE_DATA"))
    (Some (str "HIGH")) (Some (sensitive_prefix ++ issue_password))
    (Some password_line) None.

(** A source directory with a file that holds the password line on its
    second line. *)
Definition login_file : SourceFile :=
  mkSourceFile (str "com/app/Login.java")
    (Ok (str "class Login {" ++ [newline] ++ password_line ++ [newline]
         ++ str "}")).

Definition sample_files : list SourceFile :=
  [ mkSourceFile (str "com/app/Main.java") (Ok (str "class Main {}"));
    login_file ].

(** The same directory with the password line as it stands in a method
    body: indented by a tab and four spaces, and with two spaces after
    the semicolon. *)
Definition indented_login_file : SourceFile :=
  mkSourceFile (str "com/app/Login.java")
    (Ok (str "class Login {" ++ [newline] ++ str "  void connect() {"
         ++ [newline] ++ [9%N] ++ str "    " ++ password_line ++ str "  "
         ++ [newline] ++ str "  }" ++ [newline] ++ str "}")).

Definition indented_files : list SourceFile :=
  [ mkSourceFile (str "com/app/Main.java") (Ok (str "class Main {}"));
    indented_login_file ].

(** ** Summary of the analyzer object *)

(** [v['severity']]: a finding without the key raises. *)
Definition severity_item (v : Finding) : result pystr :=
  match v_severity v with
  | Some s => Ok s
  | None => Raise (KeyError "severity")
  end.

(** [[v for v in vulns if v['severity'] == label]]. *)
Fixpoint select_severity (label : pystr) (vulns : list Finding)
  : result (list Finding) :=
  match vulns with
  | [] => Ok []
  | v :: rest =>
      s <- severity_item v ;;
      selected <- select_severity label rest ;;
      Ok (if pystr_eqb s label then v :: selected else selected)
  end.

Definition len {A : Type} (l : list A) : Z := Z.of_nat (List.length l).

Record Summary := mkSummary {
  total_vulnerabilities : Z;
  high_severity : Z;
  medium_severity : Z;
  low_severity : Z
}.

(** [get_summary]. *)
Definition get_summary (self : SecurityAnalyzer) : result Summary :=
  let total := len (self_vulnerabilities self) in
  high <- select_severity (str "HIGH") (self_vulnerabilities self) ;;
  medium <- select_severity (str "MEDIUM") (self_vulnerabilities self) ;;
  low <- select_severity (str "LOW") (self_vulnerabilities self) ;;
  Ok (mkSummary total (len high) (len medium) (len low)).

(** ** More definitions the statements use *)

Definition has_severity (label : pystr) (v : Finding) : bool :=
  opt_str_eqb (v_severity v) label.

(** Neither the first nor the last character is white space. *)
Definition trimmed (s : pystr) : Prop :=
  match s with [] => True | c :: _ => is_space c = false end
  /\ match rev s with [] => True | c :: _ => is_space c = false end.

Definition all_spaces (s : pystr) : Prop :=
  Forall (fun c => is_space c = true) s.

(** The findings of the line rules are HIGH sensitive-data findings of the
    file, without a recommendation. *)
Definition is_line_finding (relative : pystr) (v : Finding) : Prop :=
  v_file v = Some relative
  /\ v_type v = Some (str "SENSITIVE_DATA")
  /\ v_severity v = Some (str "HIGH")
  /\ v_recommendation v = None.

Definition ValueError (msg : string) : exn := mkExn "ValueError" (str msg) true.

Definition main_activity : ComponentDecl :=
  mkComponentDecl activity true true (str ".MainActivity").

Definition exported_finding : Finding :=
  mkFinding None None (Some (str "EXPORTED_COMPONENT")) (Some (str "HIGH"))
    (Some (str ".MainActivity")) None None.

(** Helpers whose intent-filter check raises. *)
Definition intent_failure_methods : Helpers :=
  mkHelpers
    (fun _ => Ok [CAMERA]) (fun _ => Ok [main_activity])
    (fun _ => Ok [exported_finding])
    (fun _ => Raise (ValueError "bad filter"))
    (fun _ => Ok []) (fun _ => Ok []) (fun _ => Ok 0) (fun _ _ => Ok [])
    (fun _ => Ok []) (fun _ => Ok (mkResourceAnalysis [])).

(** Helpers whose extraction of the components raises. *)
Definition components_failure_methods : Helpers :=
  mkHelpers
    (fun _ => Ok [CAMERA]) (fun _ => Raise (ValueError "bad component"))
    (fun _ => Ok []) (fun _ => Ok [])
    (fun _ => Ok []) (fun _ => Ok []) (fun _ => Ok 0) (fun _ _ => Ok [])
    (fun _ => Ok []) (fun _ => Ok (mkResourceAnalysis [])).

(** Findings for the two other checks of the manifest, for examples. *)
Definition broad_intent_finding : Finding :=
  mkFinding None None (Some (str "INTENT_FILTER")) (Some (str "MEDIUM"))
    (Some (str "android.intent.action.VIEW")) None None.

Definition cleartext_finding : Finding :=
  mkFinding None None (Some (str "CLEARTEXT_TRAFFIC")) (Some (str "HIGH"))
    (Some (str "usesCleartextTraffic")) None None.

Definition debuggable_finding : Finding :=
  mkFinding None None (Some (str "DEBUGGABLE")) (Some (str "HIGH"))
    (Some (str "debuggable")) None None.

(** Helpers of which every check of the manifest finds something. *)
Definition busy_methods : Helpers :=
  mkHelpers
    (fun _ => Ok [CAMERA; str "android.permission.INTERNET"])
    (fun _ => Ok [main_activity])
    (fun _ => Ok [exported_finding])
    (fun _ => Ok [broad_intent_finding])
    (fun _ => Ok [cleartext_finding; debuggable_finding])
    (fun _ => Ok []) (fun _ => Ok 0) (fun _ _ => Ok [])
    (fun _ => Ok []) (fun _ => Ok (mkResourceAnalysis [])).

(** The findings a manifest analysis holds, none for the dictionary with
    the single key ['error']. *)
Definition manifest_findings (m : ManifestAnalysis) : list Finding :=
  match m with
  | ManifestError _ => []
  | ManifestReport _ _ found _ => found
  end.

(** A finding of the permission analysis: it carries no location, and its
    severity is MEDIUM, LOW or INFO. *)
Definition is_permission_finding (v : Finding) : Prop :=
  v_file v = None /\ v_line v = None
  /\ (v_severity v = Some (str "MEDIUM") \/ v_severity v = Some (str "LOW")
      \/ v_severity v = Some (str "INFO")).

(** A project with a smali directory only. *)
Definition smali_project : Project :=
  mkProject (str "/work/app") None None
    (Some [mkSourceFile (str "a.smali") (Ok (str ".class La;"))]).

(** An analyzer object that holds findings. *)
Definition loaded_analyzer : SecurityAnalyzer :=
  mkSecurityAnalyzer
    [ exported_finding; dangerous_finding CAMERA; unused_finding CAMERA;
      with_severity CRITICAL exported_finding ] [].

(** The findings the summary puts in none of its three buckets. *)
Definition is_unbucketed (v : Finding) : bool :=
  negb (has_severity (str "HIGH") v || has_severity (str "MEDIUM") v
        || has_severity (str "LOW") v).

(** ** Report generator ([core/reporter.py]) *)

(** The literals of [create_report_content], [get_severity_arabic] and
    [generate_recommendations]. *)
Definition txt_report_title : pystr :=
  [35; 32; 1578; 1602; 1585; 1610; 1585; 32; 1575; 1604; 1578; 1581; 1604;
   1610; 1604; 32; 1575; 1604; 1571; 1605; 1606; 1610; 32; 1604; 1578;
   1591; 1576; 1610; 1602; 32; 65; 110; 100; 114; 111; 105; 100]%N.
Definition txt_created_label : pystr :=
  [1578; 1575; 1585; 1610; 1582; 32; 1575; 1604; 1573; 1606; 1588; 1575;
   1569; 58; 32]%N.
Definition txt_summary_heading : pystr :=
  [35; 35; 32; 49; 46; 32; 1575; 1604; 1605; 1604; 1582; 1589; 32; 1575;
   1604; 1578; 1606; 1601; 1610; 1584; 1610]%N.
Definition txt_risk_label : pystr :=
  [42; 42; 1583; 1585; 1580; 1577; 32; 1575; 1604; 1582; 1591; 1608; 1585;
   1577; 58; 42; 42; 32]%N.
Definition txt_total_label : pystr :=
  [42; 42; 1573; 1580; 1605; 1575; 1604; 1610; 32; 1575; 1604; 1579; 1594;
   1585; 1575; 1578; 58; 42; 42; 32]%N.
Definition txt_high_label : pystr :=
  [32; 32; 45; 32; 42; 42; 1593; 1575; 1604; 1610; 1577; 32; 1575; 1604;
   1582; 1591; 1608; 1585; 1577; 58; 42; 42; 32]%N.
Definition txt_medium_label : pystr :=
  [32; 32; 45; 32; 42; 42; 1605; 1578; 1608; 1587; 1591; 1577; 32; 1575;
   1604; 1582; 1591; 1608; 1585; 1577; 58; 42; 42; 32]%N.
Definition txt_low_label : pystr :=
  [32; 32; 45; 32; 42; 42; 1605; 1606; 1582; 1601; 1590; 1577; 32; 1575;
   1604; 1582; 1591; 1608; 1585; 1577; 58; 42; 42; 32]%N.
Definition txt_apk_heading : pystr :=
  [35; 35; 32; 50; 46; 32; 1605; 1593; 1604; 1608; 1605; 1575; 1578; 32;
   1575; 1604; 1578; 1591; 1576; 1610; 1602]%N.
Definition txt_package_label : pystr :=
  [45; 32; 42; 42; 1575; 1587; 1605; 32; 1575; 1604; 1581; 1586; 1605;
   1577; 58; 42; 42; 32]%N.
Definition txt_unknown : pystr :=
  [1594; 1610; 1585; 32; 1605; 1593; 1585; 1608; 1601]%N.
Definition txt_version_label : pystr :=
  [45; 32; 42; 42; 1575; 1604; 1606; 1587; 1582; 1577; 58; 42; 42; 32]%N.
Definition txt_min_sdk_label : pystr :=
  [45; 32; 42; 42; 1581; 1583; 32; 1571; 1583; 1606; 1609; 32; 1604; 1600;
   32; 83; 68; 75; 58; 42; 42; 32]%N.
Definition txt_target_sdk_label : pystr :=
  [45; 32; 42; 42; 1607; 1583; 1601; 32; 83; 68; 75; 58; 42; 42; 32]%N.
Definition txt_findings_heading : pystr :=
  [35; 35; 32; 51; 46; 32; 1575; 1604; 1579; 1594; 1585; 1575; 1578; 32;
   1575; 1604; 1571; 1605; 1606; 1610; 1577; 32; 1575; 1604; 1605; 1603;
   1578; 1588; 1601; 1577]%N.
Definition txt_severity_infix : pystr :=
  [32; 45; 32; 1582; 1591; 1608; 1585; 1577; 32]%N.
Definition txt_default_description : pystr :=
  [1579; 1594; 1585; 1577]%N.
Definition txt_type_label : pystr :=
  [42; 42; 1575; 1604; 1606; 1608; 1593; 58; 42; 42; 32]%N.
Definition txt_file_label : pystr :=
  [42; 42; 1575; 1604; 1605; 1604; 1601; 58; 42; 42; 32; 96]%N.
Definition txt_line_label : pystr :=
  [42; 42; 1575; 1604; 1587; 1591; 1585; 58; 42; 42; 32]%N.
Definition txt_snippet_label : pystr :=
  [42; 42; 1605; 1602; 1578; 1591; 1601; 32; 1575; 1604; 1603; 1608; 1583;
   58; 42; 42]%N.
Definition txt_recommendation_label : pystr :=
  [42; 42; 1575; 1604; 1578; 1608; 1589; 1610; 1577; 58; 42; 42; 32]%N.
Definition txt_permissions_heading : pystr :=
  [35; 35; 32; 52; 46; 32; 1578; 1581; 1604; 1610; 1604; 32; 1575; 1604;
   1571; 1584; 1608; 1606; 1575; 1578]%N.
Definition txt_permissions_total_label : pystr :=
  [42; 42; 1573; 1580; 1605; 1575; 1604; 1610; 32; 1575; 1604; 1571; 1584;
   1608; 1606; 1575; 1578; 58; 42; 42; 32]%N.
Definition txt_permissions_used_label : pystr :=
  [10; 42; 42; 1575; 1604; 1571; 1584; 1608; 1606; 1575; 1578; 32; 1575;
   1604; 1605; 1587; 1578; 1582; 1583; 1605; 1577; 58; 42; 42]%N.
Definition txt_more_suffix : pystr :=
  [32; 1571; 1584; 1608; 1606; 1575; 1578; 32; 1571; 1582; 1585; 1609]%N.
Definition txt_more_prefix : pystr :=
  [45; 32; 46; 46; 46; 32; 1608]%N.
Definition txt_recommendations_heading : pystr :=
  [35; 35; 32; 53; 46; 32; 1575; 1604; 1578; 1608; 1589; 1610; 1575; 1578;
   32; 1575; 1604; 1571; 1605; 1606; 1610; 1577]%N.
Definition txt_closing_heading : pystr :=
  [35; 35; 32; 54; 46; 32; 1575; 1604; 1582; 1575; 1578; 1605; 1577]%N.
Definition txt_closing_line_1 : pystr :=
  [1607; 1584; 1575; 32; 1575; 1604; 1578; 1602; 1585; 1610; 1585; 32;
   1578; 1605; 32; 1573; 1606; 1588; 1575; 1572; 1607; 32; 1578; 1604;
   1602; 1575; 1574; 1610; 1575; 1611; 32; 1576; 1575; 1587; 1578; 1582;
   1583; 1575; 1605; 32; 65; 80; 75; 32; 70; 111; 114; 101; 110; 115; 105;
   99; 32; 84; 111; 111; 108; 107; 105; 116; 32; 40; 65; 70; 84; 41;
   46]%N.
Definition txt_closing_line_2 : pystr :=
  [1610; 1608; 1589; 1609; 32; 1576; 1605; 1585; 1575; 1580; 1593; 1577;
   32; 1580; 1605; 1610; 1593; 32; 1575; 1604; 1606; 1578; 1575; 1574;
   1580; 32; 1605; 1593; 32; 1605; 1582; 1578; 1589; 32; 1571; 1605; 1606;
   1610; 46]%N.
Definition txt_arabic_critical : pystr :=
  [1581; 1585; 1580; 1577]%N.
Definition txt_arabic_high : pystr :=
  [1593; 1575; 1604; 1610; 1577]%N.
Definition txt_arabic_medium : pystr :=
  [1605; 1578; 1608; 1587; 1591; 1577]%N.
Definition txt_arabic_low : pystr :=
  [1605; 1606; 1582; 1601; 1590; 1577]%N.
Definition txt_arabic_info : pystr :=
  [1605; 1593; 1604; 1608; 1605; 1575; 1578]%N.
Definition txt_recommendation_0 : pystr :=
  [35; 35; 35; 32; 1571; 1601; 1590; 1604; 32; 1575; 1604; 1605; 1605;
   1575; 1585; 1587; 1575; 1578; 32; 1575; 1604; 1571; 1605; 1606; 1610;
   1577; 58]%N.
Definition txt_recommendation_1 : pystr :=
  [49; 46; 32; 42; 42; 1578; 1588; 1601; 1610; 1585; 32; 1575; 1604; 1576;
   1610; 1575; 1606; 1575; 1578; 32; 1575; 1604; 1581; 1587; 1575; 1587;
   1577; 58; 42; 42; 32; 1578; 1580; 1606; 1576; 32; 1578; 1582; 1586;
   1610; 1606; 32; 1575; 1604; 1576; 1610; 1575; 1606; 1575; 1578; 32;
   1575; 1604; 1581; 1587; 1575; 1587; 1577; 32; 1603; 1606; 1589; 32;
   1608; 1575; 1590; 1581]%N.
Definition txt_recommendation_2 : pystr :=
  [50; 46; 32; 42; 42; 1575; 1587; 1578; 1582; 1583; 1575; 1605; 32; 72;
   84; 84; 80; 83; 58; 42; 42; 32; 1578; 1580; 1606; 1576; 32; 1575; 1587;
   1578; 1582; 1583; 1575; 1605; 32; 1576; 1585; 1608; 1578; 1608; 1603;
   1608; 1604; 32; 72; 84; 84; 80; 32; 1601; 1610; 32; 1575; 1604; 1575;
   1578; 1589; 1575; 1604; 1575; 1578; 32; 1575; 1604; 1588; 1576; 1603;
   1610; 1577]%N.
Definition txt_recommendation_3 : pystr :=
  [51; 46; 32; 42; 42; 1575; 1604; 1578; 1581; 1602; 1602; 32; 1605; 1606;
   32; 1575; 1604; 1605; 1583; 1582; 1604; 1575; 1578; 58; 42; 42; 32;
   1578; 1606; 1601; 1610; 1584; 32; 1575; 1604; 1578; 1581; 1602; 1602;
   32; 1605; 1606; 32; 1589; 1581; 1577; 32; 1580; 1605; 1610; 1593; 32;
   1575; 1604; 1605; 1583; 1582; 1604; 1575; 1578; 32; 1605; 1606; 32;
   1575; 1604; 1605; 1587; 1578; 1582; 1583; 1605]%N.
Definition txt_recommendation_4 : pystr :=
  [52; 46; 32; 42; 42; 1581; 1583; 32; 1575; 1604; 1571; 1583; 1606; 1609;
   32; 1605; 1606; 32; 1575; 1604; 1571; 1584; 1608; 1606; 1575; 1578; 58;
   42; 42; 32; 1605; 1606; 1581; 32; 1575; 1604; 1571; 1584; 1608; 1606;
   1575; 1578; 32; 1575; 1604; 1590; 1585; 1608; 1585; 1610; 1577; 32;
   1601; 1602; 1591; 32; 1604; 1604; 1578; 1591; 1576; 1610; 1602]%N.
Definition txt_recommendation_5 : pystr :=
  [53; 46; 32; 42; 42; 1578; 1581; 1583; 1610; 1579; 32; 1575; 1604; 1605;
   1603; 1578; 1576; 1575; 1578; 58; 42; 42; 32; 1575; 1587; 1578; 1582;
   1583; 1575; 1605; 32; 1571; 1581; 1583; 1579; 32; 1573; 1589; 1583;
   1575; 1585; 1575; 1578; 32; 1575; 1604; 1605; 1603; 1578; 1576; 1575;
   1578; 32; 1608; 1575; 1604; 1578; 1576; 1593; 1610; 1575; 1578]%N.
Definition txt_recommendation_6 : pystr :=
  [54; 46; 32; 42; 42; 1578; 1593; 1591; 1610; 1604; 32; 1575; 1604; 1578;
   1589; 1581; 1610; 1581; 58; 42; 42; 32; 1578; 1593; 1591; 1610; 1604;
   32; 1608; 1590; 1593; 32; 1575; 1604; 1578; 1589; 1581; 1610; 1581; 32;
   1601; 1610; 32; 1573; 1589; 1583; 1575; 1585; 1575; 1578; 32; 1575;
   1604; 1573; 1606; 1578; 1575; 1580]%N.
Definition txt_recommendation_7 : pystr :=
  [55; 46; 32; 42; 42; 1578; 1571; 1605; 1610; 1606; 32; 87; 101; 98; 86;
   105; 101; 119; 58; 42; 42; 32; 1578; 1591; 1576; 1610; 1602; 32; 1602;
   1610; 1608; 1583; 32; 1571; 1605; 1606; 1610; 1577; 32; 1589; 1575;
   1585; 1605; 1577; 32; 1593; 1604; 1609; 32; 87; 101; 98; 86; 105; 101;
   119]%N.
Definition txt_recommendation_8 : pystr :=
  [56; 46; 32; 42; 42; 1605; 1585; 1575; 1580; 1593; 1577; 32; 1575; 1604;
   1603; 1608; 1583; 58; 42; 42; 32; 1573; 1580; 1585; 1575; 1569; 32;
   1605; 1585; 1575; 1580; 1593; 1575; 1578; 32; 1571; 1605; 1606; 1610;
   1577; 32; 1583; 1608; 1585; 1610; 1577; 32; 1604; 1604; 1603; 1608;
   1583; 32; 1575; 1604; 1605; 1589; 1583; 1585; 1610]%N.
Definition txt_recommendation_9 : pystr :=
  [57; 46; 32; 42; 42; 1575; 1582; 1578; 1576; 1575; 1585; 32; 1575; 1604;
   1575; 1582; 1578; 1585; 1575; 1602; 58; 42; 42; 32; 1573; 1580; 1585;
   1575; 1569; 32; 1575; 1582; 1578; 1576; 1575; 1585; 1575; 1578; 32;
   1575; 1582; 1578; 1585; 1575; 1602; 32; 1605; 1606; 1578; 1592; 1605;
   1577]%N.
Definition txt_recommendation_10 : pystr :=
  [49; 48; 46; 32; 42; 42; 1575; 1604; 1578; 1608; 1579; 1610; 1602; 32;
   1575; 1604; 1605; 1606; 1575; 1587; 1576; 58; 42; 42; 32; 1578; 1608;
   1579; 1610; 1602; 32; 1580; 1605; 1610; 1593; 32; 1575; 1604; 1573;
   1580; 1585; 1575; 1569; 1575; 1578; 32; 1575; 1604; 1571; 1605; 1606;
   1610; 1577; 32; 1575; 1604; 1605; 1591; 1576; 1602; 1577]%N.

Definition txt_sha256_label : pystr := str "- **SHA256:** `".

(** [str(n)] for an integer. *)
Definition str_of_int (n : Z) : pystr :=
  str (NilZero.string_of_int (Z.to_int n)).

(** [d.get(key, default)] for a key of a finding. *)
Definition get_or (value : option pystr) (default : pystr) : pystr :=
  match value with
  | Some s => s
  | None => default
  end.

(** [get_severity_arabic]. *)
Definition get_severity_arabic (severity : pystr) : pystr :=
  let mapping :=
    [ (str "CRITICAL", txt_arabic_critical); (str "HIGH", txt_arabic_high);
      (str "MEDIUM", txt_arabic_medium); (str "LOW", txt_arabic_low);
      (str "INFO", txt_arabic_info) ] in
  dict_get mapping severity severity.

(** [generate_recommendations]. *)
Definition generate_recommendations : pystr :=
  let recommendations :=
    [ txt_recommendation_0; txt_recommendation_1; txt_recommendation_2;
      txt_recommendation_3; txt_recommendation_4; txt_recommendation_5;
      txt_recommendation_6; txt_recommendation_7; txt_recommendation_8;
      txt_recommendation_9; txt_recommendation_10 ] in
  join [newline] recommendations.

(** The dictionary handed to the report generator: the keys it reads. *)
Record ReportInput := mkReportInput {
  in_risk_score : Z;
  in_vulnerabilities : list Finding;
  in_apk_info : option (list (pystr * pystr));
  in_permission_analysis : option PermissionAnalysis
}.

(** The dictionary [full_analysis] returns, as the report generator reads
    it: it has no key ['apk_info']. *)
Definition report_input (r : AnalysisResult) : ReportInput :=
  mkReportInput (risk_score r) (vulnerabilities r) None
    (Some (permission_analysis r)).

(** [for i, vuln in enumerate(vulns, 1): ...]. *)
Fixpoint render_findings (i : Z) (vulns : list Finding)
  (content : list pystr) : list pystr :=
  match vulns with
  | [] => content
  | vuln :: rest =>
      let content :=
        content ++ [str "#### " ++ str_of_int i ++ str ". "
                    ++ get_or (v_description vuln) txt_default_description] in
      let content :=
        content ++ [txt_type_label ++ get_or (v_type vuln) txt_unknown] in
      let content :=
        match v_file vuln with
        | Some file => content ++ [txt_file_label ++ file ++ str "`"]
        | None => content
        end in
      let content :=
        match v_line vuln with
        | Some line => content ++ [txt_line_label ++ str_of_int line]
        | None => content
        end in
      let content :=
        match v_code_snippet vuln with
        | Some snippet =>
            content ++ [txt_snippet_label]
            ++ [str "```java" ++ [newline] ++ snippet ++ [newline]
                ++ str "```"]
        | None => content
        end in
      let content :=
        match v_recommendation vuln with
        | Some recommendation =>
            content ++ [txt_recommendation_label ++ recommendation]
        | None => content
        end in
      let content := content ++ [str "---"] in
      render_findings (i + 1) rest content
  end.

(** The body of [for severity in ['HIGH', 'MEDIUM', 'LOW']]. *)
Definition render_severity (severity : pystr) (all : list Finding)
  (content : list pystr) : result (list pystr) :=
  vulns <- select_severity severity all ;;
  Ok match vulns with
     | [] => content
     | _ :: _ =>
         let content :=
           content ++ [str "### " ++ severity ++ txt_severity_infix
                       ++ get_severity_arabic severity] in
         let content := render_findings 1 vulns content in
         content ++ [[newline]]
     end.

Fixpoint render_severities (severities : list pystr) (all : list Finding)
  (content : list pystr) : result (list pystr) :=
  match severities with
  | [] => Ok content
  | severity :: rest =>
      content <- render_severity severity all content ;;
      render_severities rest all content
  end.

(** The section of the permissions. *)
Definition render_permissions (perm_analysis : PermissionAnalysis)
  (content : list pystr) : list pystr :=
  let permissions :=
    match pa_permissions perm_analysis with
    | Some permissions => permissions
    | None => []
    end in
  let content := content ++ [txt_permissions_heading] in
  let content :=
    content ++ [txt_permissions_total_label ++ str_of_int (len permissions)] in
  let content := content ++ [txt_permissions_used_label] in
  let content :=
    fold_left (fun content perm => content ++ [str "- `" ++ perm ++ str "`"])
      (firstn 20 permissions) content in
  let content :=
    if 20 <? len permissions
    then content ++ [txt_more_prefix ++ str_of_int (len permissions - 20)
                     ++ txt_more_suffix]
    else content in
  content ++ [[newline]].

(** The section of the application, for a dictionary [info]. *)
Definition render_apk_info (info : list (pystr * pystr))
  (content : list pystr) : list pystr :=
  let content := content ++ [txt_apk_heading] in
  let content :=
    content ++ [txt_package_label
                ++ dict_get info (str "package_name") txt_unknown] in
  let content :=
    content ++ [txt_version_label
                ++ dict_get info (str "version_name") txt_unknown] in
  let content :=
    content ++ [txt_sha256_label ++ dict_get info (str "sha256") txt_unknown
                ++ str "`"] in
  let content :=
    content ++ [txt_min_sdk_label
                ++ dict_get info (str "min_sdk") txt_unknown] in
  let content :=
    content ++ [txt_target_sdk_label
                ++ dict_get info (str "target_sdk") txt_unknown] in
  content ++ [[newline]].

(** [create_report_content]; [now] is the date the clock gives, formatted
    as the source asks. *)
Definition create_report_content (now : pystr) (analysis_results : ReportInput)
  : result pystr :=
  let all := in_vulnerabilities analysis_results in
  let content := [] in
  let content := content ++ [txt_report_title] in
  let content := content ++ [txt_created_label ++ now] in
  let content := content ++ [str "---" ++ [newline]] in
  let content := content ++ [txt_summary_heading] in
  let content :=
    content ++ [txt_risk_label
                ++ str_of_int (in_risk_score analysis_results)
                ++ str "/100"] in
  high <- select_severity (str "HIGH") all ;;
  medium <- select_severity (str "MEDIUM") all ;;
  low <- select_severity (str "LOW") all ;;
  let content := content ++ [txt_total_label ++ str_of_int (len all)] in
  let content := content ++ [txt_high_label ++ str_of_int (len high)] in
  let content := content ++ [txt_medium_label ++ str_of_int (len medium)] in
  let content := content ++ [txt_low_label ++ str_of_int (len low)] in
  let content := content ++ [[newline]] in
  let content :=
    match in_apk_info analysis_results with
    | Some info => render_apk_info info content
    | None => content
    end in
  let content := content ++ [txt_findings_heading] in
  content <-
    render_severities [str "HIGH"; str "MEDIUM"; str "LOW"] all content ;;
  let content :=
    match in_permission_analysis analysis_results with
    | Some perm_analysis => render_permissions perm_analysis content
    | None => content
    end in
  let content := content ++ [txt_recommendations_heading] in
  let content := content ++ [generate_recommendations] in
  let content := content ++ [txt_closing_heading] in
  let content := content ++ [txt_closing_line_1] in
  let content := content ++ [txt_closing_line_2] in
  Ok (join [newline] content).

(** The findings that get an entry in the report. *)
Definition is_rendered (v : Finding) : bool := negb (is_unbucketed v).

(** The same dictionary with other findings. *)
Definition with_findings (r : ReportInput) (vs : list Finding) : ReportInput :=
  mkReportInput (in_risk_score r) vs (in_apk_info r)
    (in_permission_analysis r).

Definition sample_report_input : ReportInput :=
  mkReportInput 21
    [ exported_finding; with_severity CRITICAL exported_finding;
      unused_finding CAMERA ]
    None (Some (mkPermissionAnalysis (Some [CAMERA]) [])).

(** ** Extraction of the archive ([core/disassembler.py]) *)

(** The archive as the extractors read it: [get_files()] gives the names
    of its entries, and [get_file(name)] the bytes of one or raises. *)
Record Apk := mkApk {
  get_files : list pystr;
  get_file : pystr -> result (list N)
}.

(** A file written under an output directory.  The list of these records
    is no variable of the source: it notes which writes ran to their
    end, for the statements on the extractors. *)
Record Written := mkWritten {
  w_dir : pystr;
  w_name : pystr;
  w_data : list N
}.

(** What creating the parent directories of [output_dir / name], opening
    the file and writing the bytes come to on a file system in a given
    state: done, or an exception, and the state the attempt leaves the file
    system in.  What an earlier iteration wrote can make a later one
    fail. *)
Definition Store (FS : Type) : Type :=
  FS -> pystr -> pystr -> list N -> result unit * FS.

(** The body of the [try] of the three extractors, for one name; the bare
    [except: continue] leaves the record of the files written so far as it
    is.  The state is the file system and that record. *)
Definition extract_entry {FS : Type} (store : Store FS) (apk : Apk)
  (output_dir : pystr) (name : pystr) (state : FS * list Written)
  : FS * list Written :=
  let (fs, written) := state in
  match get_file apk name with
  | Raise _ => (fs, written)
  | Ok data =>
      match store fs output_dir name data with
      | (Raise _, fs) => (fs, written)
      | (Ok _, fs) => (fs, written ++ [mkWritten output_dir name data])
      end
  end.

(** [extract_resources]: the test is made inside the loop. *)
Definition extract_resources {FS : Type} (store : Store FS) (apk : Apk)
  (output_dir : pystr) (state : FS * list Written) : FS * list Written :=
  let resources := get_files apk in
  fold_left
    (fun state resource =>
       if startswith resource (str "res/")
       then extract_entry store apk output_dir resource state
       else state)
    resources state.

(** [extract_assets]: the names are selected first. *)
Definition extract_assets {FS : Type} (store : Store FS) (apk : Apk)
  (output_dir : pystr) (state : FS * list Written) : FS * list Written :=
  let assets :=
    filter (fun f => startswith f (str "assets/")) (get_files apk) in
  fold_left
    (fun state asset => extract_entry store apk output_dir asset state)
    assets state.

(** [extract_libs]. *)
Definition extract_libs {FS : Type} (store : Store FS) (apk : Apk)
  (output_dir : pystr) (state : FS * list Written) : FS * list Written :=
  let libs := filter (fun f => startswith f (str "lib/")) (get_files apk) in
  fold_left
    (fun state lib => extract_entry store apk output_dir lib state)
    libs state.

(** The entry [w] is an entry of the archive, with the bytes the archive
    gives for its name. *)
Definition from_archive (apk : Apk) (dir : pystr) (w : Written) : Prop :=
  w_dir w = dir
  /\ In (w_name w) (get_files apk)
  /\ get_file apk (w_name w) = Ok (w_data w).


(** A file system on which an entry named [lib/], once written as a file,
    makes every later write below [lib/] fail: the state tells whether that
    file exists. *)
Definition blocking_store : Store bool :=
  fun lib_is_a_file _ name _ =>
    if pystr_eqb name (str "lib/") then (Ok tt, true)
    else if lib_is_a_file && startswith name (str "lib/")
         then (Raise (mkExn "NotADirectoryError" name true), lib_is_a_file)
         else (Ok tt, lib_is_a_file).

(** An archive with a manifest, code, a resource whose bytes cannot be
    read, and one entry of each extracted kind. *)
Definition sample_apk : Apk :=
  mkApk
    [ str "AndroidManifest.xml"; str "classes.dex"; str "res/broken.png";
      str "res/layout/main.xml"; str "assets/data.bin";
      str "lib/arm64-v8a/libapp.so" ]
    (fun name =>
       if pystr_eqb name (str "res/broken.png")
       then Raise (mkExn "FileNotPresent" name true)
       else Ok [80; 75]%N).

Definition always_stored : Store unit := fun fs _ _ _ => (Ok tt, fs).

(** ** Definitions for the statements on the rules and the report *)

Definition is_webview_finding (v : Finding) : bool :=
  opt_str_eqb (v_type v) (str "WEBVIEW_INSECURE").

(** The data-store check reports nothing under the type of the WebView
    check. *)
Definition database_check_leaves_webview (h : Helpers) : Prop :=
  forall content file_path found v,
    analyze_database_security h content file_path = Ok found ->
    In v found -> is_webview_finding v = false.

Definition cleartext_attribute : pystr :=
  str "android:usesCleartextTraffic=" ++ [dquote] ++ str "true" ++ [dquote].

(** [needle] occurs in [hay]. *)
Definition occurs_in (needle hay : pystr) : Prop :=
  exists before after, hay = before ++ needle ++ after.

Definition labelled (vs : list Finding) : Prop :=
  Forall (fun v => v_severity v <> None) vs.

(** Every finding the helper methods return has a severity. *)
Definition helpers_label_findings (h : Helpers) : Prop :=
  (forall cs found,
     check_component_vulnerabilities h cs = Ok found -> labelled found)
  /\ (forall root found,
        analyze_intent_filters h root = Ok found -> labelled found)
  /\ (forall root found,
        check_security_config h root = Ok found -> labelled found)
  /\ (forall d found, analyze_smali_code h d = Ok found -> labelled found)
  /\ (forall content file_path found,
        analyze_database_security h content file_path = Ok found ->
        labelled found).

(** A file that enables JavaScript in a WebView. *)
Definition browser_file : SourceFile :=
  mkSourceFile (str "com/app/Browser.java")
    (Ok (str "WebView w = new WebView(this);" ++ [newline]
         ++ str "w.getSettings().setJavaScriptEnabled(true);")).

(** ** The language of a regular expression *)

(** The strings a regular expression denotes. *)
Inductive matches : regex -> pystr -> Prop :=
| matches_Eps : matches Eps []
| matches_Chr (cs : charset) (c : N) :
    charset_mem cs c = true -> matches (Chr cs) [c]
| matches_Seq (r1 r2 : regex) (s1 s2 : pystr) :
    matches r1 s1 -> matches r2 s2 -> matches (Seq r1 r2) (s1 ++ s2)
| matches_Alt_l (r1 r2 : regex) (s : pystr) :
    matches r1 s -> matches (Alt r1 r2) s
| matches_Alt_r (r1 r2 : regex) (s : pystr) :
    matches r2 s -> matches (Alt r1 r2) s
| matches_Star_nil (r : regex) : matches (Star r) []
| matches_Star_app (r : regex) (s1 s2 : pystr) :
    matches r s1 -> matches (Star r) s2 -> matches (Star r) (s1 ++ s2).

(** [word] is [text] up to the case of its letters. *)
Definition same_ignoring_case (text word : pystr) : Prop :=
  Forall2 (fun letter c => In c (ignorecase letter)) text word.

Definition is_quote (c : N) : Prop := c = dquote \/ c = squote.

(** The line holds a word accepted by [keyword], then optional white
    space, an equals sign, optional white space, and a non-empty text
    without quotes between two quotes of either kind. *)
Definition assigns_literal (keyword : pystr -> Prop) (line : pystr) : Prop :=
  exists before word ws1 ws2 q1 body q2 after,
    line = before ++ word ++ ws1 ++ str "=" ++ ws2 ++ [q1] ++ body ++ [q2]
           ++ after
    /\ keyword word
    /\ all_spaces ws1 /\ all_spaces ws2
    /\ is_quote q1 /\ is_quote q2
    /\ body <> [] /\ Forall (fun c => ~ is_quote c) body.

(** [api], an optional [_] or [-], and [key], up to case. *)
Definition is_api_key_word (word : pystr) : Prop :=
  exists api sep key,
    word = api ++ sep ++ key
    /\ same_ignoring_case (str "api") api
    /\ (sep = [] \/ sep = str "_" \/ sep = str "-")
    /\ same_ignoring_case (str "key") key.

(** ** The analyzer as an object

    The methods of the class receive the object [self].  None of the
    methods the source defines assigns an attribute of it, but a method
    the source does not define may read it and may store to it.  In this
    module every method takes the object and gives it back with its
    outcome, so that what a run leaves on the object is something to
    prove. *)

Module Obj.

Definition M (A : Type) : Type :=
  SecurityAnalyzer -> result A * SecurityAnalyzer.

Definition ret {A : Type} (a : A) : M A := fun self => (Ok a, self).

Definition lift {A : Type} (r : result A) : M A := fun self => (r, self).

Definition bind {A B : Type} (c : M A) (k : A -> M B) : M B :=
  fun self =>
    match c self with
    | (Ok a, self) => k a self
    | (Raise e, self) => (Raise e, self)
    end.

(** The methods the source calls and does not define, as methods. *)
Record Methods := mkMethods {
  extract_permissions : Element -> M (list pystr);
  analyze_components : Element -> M (list ComponentDecl);
  check_component_vulnerabilities : list ComponentDecl -> M (list Finding);
  analyze_intent_filters : Element -> M (list Finding);
  check_security_config : Element -> M (list Finding);
  analyze_smali_code : Dir -> M (list Finding);
  count_files : Dir -> M Z;
  analyze_database_security : pystr -> pystr -> M (list Finding);
  detect_used_permissions : Dir -> M (list pystr);
  analyze_resources : Project -> M ResourceAnalysis
}.

(** Helpers that neither read nor change the object. *)
Definition pure (h : Helpers) : Methods :=
  match h with
  | mkHelpers permissions components component_check intent_check
      config_check smali count database used resources =>
      mkMethods
        (fun root => lift (permissions root))
        (fun root => lift (components root))
        (fun cs => lift (component_check cs))
        (fun root => lift (intent_check root))
        (fun root => lift (config_check root))
        (fun d => lift (smali d))
        (fun d => lift (count d))
        (fun content file_path => lift (database content file_path))
        (fun d => lift (used d))
        (fun p => lift (resources p))
  end.

(** The [try] block of [analyze_manifest]. *)
Definition manifest_try (m : Methods) (parsed : result Element)
  (self : SecurityAnalyzer)
  : ManifestLocals * result unit * SecurityAnalyzer :=
  let vulnerabilities := [] in
  match parsed with
  | Raise e => (mkManifestLocals None None vulnerabilities, Raise e, self)
  | Ok root =>
  match extract_permissions m root self with
  | (Raise e, self) =>
      (mkManifestLocals None None vulnerabilities, Raise e, self)
  | (Ok permissions, self) =>
  match analyze_components m root self with
  | (Raise e, self) =>
      (mkManifestLocals (Some permissions) None vulnerabilities, Raise e,
       self)
  | (Ok components, self) =>
  let bound := mkManifestLocals (Some permissions) (Some components) in
  match check_component_vulnerabilities m components self with
  | (Raise e, self) => (bound vulnerabilities, Raise e, self)
  | (Ok found, self) =>
  let vulnerabilities := vulnerabilities ++ found in
  match analyze_intent_filters m root self with
  | (Raise e, self) => (bound vulnerabilities, Raise e, self)
  | (Ok found, self) =>
  let vulnerabilities := vulnerabilities ++ found in
  match check_security_config m root self with
  | (Raise e, self) => (bound vulnerabilities, Raise e, self)
  | (Ok found, self) =>
  let vulnerabilities := vulnerabilities ++ found in
  (bound vulnerabilities, Ok tt, self)
  end end end end end end.

(** [analyze_manifest]. *)
Definition analyze_manifest (m : Methods) (p : Project) : M ManifestAnalysis :=
  fun self =>
    match manifest p with
    | None => (Ok (ManifestError (str "Manifest not found")), self)
    | Some parsed =>
        let issues := [] in
        let '(locals, outcome, self) := manifest_try m parsed self in
        (issues <-
           match outcome with
           | Ok _ => Ok issues
           | Raise e =>
               if exc_is_Exception e
               then Ok (issues ++ [fmt (str "Error parsing manifest: ") e])
               else Raise e
           end ;;
         permissions <- local "permissions" (ml_permissions locals) ;;
         components <- local "components" (ml_components locals) ;;
         Ok (ManifestReport permissions components
               (ml_vulnerabilities locals) issues),
         self)
    end.

(** The body of the [try] of [analyze_java_code] for one file. *)
Definition scan_java_file (m : Methods) (dir : pystr) (f : SourceFile)
  (vulnerabilities : list Finding) (self : SecurityAnalyzer)
  : list Finding * result unit * SecurityAnalyzer :=
  match read f with
  | Raise e => (vulnerabilities, Raise e, self)
  | Ok content =>
      let vulnerabilities :=
        fst (scan_lines (rel_path f) (split newline content)
               vulnerabilities) in
      let file_path := joinpath dir (rel_path f) in
      let vulnerabilities :=
        if contains (str "WebView") content
        then vulnerabilities ++ analyze_webview_security content file_path
        else vulnerabilities in
      match analyze_database_security m content file_path self with
      | (Raise e, self) => (vulnerabilities, Raise e, self)
      | (Ok found, self) => (vulnerabilities ++ found, Ok tt, self)
      end
  end.

(** [analyze_java_code]. *)
Definition analyze_java_code (m : Methods) (dir : pystr)
  (files : list SourceFile) : M (list Finding) :=
  fun self =>
    let '(vulnerabilities, self) :=
      fold_left
        (fun '(vulnerabilities, self) f =>
           match scan_java_file m dir f vulnerabilities self with
           | (vulnerabilities, _, self) => (vulnerabilities, self)
           end)
        files ([], self) in
    (Ok vulnerabilities, self).

(** [analyze_code]. *)
Definition analyze_code (m : Methods) (p : Project) : M CodeAnalysis :=
  let vulnerabilities := [] in
  bind
    match java p with
    | Some files =>
        bind (analyze_java_code m (fst (java_dir p)) files)
          (fun found => ret (vulnerabilities ++ found))
    | None => ret vulnerabilities
    end
    (fun vulnerabilities =>
  bind
    match smali p with
    | Some _ =>
        bind (analyze_smali_code m (smali_dir p))
          (fun found => ret (vulnerabilities ++ found))
    | None => ret vulnerabilities
    end
    (fun vulnerabilities =>
  bind (count_files m (java_dir p)) (fun n_java =>
  bind (count_files m (smali_dir p)) (fun n_smali =>
  ret (mkCodeAnalysis vulnerabilities (n_java + n_smali)))))).

(** The [try] block of [analyze_permissions]. *)
Definition permissions_try (m : Methods) (p : Project)
  (parsed : result Element) (self : SecurityAnalyzer)
  : option (list pystr) * list Finding * result unit * SecurityAnalyzer :=
  let vulnerabilities := [] in
  match parsed with
  | Raise e => (None, vulnerabilities, Raise e, self)
  | Ok root =>
  match extract_permissions m root self with
  | (Raise e, self) => (None, vulnerabilities, Raise e, self)
  | (Ok permissions, self) =>
  let vulnerabilities := flag_dangerous permissions vulnerabilities in
  let code_dir := java_dir p in
  match detect_used_permissions m code_dir self with
  | (Raise e, self) => (Some permissions, vulnerabilities, Raise e, self)
  | (Ok used_perms, self) =>
  let vulnerabilities := flag_unused permissions used_perms vulnerabilities in
  (Some permissions, vulnerabilities, Ok tt, self)
  end end end.

(** [analyze_permissions]. *)
Definition analyze_permissions (m : Methods) (p : Project)
  : M PermissionAnalysis :=
  fun self =>
    match manifest p with
    | None => (Ok (mkPermissionAnalysis None []), self)
    | Some parsed =>
        let '(permissions, vulnerabilities, outcome, self) :=
          permissions_try m p parsed self in
        (vulnerabilities <-
           match outcome with
           | Ok _ => Ok vulnerabilities
           | Raise e =>
               if exc_is_Exception e
               then Ok (vulnerabilities ++ [analysis_error_finding e])
               else Raise e
           end ;;
         permissions <- local "permissions" permissions ;;
         Ok (mkPermissionAnalysis (Some permissions) vulnerabilities),
         self)
    end.

(** [full_analysis]: the attribute [security_issues] is read when the
    dictionary is completed, after the four analyses. *)
Definition full_analysis (m : Methods) (p : Project) : M AnalysisResult :=
  bind (analyze_manifest m p) (fun manifest_analysis =>
  bind (analyze_code m p) (fun code_analysis =>
  bind (analyze_permissions m p) (fun permission_analysis =>
  bind (analyze_resources m p) (fun resource_analysis =>
  bind (lift (manifest_vulnerabilities manifest_analysis)) (fun found =>
  fun self =>
    let all_vulns := [] in
    let all_vulns := all_vulns ++ found in
    let all_vulns := all_vulns ++ ca_vulnerabilities code_analysis in
    let all_vulns := all_vulns ++ pa_vulnerabilities permission_analysis in
    (Ok (mkAnalysisResult manifest_analysis code_analysis
           permission_analysis resource_analysis all_vulns
           (self_security_issues self) (calculate_risk_score all_vulns)),
     self)))))).

(** A method call that gives the object back as it got it. *)
Definition keeps {A : Type} (c : M A) : Prop :=
  forall self, snd (c self) = self.

(** None of the undefined methods stores to the object. *)
Definition methods_keep_object (m : Methods) : Prop :=
  (forall root, keeps (extract_permissions m root))
  /\ (forall root, keeps (analyze_components m root))
  /\ (forall cs, keeps (check_component_vulnerabilities m cs))
  /\ (forall root, keeps (analyze_intent_filters m root))
  /\ (forall root, keeps (check_security_config m root))
  /\ (forall d, keeps (analyze_smali_code m d))
  /\ (forall d, keeps (count_files m d))
  /\ (forall content file_path,
        keeps (analyze_database_security m content file_path))
  /\ (forall d, keeps (detect_used_permissions m d))
  /\ (forall p, keeps (analyze_resources m p)).


(** Methods that store to the object: the security-configuration check
    reports the findings the object holds and adds one to them. *)
Definition storing_methods : Methods :=
  mkMethods
    (fun _ => ret []) (fun _ => ret []) (fun _ => ret []) (fun _ => ret [])
    (fun _ self =>
       (Ok (self_vulnerabilities self),
        mkSecurityAnalyzer (self_vulnerabilities self ++ [exported_finding])
          (self_security_issues self)))
    (fun _ => ret []) (fun _ => ret 0) (fun _ _ => ret [])
    (fun _ => ret []) (fun _ => ret (mkResourceAnalysis [])).

End Obj.

(** * Properties *)

(** ** Strings and lists *)

Lemma pystr_eqb_eq (a b : pystr) : pystr_eqb a b = true <-> a = b.
Proof.
  unfold pystr_eqb. destruct (list_eq_dec N.eq_dec a b); split; congruence.
Qed.

Lemma pystr_eqb_refl (a : pystr) : pystr_eqb a a = true.
Proof. now apply pystr_eqb_eq. Qed.

Lemma pystr_eqb_neq (a b : pystr) : pystr_eqb a b = false <-> a <> b.
Proof.
  unfold pystr_eqb. destruct (list_eq_dec N.eq_dec a b); split; congruence.
Qed.

Lemma pystr_eqb_sym (a b : pystr) : pystr_eqb a b = pystr_eqb b a.
Proof.
  destruct (pystr_eqb b a) eqn:E.
  - apply pystr_eqb_eq in E. subst. apply pystr_eqb_refl.
  - apply pystr_eqb_neq in E. apply pystr_eqb_neq. congruence.
Qed.

Lemma fold_left_ext {A B : Type} (f g : A -> B -> A) (l : list B) (a : A) :
  (forall x y, f x y = g x y) -> fold_left f l a = fold_left g l a.
Proof.
  intros E. revert a. induction l as [|b l IH]; intros a; simpl.
  - reflexivity.
  - now rewrite E, IH.
Qed.

(** A loop that only appends to its accumulator adds, element by element,
    what each iteration appends. *)
Lemma fold_left_append {A B : Type} (f : B -> list A) (l : list B)
  (acc : list A) :
  fold_left (fun acc b => acc ++ f b) l acc = acc ++ flat_map f l.
Proof.
  revert acc. induction l as [|b l IH]; intros acc; simpl.
  - now rewrite app_nil_r.
  - now rewrite IH, app_assoc.
Qed.

Lemma filter_none {A : Type} (f : A -> bool) (l : list A) :
  (forall x, In x l -> f x = false) -> filter f l = [].
Proof.
  induction l as [|a l IH]; intros H; simpl.
  - reflexivity.
  - rewrite (H a (or_introl eq_refl)). apply IH.
    intros x Hx. apply H. now right.
Qed.

(** ** The text operations on small inputs *)

Example split_keeps_last_empty_line :
  split newline (str "a" ++ [newline] ++ str "b" ++ [newline])
  = [str "a"; str "b"; []].
Proof. reflexivity. Qed.

Example strip_both_ends :
  strip ([9; 32]%N ++ str "int x = 1;" ++ [32; 13]%N) = str "int x = 1;".
Proof. reflexivity. Qed.

Example password_pattern_ignores_case :
  re_search pattern_password (str "  PassWord='s3cret'") = true.
Proof. vm_compute. reflexivity. Qed.

Example password_pattern_needs_a_value :
  re_search pattern_password (str "password = ''") = false.
Proof. vm_compute. reflexivity. Qed.

Example api_key_pattern_separator :
  re_search pattern_api_key (str "final String API-KEY = 'k';") = true
  /\ re_search pattern_api_key (str "api key = 'k'") = false.
Proof. vm_compute. split; reflexivity. Qed.

Example http_pattern_is_case_sensitive :
  re_search pattern_http (str "get('http://host')") = true
  /\ re_search pattern_http (str "get('HTTP://host')") = false.
Proof. vm_compute. split; reflexivity. Qed.

(** ** Risk scorer *)

Lemma score_of_severity (v : Finding) :
  dict_get severity_scores (get_severity v) 1 = finding_weight v.
Proof.
  unfold get_severity, finding_weight.
  destruct (v_severity v) as [l|]; [|reflexivity].
  unfold parse_severity, severity_scores, dict_get.
  rewrite !(pystr_eqb_sym _ l).
  repeat (destruct (pystr_eqb l _); [reflexivity|]).
  reflexivity.
Qed.

Lemma finding_weight_pos (v : Finding) : 1 <= finding_weight v.
Proof.
  unfold finding_weight.
  destruct (v_severity v) as [l|]; [|simpl; lia].
  destruct (parse_severity l) as [[]|]; simpl; lia.
Qed.

Lemma sum_weights_nonneg (vs : list Finding) : 0 <= sum_weights vs.
Proof.
  induction vs as [|v vs IH]; simpl; [lia|].
  pose proof (finding_weight_pos v). lia.
Qed.

Lemma sum_weights_app (vs ws : list Finding) :
  sum_weights (vs ++ ws) = sum_weights vs + sum_weights ws.
Proof.
  induction vs as [|v vs IH]; simpl; [reflexivity|]. rewrite IH. lia.
Qed.

Lemma sum_weights_repeat (v : Finding) (n : nat) :
  sum_weights (repeat v n) = Z.of_nat n * finding_weight v.
Proof.
  induction n as [|n IH]; [reflexivity|].
  change (repeat v (S n)) with (v :: repeat v n).
  cbn [sum_weights fold_right]. fold (sum_weights (repeat v n)).
  rewrite IH. lia.
Qed.

(** The loop of the scorer adds the weights to the running score. *)
Lemma score_loop (vs : list Finding) (score : Z) :
  fold_left add_score vs score = score + sum_weights vs.
Proof.
  revert score. induction vs as [|v vs IH]; intros score; simpl.
  - lia.
  - rewrite IH. unfold add_score. rewrite score_of_severity. lia.
Qed.

Lemma risk_score_sum (vs : list Finding) :
  calculate_risk_score vs = Z.min (sum_weights vs) 100.
Proof. unfold calculate_risk_score. now rewrite score_loop. Qed.

Lemma weight_with_severity (s : Severity) (v : Finding) :
  finding_weight (with_severity s v) = weight s.
Proof. destruct s; reflexivity. Qed.

(** C1: the risk score of any list of findings is the sum of the weights
    of their severities (CRITICAL 10, HIGH 7, MEDIUM 4, LOW 2, INFO 1)
    clamped at 100, hence an integer between 0 and 100; a list of 1000
    CRITICAL findings scores exactly 100. *)
Theorem risk_score_weighted_sum_clamped :
  (forall vs, calculate_risk_score vs = Z.min (sum_weights vs) 100)
  /\ (forall s v, finding_weight (with_severity s v) = weight s)
  /\ (forall vs, 0 <= calculate_risk_score vs <= 100)
  /\ (forall v,
        calculate_risk_score (repeat (with_severity CRITICAL v) 1000) = 100).
Proof.
  split; [exact risk_score_sum|].
  split; [exact weight_with_severity|].
  split.
  - intros vs. rewrite risk_score_sum.
    pose proof (sum_weights_nonneg vs). lia.
  - intros v. rewrite risk_score_sum, sum_weights_repeat.
    rewrite weight_with_severity. reflexivity.
Qed.

(** C8: appending one finding of any severity to a list of findings never
    lowers the risk score. *)
Theorem risk_score_monotone (vs : list Finding) (v : Finding) :
  calculate_risk_score vs <= calculate_risk_score (vs ++ [v]).
Proof.
  rewrite !risk_score_sum, sum_weights_app. simpl.
  pose proof (finding_weight_pos v). lia.
Qed.

(** ** Source scanner *)

Lemma scan_line_appends (relative : pystr) (n : Z) (line : pystr)
  (acc : list Finding) :
  scan_line relative n line acc = acc ++ line_findings relative n line.
Proof.
  unfold scan_line, line_findings.
  rewrite <- fold_left_append. apply fold_left_ext.
  intros vs [pattern issue].
  destruct (re_search pattern line); [reflexivity|now rewrite app_nil_r].
Qed.

Lemma scan_lines_loop (relative : pystr) (lines : list pystr)
  (acc : list Finding) (n : Z) :
  fold_left
    (fun '(vulnerabilities, line_num) line =>
       let line_num := line_num + 1 in
       (scan_line relative line_num line vulnerabilities, line_num))
    lines (acc, n)
  = (acc ++ lines_findings relative n lines, n + Z.of_nat (List.length lines)).
Proof.
  revert acc n. induction lines as [|line rest IH]; intros acc n.
  - simpl. rewrite app_nil_r. f_equal. lia.
  - cbn [fold_left lines_findings List.length]. rewrite IH.
    rewrite scan_line_appends, <- app_assoc. f_equal. lia.
Qed.

Lemma scan_lines_appends (relative : pystr) (lines : list pystr)
  (acc : list Finding) :
  fst (scan_lines relative lines acc)
  = acc ++ lines_findings relative 0 lines.
Proof. unfold scan_lines. now rewrite scan_lines_loop. Qed.

(** Whether the body of the [try] returns or raises, the findings list
    grows by the findings of the file. *)
Lemma scan_java_file_appends (h : Helpers) (dir : pystr) (f : SourceFile)
  (acc : list Finding) :
  fst (scan_java_file h dir f acc) = acc ++ file_findings h dir f.
Proof.
  unfold scan_java_file, file_findings.
  destruct (read f) as [content|e]; simpl.
  - rewrite scan_lines_appends.
    destruct (contains (str "WebView") content);
      destruct (analyze_database_security h content
                  (joinpath dir (rel_path f))) as [found|e];
      simpl; rewrite <- ?app_assoc, ?app_nil_r; reflexivity.
  - now rewrite app_nil_r.
Qed.

Lemma analyze_java_code_flat_map (h : Helpers) (dir : pystr)
  (files : list SourceFile) :
  analyze_java_code h dir files = Ok (flat_map (file_findings h dir) files).
Proof.
  unfold analyze_java_code. f_equal.
  change (flat_map (file_findings h dir) files)
    with ([] ++ flat_map (file_findings h dir) files).
  rewrite <- fold_left_append. apply fold_left_ext.
  intros acc f. rewrite <- scan_java_file_appends.
  destruct (scan_java_file h dir f acc) as [vs [u|e]]; reflexivity.
Qed.

(** C5: a file whose reading raises never makes the scan fail: the scan
    returns, and returns exactly the findings of the other files, in their
    order. *)
Theorem unreadable_file_is_skipped (h : Helpers) (dir : pystr)
  (before after : list SourceFile) (f : SourceFile) (e : exn) :
  read f = Raise e ->
  exists found,
    analyze_java_code h dir (before ++ f :: after) = Ok found
    /\ analyze_java_code h dir (before ++ after) = Ok found
    /\ found = flat_map (file_findings h dir) before
               ++ flat_map (file_findings h dir) after.
Proof.
  intros Hread. rewrite !analyze_java_code_flat_map.
  eexists. split; [|split]; [| |reflexivity].
  - rewrite flat_map_app. simpl.
    unfold file_findings at 2. rewrite Hread. reflexivity.
  - now rewrite flat_map_app.
Qed.

Lemma unreadable_file_is_skipped_witness :
  exists found,
    analyze_java_code undefined_methods (str "/work/app/java")
      ([mkSourceFile (str "B.java") (Ok password_line)]
       ++ mkSourceFile (str "broken.java")
            (Raise (PermissionError "Permission denied"))
          :: [mkSourceFile (str "A.java") (Ok password_line)])
    = Ok found
    /\ analyze_java_code undefined_methods (str "/work/app/java")
         ([mkSourceFile (str "B.java") (Ok password_line)]
          ++ [mkSourceFile (str "A.java") (Ok password_line)])
       = Ok found
    /\ found
       = flat_map (file_findings undefined_methods (str "/work/app/java"))
           [mkSourceFile (str "B.java") (Ok password_line)]
         ++ flat_map (file_findings undefined_methods (str "/work/app/java"))
              [mkSourceFile (str "A.java") (Ok password_line)].
Proof.
  apply (unreadable_file_is_skipped undefined_methods (str "/work/app/java")
           [mkSourceFile (str "B.java") (Ok password_line)]
           [mkSourceFile (str "A.java") (Ok password_line)]
           (mkSourceFile (str "broken.java")
              (Raise (PermissionError "Permission denied")))
           (PermissionError "Permission denied")).
  reflexivity.
Defined.

Lemma line_findings_In (relative : pystr) (n : Z) (line : pystr)
  (v : Finding) :
  In v (line_findings relative n line) ->
  v_file v = Some relative /\ v_line v = Some n
  /\ v_type v = Some (str "SENSITIVE_DATA").
Proof.
  unfold line_findings. rewrite in_flat_map.
  intros [[pattern issue] [_ Hv]].
  destruct (re_search pattern line); simpl in Hv; [|tauto].
  destruct Hv as [<-|[]]. now repeat split.
Qed.

Lemma lines_findings_In (relative : pystr) (lines : list pystr) (n : Z)
  (v : Finding) :
  In v (lines_findings relative n lines) ->
  v_file v = Some relative
  /\ exists m, v_line v = Some m /\ n < m <= n + Z.of_nat (List.length lines).
Proof.
  revert n. induction lines as [|line rest IH]; intros n; simpl.
  - tauto.
  - rewrite in_app_iff. intros [Hv|Hv].
    + apply line_findings_In in Hv. destruct Hv as (Hf & Hl & _).
      split; [exact Hf|]. exists (n + 1). split; [exact Hl|lia].
    + apply IH in Hv. destruct Hv as (Hf & m & Hl & Hm).
      split; [exact Hf|]. exists m. split; [exact Hl|lia].
Qed.

Lemma is_sensitive_at_other_line (relative : pystr) (n m : Z) (v : Finding) :
  v_line v = Some m -> m <> n -> is_sensitive_at relative n v = false.
Proof.
  intros Hl Hne. unfold is_sensitive_at. rewrite Hl. simpl.
  apply Z.eqb_neq in Hne. rewrite Hne. apply andb_false_r.
Qed.

Lemma is_sensitive_at_other_file (relative other : pystr) (n : Z)
  (v : Finding) :
  v_file v = Some other -> other <> relative ->
  is_sensitive_at relative n v = false.
Proof.
  intros Hf Hne. unfold is_sensitive_at. rewrite Hf. simpl.
  apply pystr_eqb_neq in Hne. rewrite Hne.
  now rewrite andb_false_r.
Qed.

Lemma is_sensitive_at_other_type (relative : pystr) (n : Z) (v : Finding) :
  v_type v <> Some (str "SENSITIVE_DATA") ->
  is_sensitive_at relative n v = false.
Proof.
  intros Hne. unfold is_sensitive_at.
  destruct (v_type v) as [t|]; simpl; [|reflexivity].
  destruct (pystr_eqb t (str "SENSITIVE_DATA")) eqn:E; [|reflexivity].
  apply pystr_eqb_eq in E. congruence.
Qed.

(** Among the findings of the lines of a file, those of line [i + 1] are
    the findings of the line at index [i]. *)
Lemma filter_lines_findings (relative : pystr) (lines : list pystr) :
  forall (n : Z) (i : nat) (line : pystr),
    nth_error lines i = Some line ->
    filter (is_sensitive_at relative (n + Z.of_nat i + 1))
      (lines_findings relative n lines)
    = filter (is_sensitive_at relative (n + Z.of_nat i + 1))
        (line_findings relative (n + Z.of_nat i + 1) line).
Proof.
  induction lines as [|l rest IH]; intros n i line Hnth.
  - destruct i; discriminate.
  - cbn [lines_findings]. rewrite filter_app. destruct i as [|i].
    + injection Hnth as ->.
      replace (n + Z.of_nat 0 + 1) with (n + 1) by lia.
      rewrite (filter_none _ (lines_findings relative (n + 1) rest)).
      * now rewrite app_nil_r.
      * intros v Hv. apply lines_findings_In in Hv.
        destruct Hv as (_ & m & Hl & Hm).
        apply (is_sensitive_at_other_line _ _ m); [exact Hl|lia].
    + cbn [nth_error] in Hnth.
      rewrite (filter_none _ (line_findings relative (n + 1) l)).
      * replace (n + Z.of_nat (S i) + 1) with (n + 1 + Z.of_nat i + 1)
          by lia.
        now apply IH.
      * intros v Hv. apply line_findings_In in Hv.
        destruct Hv as (_ & Hl & _).
        apply (is_sensitive_at_other_line _ _ (n + 1)); [exact Hl|lia].
Qed.

Lemma password_line_matches :
  re_search pattern_password password_line = true
  /\ re_search pattern_api_key password_line = false
  /\ re_search pattern_token password_line = false
  /\ re_search pattern_http password_line = false
  /\ re_search pattern_cleartext password_line = false.
Proof. vm_compute. repeat split. Qed.

Lemma is_sensitive_at_password_finding (relative : pystr) (n : Z) :
  is_sensitive_at relative n (password_finding relative n) = true.
Proof.
  unfold is_sensitive_at, password_finding. cbn.
  now rewrite !pystr_eqb_refl, Z.eqb_refl.
Qed.

Lemma webview_not_sensitive (content file_path relative : pystr) (n : Z) :
  filter (is_sensitive_at relative n)
    (analyze_webview_security content file_path) = [].
Proof.
  unfold analyze_webview_security.
  destruct (contains (str "setJavaScriptEnabled(true)") content);
    [|reflexivity].
  destruct (negb (contains (str "setAllowFileAccess(false)") content));
    reflexivity.
Qed.

(** The structural checks of a file add no sensitive-data finding. *)
Lemma filter_file_findings (h : Helpers) (dir : pystr) (f : SourceFile)
  (relative : pystr) (n : Z) (content : pystr) :
  database_check_is_structural h ->
  read f = Ok content ->
  filter (is_sensitive_at relative n) (file_findings h dir f)
  = filter (is_sensitive_at relative n)
      (lines_findings (rel_path f) 0 (split newline content)).
Proof.
  intros Hdb Hread. unfold file_findings. rewrite Hread.
  rewrite !filter_app.
  replace (filter _ (if contains (str "WebView") content then _ else []))
    with (@nil Finding)
    by (destruct (contains (str "WebView") content);
        [now rewrite webview_not_sensitive|reflexivity]).
  destruct (analyze_database_security h content (joinpath dir (rel_path f)))
    as [found|e] eqn:E.
  - rewrite (filter_none _ found); [now rewrite !app_nil_r|].
    intros v Hv. apply is_sensitive_at_other_type. now apply (Hdb _ _ _ _ E).
  - now rewrite !app_nil_r.
Qed.

(** A file with another path adds nothing for this file. *)
Lemma filter_other_file (h : Helpers) (dir : pystr) (f : SourceFile)
  (relative : pystr) (n : Z) :
  database_check_is_structural h ->
  rel_path f <> relative ->
  filter (is_sensitive_at relative n) (file_findings h dir f) = [].
Proof.
  intros Hdb Hne. destruct (read f) as [content|e] eqn:Hread.
  - rewrite (filter_file_findings h dir f relative n content Hdb Hread).
    apply filter_none. intros v Hv. apply lines_findings_In in Hv.
    destruct Hv as (Hf & _).
    now apply (is_sensitive_at_other_file _ (rel_path f)).
  - unfold file_findings. now rewrite Hread.
Qed.

Lemma filter_other_files (h : Helpers) (dir : pystr)
  (files : list SourceFile) (relative : pystr) (n : Z) :
  database_check_is_structural h ->
  ~ In relative (map rel_path files) ->
  filter (is_sensitive_at relative n) (flat_map (file_findings h dir) files)
  = [].
Proof.
  intros Hdb. induction files as [|f files IH]; intros Hnotin.
  - reflexivity.
  - cbn [flat_map]. rewrite filter_app.
    rewrite filter_other_file, IH; trivial.
    + intros Hin. apply Hnotin. now right.
    + intros Heq. apply Hnotin. left. exact Heq.
Qed.

(** ** Permission analyzer *)

Lemma flag_dangerous_appends (permissions : list pystr)
  (acc : list Finding) :
  flag_dangerous permissions acc
  = acc ++ flat_map
             (fun perm => if str_in perm dangerous_perms
                          then [dangerous_finding perm] else [])
             permissions.
Proof.
  unfold flag_dangerous. rewrite <- fold_left_append.
  apply fold_left_ext. intros vs perm.
  destruct (str_in perm dangerous_perms);
    [reflexivity|now rewrite app_nil_r].
Qed.

Lemma flag_unused_appends (permissions used : list pystr)
  (acc : list Finding) :
  flag_unused permissions used acc
  = acc ++ flat_map
             (fun perm => if negb (str_in perm used)
                          then [unused_finding perm] else [])
             permissions.
Proof.
  unfold flag_unused. rewrite <- fold_left_append.
  apply fold_left_ext. intros vs perm.
  destruct (negb (str_in perm used)); [reflexivity|now rewrite app_nil_r].
Qed.

Section PerPermission.

(** A loop that reports [report perm] for the permissions that satisfy
    [flagged], and a test [about] that recognises the report of one
    permission [q]. *)
Variables (flagged : pystr -> bool) (report : pystr -> Finding).
Variables (about : Finding -> bool) (q : pystr).
Hypothesis about_report : forall perm, about (report perm) = pystr_eqb perm q.

Let reports (permissions : list pystr) : list Finding :=
  flat_map (fun perm => if flagged perm then [report perm] else [])
    permissions.

Lemma filter_reports_absent (permissions : list pystr) :
  ~ In q permissions -> filter about (reports permissions) = [].
Proof.
  induction permissions as [|perm rest IH]; intros Hnotin.
  - reflexivity.
  - unfold reports in *. cbn [flat_map]. rewrite filter_app.
    rewrite IH by (intros H; apply Hnotin; now right).
    rewrite app_nil_r. destruct (flagged perm); [|reflexivity].
    cbn [filter]. rewrite about_report.
    replace (pystr_eqb perm q) with false; [reflexivity|].
    symmetry. apply pystr_eqb_neq. intros ->. apply Hnotin. now left.
Qed.

Lemma filter_reports_declared (permissions : list pystr) :
  NoDup permissions -> In q permissions ->
  filter about (reports permissions)
  = if flagged q then [report q] else [].
Proof.
  induction permissions as [|perm rest IH]; intros Hnodup Hin.
  - destruct Hin.
  - inversion Hnodup as [|? ? Hnotin Hrest]; subst.
    unfold reports in *. cbn [flat_map]. rewrite filter_app.
    destruct Hin as [->|Hin].
    + fold (reports rest). rewrite (filter_reports_absent rest Hnotin).
      rewrite app_nil_r. destruct (flagged q); [|reflexivity].
      cbn [filter]. now rewrite about_report, pystr_eqb_refl.
    + rewrite (IH Hrest Hin).
      replace (filter about (if flagged perm then [report perm] else []))
        with (@nil Finding); [reflexivity|].
      destruct (flagged perm); [|reflexivity].
      cbn [filter]. rewrite about_report.
      replace (pystr_eqb perm q) with false; [reflexivity|].
      symmetry. apply pystr_eqb_neq. intros ->. now apply Hnotin.
Qed.

(** Reports that the test never recognises are filtered out. *)
Lemma filter_reports_unrelated (other : pystr -> Finding)
  (cond : pystr -> bool) (permissions : list pystr) :
  (forall perm, about (other perm) = false) ->
  filter about
    (flat_map (fun perm => if cond perm then [other perm] else [])
       permissions) = [].
Proof.
  intros Hother. apply filter_none. intros v Hv.
  apply in_flat_map in Hv. destruct Hv as (perm & _ & Hv).
  destruct (cond perm); [|destruct Hv].
  destruct Hv as [<-|[]]. apply Hother.
Qed.

End PerPermission.

Lemma prefixed_eqb (prefix a b : pystr) :
  pystr_eqb (prefix ++ a) (prefix ++ b) = pystr_eqb a b.
Proof.
  destruct (pystr_eqb a b) eqn:E.
  - apply pystr_eqb_eq in E. subst. apply pystr_eqb_refl.
  - apply pystr_eqb_neq in E. apply pystr_eqb_neq.
    intros H. apply app_inv_head in H. contradiction.
Qed.

Lemma dangerous_about_dangerous (q perm : pystr) :
  is_reported (str "DANGEROUS_PERMISSION") (dangerous_prefix ++ q)
    (dangerous_finding perm) = pystr_eqb perm q.
Proof.
  unfold is_reported, dangerous_finding, opt_str_eqb. cbn [v_type v_description].
  now rewrite pystr_eqb_refl, prefixed_eqb.
Qed.

Lemma unused_about_unused (q perm : pystr) :
  is_reported (str "UNUSED_PERMISSION") (unused_prefix ++ q)
    (unused_finding perm) = pystr_eqb perm q.
Proof.
  unfold is_reported, unused_finding, opt_str_eqb. cbn [v_type v_description].
  now rewrite pystr_eqb_refl, prefixed_eqb.
Qed.

Lemma unused_not_dangerous (description perm : pystr) :
  is_reported (str "DANGEROUS_PERMISSION") description (unused_finding perm)
  = false.
Proof. reflexivity. Qed.

Lemma dangerous_not_unused (description perm : pystr) :
  is_reported (str "UNUSED_PERMISSION") description (dangerous_finding perm)
  = false.
Proof. reflexivity. Qed.

(** The findings of a permission analysis whose helpers return. *)
Lemma analyze_permissions_returns (h : Helpers) (p : Project)
  (root : Element) (permissions used : list pystr) :
  manifest p = Some (Ok root) ->
  extract_permissions h root = Ok permissions ->
  detect_used_permissions h (java_dir p) = Ok used ->
  analyze_permissions h p
  = Ok (mkPermissionAnalysis (Some permissions)
          (flat_map
             (fun perm => if str_in perm dangerous_perms
                          then [dangerous_finding perm] else [])
             permissions
           ++ flat_map
                (fun perm => if negb (str_in perm used)
                             then [unused_finding perm] else [])
                permissions)).
Proof.
  intros Hm He Hd. unfold analyze_permissions, permissions_try.
  rewrite Hm, He, Hd. cbn.
  now rewrite flag_unused_appends, flag_dangerous_appends.
Qed.




(** ** Manifest analyzer *)

(** C3: when parsing the manifest raises, [analyze_manifest] does not
    return its result: the handler records the failure and the [return]
    then reads the local [permissions], which the [try] never bound. *)
Theorem malformed_manifest_aborts (h : Helpers) (p : Project) (e : exn) :
  manifest p = Some (Raise e) ->
  exc_is_Exception e = true ->
  analyze_manifest h p = Raise (UnboundLocalError "permissions")
  /\ fst (full_analysis h fresh_analyzer p)
     = Raise (UnboundLocalError "permissions").
Proof.
  intros Hm He.
  assert (H : analyze_manifest h p = Raise (UnboundLocalError "permissions")).
  { unfold analyze_manifest, manifest_try. rewrite Hm. cbn.
    rewrite He. reflexivity. }
  split; [exact H|].
  unfold full_analysis, run_analysis. cbn [fst]. now rewrite H.
Qed.

Lemma malformed_manifest_aborts_witness :
  analyze_manifest undefined_methods malformed_manifest_project
  = Raise (UnboundLocalError "permissions")
  /\ fst (full_analysis undefined_methods fresh_analyzer
            malformed_manifest_project)
     = Raise (UnboundLocalError "permissions").
Proof.
  apply (malformed_manifest_aborts undefined_methods
           malformed_manifest_project
           (ParseError "syntax error: line 1, column 0")).
  - reflexivity.
  - reflexivity.
Defined.

(** ** Orchestrator *)

(** C2: on a project without a manifest the run never returns a result:
    whatever the helpers do it raises, and when the code and resource
    phases return, what it raises is the [KeyError] of looking up
    ['vulnerabilities'] in the dictionary [{'error': ...}]. *)
Theorem missing_manifest_run_raises (h : Helpers) (self : SecurityAnalyzer)
  (p : Project) :
  manifest p = None ->
  exists e,
    fst (full_analysis h self p) = Raise e
    /\ ((exists c r, analyze_code h p = Ok c /\ analyze_resources h p = Ok r)
        -> e = KeyError "vulnerabilities").
Proof.
  intros Hm. unfold full_analysis, run_analysis. cbn [fst].
  unfold analyze_manifest, analyze_permissions. rewrite Hm. cbn [bind].
  destruct (analyze_code h p) as [c|e1].
  - cbn [bind]. destruct (analyze_resources h p) as [r|e2]; cbn [bind].
    + eexists. split; [reflexivity|]. intros _. reflexivity.
    + exists e2. split; [reflexivity|].
      intros (c' & r' & _ & H). discriminate H.
  - exists e1. split; [reflexivity|].
    intros (c' & r' & H & _). discriminate H.
Qed.

Lemma missing_manifest_run_raises_witness :
  exists e,
    fst (full_analysis quiet_methods fresh_analyzer empty_project) = Raise e
    /\ ((exists c r,
           analyze_code quiet_methods empty_project = Ok c
           /\ analyze_resources quiet_methods empty_project = Ok r)
        -> e = KeyError "vulnerabilities").
Proof.
  apply (missing_manifest_run_raises quiet_methods fresh_analyzer
           empty_project).
  reflexivity.
Defined.

(** C4, as the code has it: an exception that escapes a sub-analyzer
    escapes the run as that very exception; nothing wraps it. *)
Theorem phase_exception_escapes_unwrapped (h : Helpers)
  (self : SecurityAnalyzer) (p : Project) (ph : Phase) (e : exn) :
  fails_in h p ph e ->
  fst (full_analysis h self p) = Raise e.
Proof.
  unfold full_analysis, run_analysis. cbn [fst].
  destruct ph; cbn [fails_in].
  - intros ->. reflexivity.
  - intros [[m ->] ->]. reflexivity.
  - intros ([m ->] & [c ->] & ->). reflexivity.
Qed.

Lemma phase_exception_escapes_unwrapped_witness :
  fst (full_analysis undefined_methods fresh_analyzer empty_project)
  = Raise (AttributeError "count_files").
Proof.
  apply (phase_exception_escapes_unwrapped undefined_methods fresh_analyzer
           empty_project CodePhase (AttributeError "count_files")).
  cbn [fails_in]. split.
  - eexists. reflexivity.
  - reflexivity.
Defined.

(** C4 as stated fails: the exception that escapes [analyze_manifest] on a
    malformed manifest leaves the run as it is, and it is no
    [AnalysisError]. *)
Lemma raw_exception_escapes_run :
  exists e,
    fails_in undefined_methods malformed_manifest_project ManifestPhase e
    /\ fst (full_analysis undefined_methods fresh_analyzer
              malformed_manifest_project) = Raise e
    /\ is_AnalysisError e = false.
Proof.
  exists (UnboundLocalError "permissions").
  split; [reflexivity|]. split; reflexivity.
Qed.

(** A run that returns: the three sub-analyses returned, the manifest one
    with its four-key dictionary, and the combined list and the score are
    built from their findings. *)
Lemma run_analysis_returns (h : Helpers) (self : SecurityAnalyzer)
  (p : Project) (r : AnalysisResult) :
  run_analysis h self p = Ok r ->
  exists permissions components found issues c pa,
    analyze_manifest h p
    = Ok (ManifestReport permissions components found issues)
    /\ analyze_code h p = Ok c
    /\ analyze_permissions h p = Ok pa
    /\ vulnerabilities r
       = found ++ ca_vulnerabilities c ++ pa_vulnerabilities pa
    /\ risk_score r = calculate_risk_score (vulnerabilities r).
Proof.
  unfold run_analysis.
  destruct (analyze_manifest h p) as [m|e]; [|discriminate].
  destruct (analyze_code h p) as [c|e]; [|discriminate].
  destruct (analyze_permissions h p) as [pa|e]; [|discriminate].
  destruct (analyze_resources h p) as [ra|e]; [|discriminate].
  destruct m as [err|permissions components found issues]; [discriminate|].
  cbn. intros H. injection H as <-.
  exists permissions, components, found, issues, c, pa.
  cbn. rewrite <- app_assoc. repeat split; reflexivity.
Qed.




(** ** Order of the findings *)







(** *** What a run leaves on the analyzer object *)


Lemma lift_keeps {A : Type} (r : result A) : Obj.keeps (Obj.lift r).
Proof. intros self. reflexivity. Qed.











(** *** Helpers that ignore the object *)

Lemma pure_keeps_object (h : Helpers) :
  Obj.methods_keep_object (Obj.pure h).
Proof.
  destruct h. unfold Obj.methods_keep_object. cbn.
  repeat split; intros; apply lift_keeps.
Qed.

Lemma bind_lift {A B : Type} (r : result A) (k : A -> Obj.M B)
  (self : SecurityAnalyzer) :
  Obj.bind (Obj.lift r) k self
  = match r with
    | Ok a => k a self
    | Raise e => (Raise e, self)
    end.
Proof. destruct r; reflexivity. Qed.

Lemma analyze_manifest_pure (h : Helpers) (p : Project)
  (self : SecurityAnalyzer) :
  Obj.analyze_manifest (Obj.pure h) p self = (analyze_manifest h p, self).
Proof.
  destruct h as [permissions components component_check intent_check
                   config_check smali count database used resources].
  unfold Obj.analyze_manifest, analyze_manifest.
  destruct (manifest p) as [parsed|]; [|reflexivity].
  unfold Obj.manifest_try, manifest_try, Obj.pure, Obj.lift.
  cbn [Obj.extract_permissions Obj.analyze_components
       Obj.check_component_vulnerabilities Obj.analyze_intent_filters
       Obj.check_security_config extract_permissions analyze_components
       check_component_vulnerabilities analyze_intent_filters
       check_security_config].
  destruct parsed as [root|e]; [|reflexivity].
  destruct (permissions root); [|reflexivity].
  destruct (components root) as [cs|]; [|reflexivity].
  destruct (component_check cs); [|reflexivity].
  destruct (intent_check root); [|reflexivity].
  destruct (config_check root); reflexivity.
Qed.

Lemma analyze_java_code_pure (h : Helpers) (dir : pystr)
  (files : list SourceFile) (self : SecurityAnalyzer) :
  Obj.analyze_java_code (Obj.pure h) dir files self
  = (analyze_java_code h dir files, self).
Proof.
  unfold Obj.analyze_java_code, analyze_java_code.
  assert (Hloop : forall vulnerabilities,
             fold_left
               (fun '(vulnerabilities, self) f =>
                  match
                    Obj.scan_java_file (Obj.pure h) dir f vulnerabilities
                      self
                  with
                  | (vulnerabilities, _, self) => (vulnerabilities, self)
                  end)
               files (vulnerabilities, self)
             = (fold_left
                  (fun vulnerabilities f =>
                     match scan_java_file h dir f vulnerabilities with
                     | (vulnerabilities, Ok _) => vulnerabilities
                     | (vulnerabilities, Raise _) => vulnerabilities
                     end)
                  files vulnerabilities, self)).
  { induction files as [|f files IH]; intros vulnerabilities;
      [reflexivity|].
    cbn [fold_left]. rewrite <- IH. f_equal.
    unfold Obj.scan_java_file, scan_java_file.
    destruct (read f) as [content|e]; [|reflexivity].
    destruct h as [permissions components component_check intent_check
                     config_check smali count database used resources].
    cbn [Obj.pure Obj.analyze_database_security analyze_database_security
         Obj.lift].
    destruct (database content (joinpath dir (rel_path f)));
      reflexivity. }
  rewrite Hloop. reflexivity.
Qed.

Lemma analyze_code_pure (h : Helpers) (p : Project)
  (self : SecurityAnalyzer) :
  Obj.analyze_code (Obj.pure h) p self = (analyze_code h p, self).
Proof.
  unfold Obj.analyze_code, analyze_code, Obj.bind at 1.
  assert (Hj :
    match java p with
    | Some files =>
        Obj.bind (Obj.analyze_java_code (Obj.pure h) (fst (java_dir p)) files)
          (fun found => Obj.ret ([] ++ found))
    | None => Obj.ret []
    end self
    = (match java p with
       | Some files =>
           found <- analyze_java_code h (fst (java_dir p)) files ;;
           Ok ([] ++ found)
       | None => Ok []
       end, self)).
  { destruct (java p) as [files|]; [|reflexivity].
    unfold Obj.bind. rewrite analyze_java_code_pure.
    destruct (analyze_java_code h (fst (java_dir p)) files); reflexivity. }
  rewrite Hj. clear Hj.
  destruct (match java p with
            | Some files =>
                found <- analyze_java_code h (fst (java_dir p)) files ;;
                Ok ([] ++ found)
            | None => Ok []
            end) as [vulnerabilities|e]; [|reflexivity].
  cbn [Py.bind].
  destruct h as [permissions components component_check intent_check
                   config_check smali_check count database used resources].
  cbn [Obj.pure Obj.analyze_smali_code Obj.count_files analyze_smali_code
       count_files].
  unfold Obj.bind at 1.
  assert (Hs :
    match smali p with
    | Some _ =>
        Obj.bind (Obj.lift (smali_check (smali_dir p)))
          (fun found => Obj.ret (vulnerabilities ++ found))
    | None => Obj.ret vulnerabilities
    end self
    = (match smali p with
       | Some _ =>
           found <- smali_check (smali_dir p) ;;
           Ok (vulnerabilities ++ found)
       | None => Ok vulnerabilities
       end, self)).
  { destruct (smali p) as [files|]; [|reflexivity].
    rewrite bind_lift. destruct (smali_check (smali_dir p)); reflexivity. }
  rewrite Hs. clear Hs.
  destruct (match smali p with
            | Some _ =>
                found <- smali_check (smali_dir p) ;;
                Ok (vulnerabilities ++ found)
            | None => Ok vulnerabilities
            end) as [vulnerabilities'|e]; [|reflexivity].
  cbn [Py.bind]. rewrite bind_lift.
  destruct (count (java_dir p)) as [n_java|e]; [|reflexivity].
  cbn [Py.bind]. rewrite bind_lift.
  destruct (count (smali_dir p)) as [n_smali|e]; reflexivity.
Qed.

Lemma analyze_permissions_pure (h : Helpers) (p : Project)
  (self : SecurityAnalyzer) :
  Obj.analyze_permissions (Obj.pure h) p self
  = (analyze_permissions h p, self).
Proof.
  destruct h as [permissions components component_check intent_check
                   config_check smali count database used resources].
  unfold Obj.analyze_permissions, analyze_permissions.
  destruct (manifest p) as [parsed|]; [|reflexivity].
  unfold Obj.permissions_try, permissions_try, Obj.pure, Obj.lift.
  cbn [Obj.extract_permissions Obj.detect_used_permissions
       extract_permissions detect_used_permissions].
  destruct parsed as [root|e]; [|reflexivity].
  destruct (permissions root); [|reflexivity].
  destruct (used (java_dir p)); reflexivity.
Qed.

(** With helpers that ignore the object, the run with the object threaded
    through is the run as modelled above. *)
Lemma full_analysis_pure (h : Helpers) (p : Project)
  (self : SecurityAnalyzer) :
  Obj.full_analysis (Obj.pure h) p self = full_analysis h self p.
Proof.
  unfold Obj.full_analysis, full_analysis, run_analysis.
  unfold Obj.bind at 1. rewrite analyze_manifest_pure.
  destruct (analyze_manifest h p) as [manifest_analysis|e]; [|reflexivity].
  cbn [Py.bind]. unfold Obj.bind at 1. rewrite analyze_code_pure.
  destruct (analyze_code h p) as [code_analysis|e]; [|reflexivity].
  cbn [Py.bind]. unfold Obj.bind at 1. rewrite analyze_permissions_pure.
  destruct (analyze_permissions h p) as [permission_analysis|e];
    [|reflexivity].
  cbn [Py.bind].
  assert (Hr : forall q,
             Obj.analyze_resources (Obj.pure h) q
             = Obj.lift (analyze_resources h q)) by (destruct h; reflexivity).
  rewrite Hr, bind_lift.
  destruct (analyze_resources h p) as [resource_analysis|e]; [|reflexivity].
  cbn [Py.bind]. rewrite bind_lift.
  destruct (manifest_vulnerabilities manifest_analysis); reflexivity.
Qed.

(** A helper that stores to the object breaks the agreement of two runs:
    the second run reports what the first one stored. *)
Example storing_helper_changes_second_run :
  let first :=
    Obj.full_analysis Obj.storing_methods two_files_project fresh_analyzer in
  let second :=
    Obj.full_analysis Obj.storing_methods two_files_project (snd first) in
  (exists r1 r2,
     fst first = Ok r1 /\ fst second = Ok r2
     /\ List.length (vulnerabilities r1) = 3%nat
     /\ List.length (vulnerabilities r2) = 4%nat
     /\ risk_score r1 = 21 /\ risk_score r2 = 28).
Proof.
  eexists. eexists. repeat split; vm_compute; reflexivity.
Qed.




(** * Further properties of the analyzer *)

(** ** Risk scorer *)

(** The score is 0 exactly for the empty list of findings. *)
Theorem risk_score_zero_iff_no_findings (vs : list Finding) :
  calculate_risk_score vs = 0 <-> vs = [].
Proof.
  rewrite risk_score_sum. split.
  - destruct vs as [|v vs]; [reflexivity|]. simpl.
    pose proof (finding_weight_pos v). pose proof (sum_weights_nonneg vs).
    lia.
  - intros ->. reflexivity.
Qed.

Lemma risk_score_append (vs ws : list Finding) :
  calculate_risk_score (vs ++ ws)
  = Z.min (calculate_risk_score vs + calculate_risk_score ws) 100.
Proof.
  rewrite !risk_score_sum, sum_weights_app.
  pose proof (sum_weights_nonneg vs). pose proof (sum_weights_nonneg ws).
  lia.
Qed.


Lemma sum_weights_perm (vs ws : list Finding) :
  Permutation vs ws -> sum_weights vs = sum_weights ws.
Proof.
  induction 1; simpl; lia.
Qed.

(** The score does not depend on the order of the findings. *)
Theorem risk_score_order_independent (vs ws : list Finding) :
  Permutation vs ws ->
  calculate_risk_score vs = calculate_risk_score ws.
Proof.
  intros H. rewrite !risk_score_sum. now rewrite (sum_weights_perm vs ws H).
Qed.

Lemma risk_score_order_independent_witness :
  calculate_risk_score
    [with_severity LOW (dangerous_finding CAMERA); unused_finding CAMERA]
  = calculate_risk_score
      [unused_finding CAMERA; with_severity LOW (dangerous_finding CAMERA)].
Proof.
  apply (risk_score_order_independent
           [with_severity LOW (dangerous_finding CAMERA);
            unused_finding CAMERA]
           [unused_finding CAMERA;
            with_severity LOW (dangerous_finding CAMERA)]).
  apply perm_swap.
Defined.

Lemma sum_weights_bounds (vs : list Finding) :
  len vs <= sum_weights vs <= 10 * len vs.
Proof.
  unfold len. induction vs as [|v vs IH]; [simpl; lia|].
  cbn [sum_weights fold_right List.length].
  fold (sum_weights vs). pose proof (finding_weight_pos v).
  assert (finding_weight v <= 10).
  { unfold finding_weight. destruct (v_severity v) as [l|]; [|simpl; lia].
    destruct (parse_severity l) as [[]|]; simpl; lia. }
  lia.
Qed.

(** The score lies between the number of findings and ten times that
    number, both clamped at 100: a hundred findings of any kind saturate
    it, and fewer than ten findings never do. *)
Theorem risk_score_by_count (vs : list Finding) :
  Z.min (len vs) 100 <= calculate_risk_score vs <= Z.min (10 * len vs) 100.
Proof.
  rewrite risk_score_sum. pose proof (sum_weights_bounds vs). lia.
Qed.

(** A finding without a severity, or with a label that is none of the five
    (the comparison is case sensitive), adds exactly 1 to a score that is
    not yet saturated. *)
Theorem unlabelled_finding_adds_one (vs : list Finding) (v : Finding) :
  match v_severity v with
  | None => True
  | Some l => ~ In l (map severity_label [CRITICAL; HIGH; MEDIUM; LOW; INFO])
  end ->
  calculate_risk_score (vs ++ [v])
  = Z.min (calculate_risk_score vs + 1) 100.
Proof.
  intros H. rewrite risk_score_append. f_equal. f_equal.
  rewrite risk_score_sum. simpl. rewrite Z.add_0_r.
  assert (E : finding_weight v = 1); [|rewrite E; reflexivity].
  unfold finding_weight. destruct (v_severity v) as [l|]; [|reflexivity].
  unfold parse_severity.
  repeat match goal with
  | |- context [pystr_eqb l ?s] =>
      let E := fresh "E" in
      destruct (pystr_eqb l s) eqn:E;
      [apply pystr_eqb_eq in E; exfalso; apply H; rewrite E; simpl; tauto
      |clear E]
  end.
  reflexivity.
Qed.

Lemma unlabelled_finding_adds_one_witness :
  calculate_risk_score
    ([dangerous_finding CAMERA]
     ++ [mkFinding None None None (Some (str "high")) None None None])
  = Z.min (calculate_risk_score [dangerous_finding CAMERA] + 1) 100.
Proof.
  apply (unlabelled_finding_adds_one [dangerous_finding CAMERA]
           (mkFinding None None None (Some (str "high")) None None None)).
  cbn. intuition discriminate.
Defined.

(** ** Lines and trimming *)

Lemma split_length (sep : N) (s : pystr) :
  List.length (split sep s) = S (count_occ N.eq_dec s sep).
Proof.
  induction s as [|c s IH]; [reflexivity|].
  cbn [split count_occ].
  destruct (N.eqb_spec c sep) as [->|Hne].
  - destruct (N.eq_dec sep sep); [|contradiction]. simpl. now rewrite IH.
  - destruct (N.eq_dec c sep); [contradiction|].
    destruct (split sep s) as [|l ls]; [discriminate IH|]. exact IH.
Qed.

Lemma split_no_separator (sep : N) (s : pystr) (line : pystr) :
  In line (split sep s) -> ~ In sep line.
Proof.
  revert line. induction s as [|c s IH]; intros line; cbn [split].
  - intros [<-|[]]. intros [].
  - destruct (N.eqb_spec c sep) as [->|Hne].
    + intros [<-|H]; [intros []|now apply IH].
    + destruct (split sep s) as [|l ls].
      * intros [<-|[]]. intros [E|[]]. now apply Hne.
      * intros [<-|H].
        -- intros [E|H]; [now apply Hne|].
           apply (IH l); [now left|exact H].
        -- apply IH. now right.
Qed.

Lemma lstrip_decompose (s : pystr) :
  exists ws, s = ws ++ lstrip s /\ all_spaces ws.
Proof.
  induction s as [|c s (ws & E & Hws)]; [exists []; split; [reflexivity|constructor]|].
  cbn [lstrip]. destruct (is_space c) eqn:Hc.
  - exists (c :: ws). split; [simpl; now f_equal|now constructor].
  - exists []. split; [reflexivity|constructor].
Qed.

Lemma lstrip_head (s : pystr) :
  match lstrip s with [] => True | c :: _ => is_space c = false end.
Proof.
  induction s as [|c s IH]; [exact I|].
  cbn [lstrip]. destruct (is_space c) eqn:Hc; [exact IH|exact Hc].
Qed.

Lemma rstrip_decompose (s : pystr) :
  exists ws, s = rstrip s ++ ws /\ all_spaces ws.
Proof.
  unfold rstrip. destruct (lstrip_decompose (rev s)) as (ws & E & Hws).
  exists (rev ws). split.
  - rewrite <- rev_app_distr, <- E. now rewrite rev_involutive.
  - unfold all_spaces in *. rewrite Forall_forall in *.
    intros c Hc. apply Hws. now apply in_rev.
Qed.

Lemma rstrip_head (s : pystr) :
  match s with [] => True | c :: _ => is_space c = false end ->
  match rstrip s with [] => True | c :: _ => is_space c = false end.
Proof.
  destruct (rstrip_decompose s) as (ws & E & Hws).
  destruct s as [|c s]; intros Hc.
  - destruct (rstrip []); [exact I|discriminate E].
  - destruct (rstrip (c :: s)) as [|d t]; [exact I|].
    injection E as <- _. exact Hc.
Qed.

(** [strip] removes white space at both ends and nothing else, and what
    is left neither starts nor ends with white space. *)
Lemma strip_decompose (s : pystr) :
  exists before after,
    s = before ++ strip s ++ after
    /\ all_spaces before /\ all_spaces after /\ trimmed (strip s).
Proof.
  destruct (lstrip_decompose s) as (before & E1 & H1).
  destruct (rstrip_decompose (lstrip s)) as (after & E2 & H2).
  exists before, after. unfold strip. split; [|split; [|split]].
  - rewrite <- E2. exact E1.
  - exact H1.
  - exact H2.
  - split.
    + apply rstrip_head, lstrip_head.
    + unfold rstrip. rewrite rev_involutive. apply lstrip_head.
Qed.

Lemma lstrip_trimmed (s : pystr) :
  match s with [] => True | c :: _ => is_space c = false end ->
  lstrip s = s.
Proof.
  destruct s as [|c s]; [reflexivity|]. cbn [lstrip]. now intros ->.
Qed.

Lemma strip_trimmed (s : pystr) : trimmed s -> strip s = s.
Proof.
  intros [Hhead Hlast]. unfold strip, rstrip.
  rewrite (lstrip_trimmed s Hhead), (lstrip_trimmed (rev s) Hlast).
  apply rev_involutive.
Qed.

(** ** Source scanner *)

Lemma line_findings_iff (relative : pystr) (n : Z) (line : pystr)
  (v : Finding) :
  In v (line_findings relative n line) <->
  exists pattern issue,
    In (pattern, issue) sensitive_patterns
    /\ re_search pattern line = true
    /\ v = sensitive_finding relative n issue line.
Proof.
  unfold line_findings. rewrite in_flat_map. split.
  - intros ([pattern issue] & Hin & Hv).
    destruct (re_search pattern line) eqn:E; [|destruct Hv].
    destruct Hv as [<-|[]]. now exists pattern, issue.
  - intros (pattern & issue & Hin & Hm & ->).
    exists (pattern, issue). split; [exact Hin|].
    rewrite Hm. now left.
Qed.

Lemma lines_findings_iff (relative : pystr) (lines : list pystr) :
  forall (n : Z) (v : Finding),
    In v (lines_findings relative n lines) <->
    exists i line pattern issue,
      nth_error lines i = Some line
      /\ In (pattern, issue) sensitive_patterns
      /\ re_search pattern line = true
      /\ v = sensitive_finding relative (n + Z.of_nat i + 1) issue line.
Proof.
  induction lines as [|l rest IH]; intros n v; cbn [lines_findings].
  - split; [intros []|]. intros (i & line & _ & _ & H & _).
    destruct i; discriminate H.
  - rewrite in_app_iff, line_findings_iff, IH. split.
    + intros [(pattern & issue & Hin & Hm & ->)
             |(i & line & pattern & issue & Hnth & Hin & Hm & ->)].
      * exists 0%nat, l, pattern, issue. repeat split; trivial.
        f_equal. lia.
      * exists (S i), line, pattern, issue. repeat split; trivial.
        f_equal. lia.
    + intros (i & line & pattern & issue & Hnth & Hin & Hm & ->).
      destruct i as [|i].
      * left. injection Hnth as ->. exists pattern, issue.
        repeat split; trivial. f_equal. lia.
      * right. exists i, line, pattern, issue.
        repeat split; trivial. f_equal. lia.
Qed.

(** The line loop reports a finding exactly for each line and each
    pattern of the catalogue that matches somewhere in the line: the
    finding carries the 1-based number of the line, its trimmed text, and
    the issue of the pattern. *)
Theorem scan_lines_reports_exactly_matches (relative : pystr)
  (lines : list pystr) (v : Finding) :
  In v (fst (scan_lines relative lines [])) <->
  exists i line pattern issue,
    nth_error lines i = Some line
    /\ In (pattern, issue) sensitive_patterns
    /\ re_search pattern line = true
    /\ v = mkFinding (Some relative) (Some (Z.of_nat i + 1))
             (Some (str "SENSITIVE_DATA")) (Some (str "HIGH"))
             (Some (sensitive_prefix ++ issue)) (Some (strip line)) None.
Proof.
  rewrite scan_lines_appends. cbn [app]. rewrite lines_findings_iff.
  split; intros (i & line & pattern & issue & H1 & H2 & H3 & ->);
    exists i, line, pattern, issue; repeat split; trivial.
Qed.

(** Every finding of the line rules carries a line number between 1 and
    the number of newline characters of the text [content] that [read]
    returned, plus one; that text is the decoded one, in which text mode
    has already turned every [\r\n] and every lone [\r] of the file into
    a newline, so the bound is not one on the bytes of the file.  The
    evidence is the text of a line without the white space around it: it
    has none at either end and contains no newline. *)
Theorem line_findings_are_located (relative content : pystr) (v : Finding) :
  In v (fst (scan_lines relative (split newline content) [])) ->
  is_line_finding relative v
  /\ exists n snippet,
       v_line v = Some n
       /\ 1 <= n <= 1 + Z.of_nat (count_occ N.eq_dec content newline)
       /\ v_code_snippet v = Some snippet
       /\ trimmed snippet /\ strip snippet = snippet
       /\ ~ In newline snippet.
Proof.
  rewrite scan_lines_appends. cbn [app]. rewrite lines_findings_iff.
  intros (i & line & pattern & issue & Hnth & _ & _ & ->).
  split; [now repeat split|].
  exists (Z.of_nat i + 1), (strip line). cbn [v_line v_code_snippet].
  destruct (strip_decompose line) as (before & after & E & _ & _ & Ht).
  split; [reflexivity|]. split.
  - assert (Hlt : (i < List.length (split newline content))%nat)
      by (apply nth_error_Some; congruence).
    rewrite split_length in Hlt. lia.
  - split; [reflexivity|]. split; [exact Ht|].
    split; [now apply strip_trimmed|].
    intros Hin. apply nth_error_In in Hnth.
    apply (split_no_separator newline content line Hnth).
    rewrite E. rewrite !in_app_iff. tauto.
Qed.

Lemma line_findings_are_located_witness :
  is_line_finding (str "Login.java") (password_finding (str "Login.java") 2)
  /\ exists n snippet,
       v_line (password_finding (str "Login.java") 2) = Some n
       /\ 1 <= n
          <= 1 + Z.of_nat
                   (count_occ N.eq_dec
                      (str "class Login {" ++ [newline] ++ password_line)
                      newline)
       /\ v_code_snippet (password_finding (str "Login.java") 2)
          = Some snippet
       /\ trimmed snippet /\ strip snippet = snippet
       /\ ~ In newline snippet.
Proof.
  apply (line_findings_are_located (str "Login.java")
           (str "class Login {" ++ [newline] ++ password_line)
           (password_finding (str "Login.java") 2)).
  vm_compute. left. reflexivity.
Defined.

Lemma line_findings_length (relative : pystr) (n : Z) (line : pystr) :
  (List.length (line_findings relative n line) <= 5)%nat.
Proof.
  unfold line_findings, sensitive_patterns. cbn [flat_map].
  rewrite !length_app.
  repeat match goal with
  | |- context [re_search ?p line] => destruct (re_search p line)
  end; simpl; lia.
Qed.

(** A line gives at most one finding per pattern: the scan of a text
    reports at most five findings for each of its lines. *)
Theorem scan_lines_at_most_five_per_line (relative : pystr)
  (lines : list pystr) :
  len (fst (scan_lines relative lines [])) <= 5 * len lines.
Proof.
  rewrite scan_lines_appends. cbn [app]. unfold len.
  generalize 0. induction lines as [|l rest IH]; intros n.
  - simpl. lia.
  - cbn [lines_findings List.length]. rewrite length_app.
    pose proof (line_findings_length relative (n + 1) l).
    specialize (IH (n + 1)). lia.
Qed.

(** When the data-store check raises on a file, the findings the file
    got before it, from the line rules and from the WebView check, are
    kept: the bare [except] only ends the work on that file. *)
Theorem findings_kept_when_check_raises (h : Helpers) (dir : pystr)
  (f : SourceFile) (content : pystr) (e : exn) :
  read f = Ok content ->
  analyze_database_security h content (joinpath dir (rel_path f)) = Raise e ->
  analyze_java_code h dir [f]
  = Ok (fst (scan_lines (rel_path f) (split newline content) [])
        ++ (if contains (str "WebView") content
            then analyze_webview_security content
                   (joinpath dir (rel_path f))
            else [])).
Proof.
  intros Hread Hdb. rewrite analyze_java_code_flat_map. cbn [flat_map].
  unfold file_findings. rewrite Hread, Hdb, scan_lines_appends.
  now rewrite !app_nil_r.
Qed.

Lemma findings_kept_when_check_raises_witness :
  analyze_java_code undefined_methods (str "/work/app/java") [login_file]
  = Ok (fst (scan_lines (rel_path login_file)
               (split newline
                  (str "class Login {" ++ [newline] ++ password_line
                   ++ [newline] ++ str "}")) [])
        ++ (if contains (str "WebView")
                 (str "class Login {" ++ [newline] ++ password_line
                  ++ [newline] ++ str "}")
            then analyze_webview_security
                   (str "class Login {" ++ [newline] ++ password_line
                    ++ [newline] ++ str "}")
                   (joinpath (str "/work/app/java") (rel_path login_file))
            else [])).
Proof.
  apply (findings_kept_when_check_raises undefined_methods
           (str "/work/app/java") login_file
           (str "class Login {" ++ [newline] ++ password_line ++ [newline]
            ++ str "}")
           (AttributeError "analyze_database_security")).
  - reflexivity.
  - reflexivity.
Defined.

(** ** Manifest analyzer *)

(** When the manifest parses and every helper returns, the report holds
    the findings of the component check, then those of the intent-filter
    check, then those of the security-configuration check, and no issue. *)
Theorem manifest_report_composition (h : Helpers) (p : Project)
  (root : Element) (permissions : list pystr)
  (components : list ComponentDecl) (f1 f2 f3 : list Finding) :
  manifest p = Some (Ok root) ->
  extract_permissions h root = Ok permissions ->
  analyze_components h root = Ok components ->
  check_component_vulnerabilities h components = Ok f1 ->
  analyze_intent_filters h root = Ok f2 ->
  check_security_config h root = Ok f3 ->
  analyze_manifest h p
  = Ok (ManifestReport permissions components (f1 ++ f2 ++ f3) []).
Proof.
  intros Hm H1 H2 H3 H4 H5. unfold analyze_manifest, manifest_try.
  rewrite Hm, H1, H2, H3, H4, H5. cbn. now rewrite app_assoc.
Qed.

Lemma manifest_report_composition_witness :
  analyze_manifest busy_methods two_files_project
  = Ok (ManifestReport [CAMERA; str "android.permission.INTERNET"]
          [main_activity]
          ([exported_finding] ++ [broad_intent_finding]
           ++ [cleartext_finding; debuggable_finding]) []).
Proof.
  apply (manifest_report_composition busy_methods two_files_project
           empty_manifest [CAMERA; str "android.permission.INTERNET"]
           [main_activity] [exported_finding] [broad_intent_finding]
           [cleartext_finding; debuggable_finding]); reflexivity.
Defined.

(** When the intent-filter check raises, the report is still returned:
    it keeps the findings of the component check, records the failure as
    its one issue, and the security configuration is never looked at. *)
Theorem manifest_check_failure_is_recorded (h : Helpers) (p : Project)
  (root : Element) (permissions : list pystr)
  (components : list ComponentDecl) (f1 : list Finding) (e : exn) :
  manifest p = Some (Ok root) ->
  extract_permissions h root = Ok permissions ->
  analyze_components h root = Ok components ->
  check_component_vulnerabilities h components = Ok f1 ->
  analyze_intent_filters h root = Raise e ->
  exc_is_Exception e = true ->
  analyze_manifest h p
  = Ok (ManifestReport permissions components f1
          [str "Error parsing manifest: " ++ exc_str e]).
Proof.
  intros Hm H1 H2 H3 H4 He. unfold analyze_manifest, manifest_try.
  rewrite Hm, H1, H2, H3, H4. cbn. rewrite He. reflexivity.
Qed.

Lemma manifest_check_failure_is_recorded_witness :
  analyze_manifest intent_failure_methods camera_project
  = Ok (ManifestReport [CAMERA] [main_activity] [exported_finding]
          [str "Error parsing manifest: " ++ exc_str (ValueError "bad filter")]).
Proof.
  apply (manifest_check_failure_is_recorded intent_failure_methods
           camera_project empty_manifest [CAMERA] [main_activity]
           [exported_finding] (ValueError "bad filter"));
    reflexivity.
Defined.

(** A report is only returned for a manifest that parsed and whose
    permissions and components were both extracted; it holds them, and at
    most one issue. *)
Theorem manifest_report_invariant (h : Helpers) (p : Project)
  (permissions : list pystr) (components : list ComponentDecl)
  (found : list Finding) (issues : list pystr) :
  analyze_manifest h p
  = Ok (ManifestReport permissions components found issues) ->
  exists root,
    manifest p = Some (Ok root)
    /\ extract_permissions h root = Ok permissions
    /\ analyze_components h root = Ok components
    /\ (List.length issues <= 1)%nat.
Proof.
  unfold analyze_manifest, manifest_try.
  destruct (manifest p) as [[root|e]|]; [| |discriminate].
  - destruct (extract_permissions h root) as [ps|e] eqn:H1.
    + destruct (analyze_components h root) as [cs|e] eqn:H2.
      * intros H. exists root. split; [reflexivity|].
        destruct (check_component_vulnerabilities h cs) as [f1|e];
          [destruct (analyze_intent_filters h root) as [f2|e];
           [destruct (check_security_config h root) as [f3|e]|]|];
          cbn in H; try destruct (exc_is_Exception e); cbn in H;
          try discriminate H; injection H as <- <- <- <-;
          (split; [exact H1|split; [exact H2|simpl; lia]]).
      * cbn. destruct (exc_is_Exception e); discriminate.
    + cbn. destruct (exc_is_Exception e); discriminate.
  - cbn. destruct (exc_is_Exception e); discriminate.
Qed.

Lemma manifest_report_invariant_witness :
  exists root,
    manifest two_files_project = Some (Ok root)
    /\ extract_permissions quiet_methods root = Ok []
    /\ analyze_components quiet_methods root = Ok []
    /\ (List.length (@nil pystr) <= 1)%nat.
Proof.
  apply (manifest_report_invariant quiet_methods two_files_project
           [] [] [] []).
  reflexivity.
Defined.

(** When the permissions were extracted and the extraction of the
    components raises, the handler records the failure and the [return]
    then raises on the unbound local [components]. *)
Theorem components_failure_aborts (h : Helpers) (p : Project)
  (root : Element) (permissions : list pystr) (e : exn) :
  manifest p = Some (Ok root) ->
  extract_permissions h root = Ok permissions ->
  analyze_components h root = Raise e ->
  exc_is_Exception e = true ->
  analyze_manifest h p = Raise (UnboundLocalError "components").
Proof.
  intros Hm H1 H2 He. unfold analyze_manifest, manifest_try.
  rewrite Hm, H1, H2. cbn. rewrite He. reflexivity.
Qed.

Lemma components_failure_aborts_witness :
  analyze_manifest components_failure_methods camera_project
  = Raise (UnboundLocalError "components").
Proof.
  apply (components_failure_aborts components_failure_methods
           camera_project empty_manifest [CAMERA]
           (ValueError "bad component"));
    reflexivity.
Defined.

(** ** Permission analyzer *)

(** When the parse of the manifest or the extraction of the permissions
    raises, the handler appends its INFO finding and the [return] then
    raises on the unbound local [permissions]: the finding is lost. *)
Theorem permissions_failure_aborts (h : Helpers) (p : Project)
  (parsed : result Element) (e : exn) :
  manifest p = Some parsed ->
  (root <- parsed ;; extract_permissions h root) = Raise e ->
  exc_is_Exception e = true ->
  analyze_permissions h p = Raise (UnboundLocalError "permissions").
Proof.
  intros Hm H He. unfold analyze_permissions, permissions_try. rewrite Hm.
  destruct parsed as [root|e']; cbn in H.
  - rewrite H. cbn. rewrite He. reflexivity.
  - injection H as ->. cbn. rewrite He. reflexivity.
Qed.

Lemma permissions_failure_aborts_witness :
  analyze_permissions undefined_methods malformed_manifest_project
  = Raise (UnboundLocalError "permissions").
Proof.
  apply (permissions_failure_aborts undefined_methods
           malformed_manifest_project
           (Raise (ParseError "syntax error: line 1, column 0"))
           (ParseError "syntax error: line 1, column 0"));
    reflexivity.
Defined.

(** When looking for the used permissions raises, the analysis still
    returns: the dangerous-permission findings, then one INFO finding for
    the failure; no permission is reported unused. *)
Theorem used_permissions_failure_is_recorded (h : Helpers) (p : Project)
  (root : Element) (permissions : list pystr) (e : exn) :
  manifest p = Some (Ok root) ->
  extract_permissions h root = Ok permissions ->
  detect_used_permissions h (java_dir p) = Raise e ->
  exc_is_Exception e = true ->
  analyze_permissions h p
  = Ok (mkPermissionAnalysis (Some permissions)
          (flag_dangerous permissions []
           ++ [ mkFinding None None (Some (str "ANALYSIS_ERROR"))
                  (Some (str "INFO")) (Some (perm_error_prefix ++ exc_str e))
                  None None ])).
Proof.
  intros Hm H1 H2 He. unfold analyze_permissions, permissions_try.
  rewrite Hm, H1, H2. cbn. rewrite He. reflexivity.
Qed.

Lemma used_permissions_failure_is_recorded_witness :
  analyze_permissions
    (mkHelpers (fun _ => Ok [CAMERA]) (fun _ => Ok []) (fun _ => Ok [])
       (fun _ => Ok []) (fun _ => Ok []) (fun _ => Ok []) (fun _ => Ok 0)
       (fun _ _ => Ok [])
       (fun _ => Raise (PermissionError "Permission denied"))
       (fun _ => Ok (mkResourceAnalysis [])))
    camera_project
  = Ok (mkPermissionAnalysis (Some [CAMERA])
          (flag_dangerous [CAMERA] []
           ++ [ mkFinding None None (Some (str "ANALYSIS_ERROR"))
                  (Some (str "INFO"))
                  (Some (perm_error_prefix
                         ++ exc_str (PermissionError "Permission denied")))
                  None None ])).
Proof.
  apply (used_permissions_failure_is_recorded _ camera_project
           empty_manifest [CAMERA] (PermissionError "Permission denied"));
    reflexivity.
Defined.

(** For every declared permission, declared once: it gets exactly one
    dangerous-permission finding when it is on the fixed list and none
    otherwise, and exactly one unused-permission finding when the used set
    does not hold it and none otherwise; a permission that is not declared
    gets no finding. *)
Theorem permission_findings_per_permission (h : Helpers) (p : Project)
  (root : Element) (permissions used_perms : list pystr) (q : pystr) :
  manifest p = Some (Ok root) ->
  extract_permissions h root = Ok permissions ->
  NoDup permissions ->
  detect_used_permissions h (java_dir p) = Ok used_perms ->
  exists r,
    analyze_permissions h p = Ok r
    /\ filter
         (is_reported (str "DANGEROUS_PERMISSION") (dangerous_prefix ++ q))
         (pa_vulnerabilities r)
       = (if str_in q permissions && str_in q dangerous_perms
          then [dangerous_finding q] else [])
    /\ filter (is_reported (str "UNUSED_PERMISSION") (unused_prefix ++ q))
         (pa_vulnerabilities r)
       = (if str_in q permissions && negb (str_in q used_perms)
          then [unused_finding q] else []).
Proof.
  intros Hm He Hnodup Hd.
  rewrite (analyze_permissions_returns h p root permissions used_perms)
    by assumption.
  eexists. split; [reflexivity|]. cbn [pa_vulnerabilities].
  rewrite !filter_app.
  rewrite (filter_reports_unrelated _ unused_finding)
    by (intros perm; apply unused_not_dangerous).
  rewrite (filter_reports_unrelated
             (is_reported (str "UNUSED_PERMISSION") (unused_prefix ++ q))
             dangerous_finding)
    by (intros perm; apply dangerous_not_unused).
  rewrite app_nil_r. cbn [app].
  destruct (str_in q permissions) eqn:Hq; cbn [andb].
  - assert (Hin : In q permissions).
    { unfold str_in in Hq. apply existsb_exists in Hq.
      destruct Hq as (x & Hx & E). apply pystr_eqb_eq in E. now subst. }
    split.
    + apply (filter_reports_declared
               (fun perm => str_in perm dangerous_perms) _ _ q
               (dangerous_about_dangerous q) permissions Hnodup Hin).
    + apply (filter_reports_declared
               (fun perm => negb (str_in perm used_perms)) _ _ q
               (unused_about_unused q) permissions Hnodup Hin).
  - assert (Hnotin : ~ In q permissions).
    { intros Hin. unfold str_in in Hq.
      assert (existsb (pystr_eqb q) permissions = true); [|congruence].
      apply existsb_exists. exists q. split; [exact Hin|].
      apply pystr_eqb_refl. }
    split.
    + apply (filter_reports_absent
               (fun perm => str_in perm dangerous_perms) _ _ q
               (dangerous_about_dangerous q) permissions Hnotin).
    + apply (filter_reports_absent
               (fun perm => negb (str_in perm used_perms)) _ _ q
               (unused_about_unused q) permissions Hnotin).
Qed.

Lemma permission_findings_per_permission_witness :
  exists r,
    analyze_permissions (camera_methods [CAMERA]) camera_project = Ok r
    /\ filter
         (is_reported (str "DANGEROUS_PERMISSION")
            (dangerous_prefix ++ str "android.permission.INTERNET"))
         (pa_vulnerabilities r)
       = (if str_in (str "android.permission.INTERNET")
               [CAMERA; str "android.permission.INTERNET"]
             && str_in (str "android.permission.INTERNET") dangerous_perms
          then [dangerous_finding (str "android.permission.INTERNET")]
          else [])
    /\ filter
         (is_reported (str "UNUSED_PERMISSION")
            (unused_prefix ++ str "android.permission.INTERNET"))
         (pa_vulnerabilities r)
       = (if str_in (str "android.permission.INTERNET")
               [CAMERA; str "android.permission.INTERNET"]
             && negb (str_in (str "android.permission.INTERNET") [CAMERA])
          then [unused_finding (str "android.permission.INTERNET")]
          else []).
Proof.
  apply (permission_findings_per_permission (camera_methods [CAMERA])
           camera_project empty_manifest
           [CAMERA; str "android.permission.INTERNET"] [CAMERA]
           (str "android.permission.INTERNET")).
  - reflexivity.
  - reflexivity.
  - repeat constructor; simpl; intuition discriminate.
  - reflexivity.
Defined.

Lemma reports_bounds (flagged : pystr -> bool) (report : pystr -> Finding)
  (w : Z) (permissions : list pystr) :
  (forall perm, finding_weight (report perm) = w) -> 0 <= w ->
  len (flat_map (fun perm => if flagged perm then [report perm] else [])
         permissions) <= len permissions
  /\ sum_weights
       (flat_map (fun perm => if flagged perm then [report perm] else [])
          permissions) <= w * len permissions.
Proof.
  intros Hw Hpos. unfold len.
  induction permissions as [|perm rest [IH1 IH2]]; [simpl; lia|].
  cbn [flat_map List.length]. rewrite length_app, sum_weights_app.
  destruct (flagged perm); cbn [List.length sum_weights fold_right].
  - rewrite Hw. lia.
  - lia.
Qed.

Lemma reports_Forall (P : Finding -> Prop) (flagged : pystr -> bool)
  (report : pystr -> Finding) (permissions : list pystr) :
  (forall perm, P (report perm)) ->
  Forall P
    (flat_map (fun perm => if flagged perm then [report perm] else [])
       permissions).
Proof.
  intros HP. rewrite Forall_forall. intros v Hv.
  apply in_flat_map in Hv. destruct Hv as (perm & _ & Hv).
  destruct (flagged perm); [|destruct Hv].
  destruct Hv as [<-|[]]. apply HP.
Qed.

(** Whatever the permission analysis returns: its findings carry no file
    and no line and are of severity MEDIUM, LOW or INFO; without a
    manifest there is none, and otherwise there are at most two for each
    declared permission plus one, scoring at most 6 for each declared
    permission plus 1. *)
Theorem permission_analysis_invariant (h : Helpers) (p : Project)
  (r : PermissionAnalysis) :
  analyze_permissions h p = Ok r ->
  Forall is_permission_finding (pa_vulnerabilities r)
  /\ match pa_permissions r with
     | None => pa_vulnerabilities r = []
     | Some permissions =>
         len (pa_vulnerabilities r) <= 2 * len permissions + 1
         /\ calculate_risk_score (pa_vulnerabilities r)
            <= 6 * len permissions + 1
     end.
Proof.
  unfold analyze_permissions, permissions_try.
  destruct (manifest p) as [parsed|].
  2:{ intros H. injection H as <-. split; [constructor|reflexivity]. }
  destruct parsed as [root|e];
    [|cbn; destruct (exc_is_Exception e); discriminate].
  destruct (extract_permissions h root) as [permissions|e];
    [|cbn; destruct (exc_is_Exception e); discriminate].
  rewrite flag_dangerous_appends, app_nil_l.
  pose proof (reports_bounds (fun perm => str_in perm dangerous_perms)
                dangerous_finding 4 permissions (fun _ => eq_refl)
                ltac:(lia)) as [Hd1 Hd2].
  assert (HdP : Forall is_permission_finding
                  (flat_map
                     (fun perm => if str_in perm dangerous_perms
                                  then [dangerous_finding perm] else [])
                     permissions)).
  { apply reports_Forall. intros perm. unfold is_permission_finding.
    cbn. tauto. }
  set (dangerous := flat_map _ permissions) in *.
  destruct (detect_used_permissions h (java_dir p)) as [used|e].
  - rewrite flag_unused_appends. cbn [bind local app]. intros H.
    injection H as <-.
    cbn [pa_vulnerabilities pa_permissions].
    pose proof (reports_bounds (fun perm => negb (str_in perm used))
                  unused_finding 2 permissions (fun _ => eq_refl)
                  ltac:(lia)) as [Hu1 Hu2].
    set (unused := flat_map _ permissions) in *.
    split.
    + apply Forall_app. split; [exact HdP|].
      apply reports_Forall. intros perm. unfold is_permission_finding.
      cbn. tauto.
    + rewrite risk_score_sum, sum_weights_app.
      unfold len in *. rewrite length_app. cbv beta in *. lia.
  - cbn [bind]. destruct (exc_is_Exception e); [|discriminate].
    cbn [bind local]. intros H. injection H as <-.
    cbn [pa_vulnerabilities pa_permissions]. split.
    + apply Forall_app. split; [exact HdP|].
      constructor; [|constructor]. unfold is_permission_finding.
      cbn. tauto.
    + rewrite risk_score_sum, sum_weights_app.
      unfold len in *. rewrite length_app.
      change (sum_weights [analysis_error_finding e]) with 1.
      cbn [List.length]. cbv beta in *. lia.
Qed.

Lemma permission_analysis_invariant_witness :
  Forall is_permission_finding
    [dangerous_finding CAMERA; unused_finding CAMERA;
     unused_finding (str "android.permission.INTERNET")]
  /\ match Some [CAMERA; str "android.permission.INTERNET"] with
     | None =>
         [dangerous_finding CAMERA; unused_finding CAMERA;
          unused_finding (str "android.permission.INTERNET")] = []
     | Some permissions =>
         len [dangerous_finding CAMERA; unused_finding CAMERA;
              unused_finding (str "android.permission.INTERNET")]
         <= 2 * len permissions + 1
         /\ calculate_risk_score
              [dangerous_finding CAMERA; unused_finding CAMERA;
               unused_finding (str "android.permission.INTERNET")]
            <= 6 * len permissions + 1
     end.
Proof.
  apply (permission_analysis_invariant (camera_methods []) camera_project
           (mkPermissionAnalysis
              (Some [CAMERA; str "android.permission.INTERNET"])
              [dangerous_finding CAMERA; unused_finding CAMERA;
               unused_finding (str "android.permission.INTERNET")])).
  reflexivity.
Defined.

(** ** Code analysis *)

(** The code analysis returns exactly when the smali scan (asked for only
    if the smali directory exists) and the two file counts return; the
    files counted are those of both directories, existing or not, and the
    findings are those of the Java scan followed by those of the smali
    scan.  A file that cannot be read never makes it raise. *)
Theorem analyze_code_returns_iff (h : Helpers) (p : Project)
  (c : CodeAnalysis) :
  analyze_code h p = Ok c <->
  exists found_smali n_java n_smali,
    match smali p with
    | Some _ => analyze_smali_code h (smali_dir p) = Ok found_smali
    | None => found_smali = []
    end
    /\ count_files h (java_dir p) = Ok n_java
    /\ count_files h (smali_dir p) = Ok n_smali
    /\ c = mkCodeAnalysis
             (match java p with
              | Some files =>
                  flat_map
                    (file_findings h (joinpath (project_dir p) (str "java")))
                    files
              | None => []
              end ++ found_smali)
             (n_java + n_smali).
Proof.
  unfold analyze_code. cbn [java_dir fst].
  set (dir := joinpath (project_dir p) (str "java")).
  assert (Hj : match java p with
               | Some files =>
                   found <- analyze_java_code h dir files ;; Ok ([] ++ found)
               | None => Ok []
               end
               = Ok match java p with
                    | Some files => flat_map (file_findings h dir) files
                    | None => []
                    end).
  { destruct (java p) as [files|]; [|reflexivity].
    now rewrite analyze_java_code_flat_map. }
  rewrite Hj. cbn [bind]. split.
  - destruct (smali p) as [sfiles|].
    + destruct (analyze_smali_code h (smali_dir p)) as [fs|e];
        [|discriminate].
      cbn [bind].
      destruct (count_files h (java_dir p)) as [n1|e]; [|discriminate].
      cbn [bind]. destruct (count_files h (smali_dir p)) as [n2|e];
        [|discriminate].
      cbn [bind]. intros H. injection H as <-.
      exists fs, n1, n2. repeat split; reflexivity.
    + cbn [bind].
      destruct (count_files h (java_dir p)) as [n1|e]; [|discriminate].
      cbn [bind]. destruct (count_files h (smali_dir p)) as [n2|e];
        [|discriminate].
      cbn [bind]. intros H. injection H as <-.
      exists [], n1, n2. rewrite app_nil_r. repeat split; reflexivity.
  - intros (fs & n1 & n2 & Hs & H1 & H2 & ->).
    destruct (smali p) as [sfiles|].
    + rewrite Hs. cbn [bind]. rewrite H1. cbn [bind]. rewrite H2.
      reflexivity.
    + subst fs. cbn [bind]. rewrite H1. cbn [bind]. rewrite H2.
      rewrite app_nil_r. reflexivity.
Qed.


(** ** Orchestrator *)



(** ** Summary *)

Lemma select_severity_all (label : pystr) (vs : list Finding) :
  Forall (fun v => v_severity v <> None) vs ->
  select_severity label vs = Ok (filter (has_severity label) vs).
Proof.
  induction 1 as [|v vs Hv _ IH]; [reflexivity|].
  cbn [select_severity filter]. unfold severity_item, has_severity.
  destruct (v_severity v) as [s|]; [|contradiction].
  cbn [bind opt_str_eqb]. rewrite IH. cbn [bind].
  destruct (pystr_eqb s label); reflexivity.
Qed.

Lemma select_severity_missing (label : pystr) (vs : list Finding) :
  Exists (fun v => v_severity v = None) vs ->
  select_severity label vs = Raise (KeyError "severity").
Proof.
  induction 1 as [v vs Hv|v vs _ IH]; cbn [select_severity].
  - unfold severity_item. now rewrite Hv.
  - unfold severity_item. destruct (v_severity v); [|reflexivity].
    cbn [bind]. now rewrite IH.
Qed.

(** The summary counts the findings of the analyzer object by severity
    when each of them has one, and raises [KeyError] as soon as one has
    none. *)
Theorem get_summary_counts_or_raises (self : SecurityAnalyzer) :
  (Forall (fun v => v_severity v <> None) (self_vulnerabilities self) ->
   get_summary self
   = Ok (mkSummary (len (self_vulnerabilities self))
           (len (filter (has_severity (str "HIGH"))
                   (self_vulnerabilities self)))
           (len (filter (has_severity (str "MEDIUM"))
                   (self_vulnerabilities self)))
           (len (filter (has_severity (str "LOW"))
                   (self_vulnerabilities self)))))
  /\ (Exists (fun v => v_severity v = None) (self_vulnerabilities self) ->
      get_summary self = Raise (KeyError "severity")).
Proof.
  unfold get_summary. split; intros H.
  - now rewrite !select_severity_all.
  - now rewrite select_severity_missing.
Qed.

Lemma get_summary_counts_or_raises_witness :
  get_summary loaded_analyzer = Ok (mkSummary 4 1 1 1)
  /\ get_summary
       (mkSecurityAnalyzer
          [exported_finding; mkFinding None None None None None None None] [])
     = Raise (KeyError "severity").
Proof.
  split.
  - apply (proj1 (get_summary_counts_or_raises loaded_analyzer)).
    repeat constructor; discriminate.
  - apply (proj2 (get_summary_counts_or_raises
                    (mkSecurityAnalyzer
                       [exported_finding;
                        mkFinding None None None None None None None] []))).
    right. left. reflexivity.
Defined.

Lemma bucket_of (v : Finding) :
  Z.b2z (has_severity (str "HIGH") v) + Z.b2z (has_severity (str "MEDIUM") v)
  + Z.b2z (has_severity (str "LOW") v) + Z.b2z (is_unbucketed v) = 1.
Proof.
  unfold is_unbucketed, has_severity, opt_str_eqb.
  destruct (v_severity v) as [s|]; [|reflexivity].
  destruct (pystr_eqb s (str "HIGH")) eqn:E1;
    destruct (pystr_eqb s (str "MEDIUM")) eqn:E2;
    destruct (pystr_eqb s (str "LOW")) eqn:E3;
    try reflexivity;
    repeat match goal with
    | H : pystr_eqb _ _ = true |- _ => apply pystr_eqb_eq in H
    end; subst; discriminate.
Qed.

Lemma len_filter_cons (f : Finding -> bool) (v : Finding)
  (vs : list Finding) :
  len (filter f (v :: vs)) = Z.b2z (f v) + len (filter f vs).
Proof.
  unfold len. cbn [filter]. destruct (f v); cbn [List.length Z.b2z]; lia.
Qed.

Lemma bucket_partition (vs : list Finding) :
  len (filter (has_severity (str "HIGH")) vs)
  + len (filter (has_severity (str "MEDIUM")) vs)
  + len (filter (has_severity (str "LOW")) vs)
  + len (filter is_unbucketed vs)
  = len vs.
Proof.
  induction vs as [|v vs IH]; [reflexivity|].
  rewrite !len_filter_cons. pose proof (bucket_of v).
  unfold len in *. cbn [List.length]. lia.
Qed.

(** The three buckets of a summary never hold more than the total, and
    what is missing are the findings of another severity: a CRITICAL or
    INFO finding is counted in the total and in no bucket. *)
Theorem summary_buckets_miss_other_severities (self : SecurityAnalyzer)
  (s : Summary) :
  get_summary self = Ok s ->
  high_severity s + medium_severity s + low_severity s
  + len (filter is_unbucketed (self_vulnerabilities self))
  = total_vulnerabilities s.
Proof.
  intros H.
  assert (Hall : Forall (fun v => v_severity v <> None)
                   (self_vulnerabilities self)).
  { rewrite Forall_forall. intros v Hv Hnone.
    assert (Hex : Exists (fun v => v_severity v = None)
                    (self_vulnerabilities self))
      by (apply Exists_exists; now exists v).
    unfold get_summary in H.
    rewrite (select_severity_missing _ _ Hex) in H. discriminate H. }
  unfold get_summary in H. rewrite !select_severity_all in H by assumption.
  injection H as <-. cbn. apply bucket_partition.
Qed.

Lemma summary_buckets_miss_other_severities_witness :
  high_severity (mkSummary 4 1 1 1) + medium_severity (mkSummary 4 1 1 1)
  + low_severity (mkSummary 4 1 1 1)
  + len (filter is_unbucketed (self_vulnerabilities loaded_analyzer))
  = total_vulnerabilities (mkSummary 4 1 1 1).
Proof.
  apply (summary_buckets_miss_other_severities loaded_analyzer
           (mkSummary 4 1 1 1)).
  reflexivity.
Defined.

(** A run stores nothing on the analyzer object: the summary asked for
    after the run of a new analyzer is all zeros, whatever the run found
    or raised. *)
Theorem summary_after_run_is_empty (h : Helpers) (p : Project) :
  get_summary (snd (full_analysis h fresh_analyzer p))
  = Ok (mkSummary 0 0 0 0).
Proof. reflexivity. Qed.


(** ** Report generator *)

Lemma render_severities_all (all : list Finding) (content : list pystr) :
  Forall (fun v => v_severity v <> None) all ->
  render_severities [str "HIGH"; str "MEDIUM"; str "LOW"] all content
  = render_severities [str "HIGH"; str "MEDIUM"; str "LOW"]
      (filter is_rendered all) content.
Proof.
  intros Hall.
  assert (Hkeep : Forall (fun v => v_severity v <> None)
                    (filter is_rendered all)).
  { rewrite Forall_forall in *. intros v Hv. apply filter_In in Hv.
    now apply Hall. }
  assert (Hsame : forall label,
             In label [str "HIGH"; str "MEDIUM"; str "LOW"] ->
             filter (has_severity label) (filter is_rendered all)
             = filter (has_severity label) all).
  { intros label Hlabel. clear Hall Hkeep.
    induction all as [|v vs IH]; [reflexivity|]. cbn [filter].
    destruct (is_rendered v) eqn:Hv.
    - cbn [filter]. now rewrite IH.
    - rewrite IH. unfold is_rendered, is_unbucketed in Hv.
      apply negb_false_iff, negb_true_iff in Hv.
      apply orb_false_iff in Hv. destruct Hv as [Hv Hl].
      apply orb_false_iff in Hv. destruct Hv as [Hh Hm].
      destruct Hlabel as [<-|[<-|[<-|[]]]].
      + now rewrite Hh.
      + now rewrite Hm.
      + now rewrite Hl. }
  cbn [render_severities]. unfold render_severity.
  rewrite !select_severity_all by assumption.
  rewrite !Hsame by (simpl; tauto). reflexivity.
Qed.

(** The report is produced when every finding has a severity and cannot
    be produced otherwise: reading the severity of a finding without one
    raises [KeyError]. *)
Theorem report_needs_severities (now : pystr) (r : ReportInput) :
  (Forall (fun v => v_severity v <> None) (in_vulnerabilities r) ->
   exists content, create_report_content now r = Ok content)
  /\ (Exists (fun v => v_severity v = None) (in_vulnerabilities r) ->
      create_report_content now r = Raise (KeyError "severity")).
Proof.
  unfold create_report_content. split; intros H.
  - rewrite !select_severity_all by assumption. cbn [bind].
    cbn [render_severities]. unfold render_severity.
    rewrite !select_severity_all by assumption. cbn [bind].
    eexists. reflexivity.
  - now rewrite select_severity_missing.
Qed.

Lemma report_needs_severities_witness :
  (exists content,
     create_report_content (str "2024-05-01 10:00:00") sample_report_input
     = Ok content)
  /\ create_report_content (str "2024-05-01 10:00:00")
       (with_findings sample_report_input
          [mkFinding None None None None None None None])
     = Raise (KeyError "severity").
Proof.
  split.
  - apply (proj1 (report_needs_severities (str "2024-05-01 10:00:00")
                    sample_report_input)).
    repeat constructor; discriminate.
  - apply (proj2 (report_needs_severities (str "2024-05-01 10:00:00")
                    (with_findings sample_report_input
                       [mkFinding None None None None None None None]))).
    left. reflexivity.
Defined.

Lemma filter_rendered_counts (label : pystr) (vs ws : list Finding) :
  In label [str "HIGH"; str "MEDIUM"; str "LOW"] ->
  filter is_rendered vs = filter is_rendered ws ->
  filter (has_severity label) vs = filter (has_severity label) ws.
Proof.
  intros Hlabel E.
  assert (Hsame : forall l,
             filter (has_severity label) (filter is_rendered l)
             = filter (has_severity label) l).
  { induction l as [|v l IH]; [reflexivity|]. cbn [filter].
    destruct (is_rendered v) eqn:Hv.
    - cbn [filter]. now rewrite IH.
    - rewrite IH. unfold is_rendered, is_unbucketed in Hv.
      apply negb_false_iff, negb_true_iff in Hv.
      apply orb_false_iff in Hv. destruct Hv as [Hv Hl].
      apply orb_false_iff in Hv. destruct Hv as [Hh Hm].
      destruct Hlabel as [<-|[<-|[<-|[]]]].
      + now rewrite Hh.
      + now rewrite Hm.
      + now rewrite Hl. }
  rewrite <- (Hsame vs), <- (Hsame ws). now rewrite E.
Qed.

(** Of the findings that are neither HIGH, MEDIUM nor LOW the report
    shows only how many there are: two lists of findings with severities,
    of the same length and with the same HIGH, MEDIUM and LOW findings in
    the same order, give the same report.  A CRITICAL finding is never
    described in it. *)
Theorem report_hides_other_severities (now : pystr) (r : ReportInput)
  (vs ws : list Finding) :
  Forall (fun v => v_severity v <> None) vs ->
  Forall (fun v => v_severity v <> None) ws ->
  len vs = len ws ->
  filter is_rendered vs = filter is_rendered ws ->
  create_report_content now (with_findings r vs)
  = create_report_content now (with_findings r ws).
Proof.
  intros Hvs Hws Hlen Hsame. unfold create_report_content.
  cbn [in_vulnerabilities in_risk_score in_apk_info in_permission_analysis
       with_findings].
  rewrite !select_severity_all by assumption. cbn [bind].
  rewrite (render_severities_all vs), (render_severities_all ws)
    by assumption.
  rewrite (filter_rendered_counts (str "HIGH") vs ws),
    (filter_rendered_counts (str "MEDIUM") vs ws),
    (filter_rendered_counts (str "LOW") vs ws)
    by (trivial; simpl; tauto).
  now rewrite Hlen, Hsame.
Qed.

Lemma report_hides_other_severities_witness :
  create_report_content (str "2024-05-01 10:00:00")
    (with_findings sample_report_input
       [exported_finding; with_severity CRITICAL exported_finding])
  = create_report_content (str "2024-05-01 10:00:00")
      (with_findings sample_report_input
         [exported_finding; analysis_error_finding (ValueError "x")]).
Proof.
  apply (report_hides_other_severities (str "2024-05-01 10:00:00")
           sample_report_input
           [exported_finding; with_severity CRITICAL exported_finding]
           [exported_finding; analysis_error_finding (ValueError "x")]).
  - repeat constructor; discriminate.
  - repeat constructor; discriminate.
  - reflexivity.
  - reflexivity.
Defined.

(** ** Extraction of the archive *)

Section Extraction.

Context {FS : Type} (store : Store FS) (apk : Apk) (dir : pystr).
Variable keep : pystr -> bool.

Let step (state : FS * list Written) (name : pystr) : FS * list Written :=
  if keep name then extract_entry store apk dir name state else state.


Lemma extract_entry_sound (name : pystr) (state : FS * list Written)
  (w : Written) :
  In w (snd (extract_entry store apk dir name state)) ->
  In w (snd state)
  \/ (w_name w = name /\ w_dir w = dir /\ get_file apk name = Ok (w_data w)).
Proof.
  destruct state as [fs written]. unfold extract_entry.
  destruct (get_file apk name) as [data|e] eqn:E; [|now left].
  destruct (store fs dir name data) as [[u|e] fs']; cbn; [|now left].
  intros H. apply in_app_or in H. destruct H as [H|[<-|[]]]; [now left|].
  right. now repeat split.
Qed.



Lemma extract_loop_sound (names : list pystr) (state : FS * list Written)
  (w : Written) :
  In w (snd (fold_left step names state)) ->
  In w (snd state)
  \/ (In (w_name w) names /\ keep (w_name w) = true /\ w_dir w = dir
      /\ get_file apk (w_name w) = Ok (w_data w)).
Proof.
  revert state. induction names as [|name names IH]; intros state H.
  - now left.
  - cbn [fold_left] in H. apply IH in H.
    destruct H as [H|(Hin & Hk & Hd & Hg)].
    + unfold step in H. destruct (keep name) eqn:Hk; [|now left].
      apply extract_entry_sound in H.
      destruct H as [H|(Hn & Hd & Hg)]; [now left|].
      right. subst name. repeat split; trivial. now left.
    + right. repeat split; trivial. now right.
Qed.


Lemma filtered_loop (names : list pystr) (state : FS * list Written) :
  fold_left (fun state name => extract_entry store apk dir name state)
    (filter keep names) state
  = fold_left step names state.
Proof.
  revert state. induction names as [|name names IH]; intros state.
  - reflexivity.
  - cbn [filter fold_left]. unfold step at 2. destruct (keep name).
    + cbn [fold_left]. apply IH.
    + apply IH.
Qed.

End Extraction.

Lemma extract_resources_loop {FS : Type} (store : Store FS) (apk : Apk)
  (dir : pystr) (state : FS * list Written) :
  extract_resources store apk dir state
  = fold_left
      (fun state name =>
         if startswith name (str "res/")
         then extract_entry store apk dir name state else state)
      (get_files apk) state.
Proof. reflexivity. Qed.

Lemma extract_assets_loop {FS : Type} (store : Store FS) (apk : Apk)
  (dir : pystr) (state : FS * list Written) :
  extract_assets store apk dir state
  = fold_left
      (fun state name =>
         if startswith name (str "assets/")
         then extract_entry store apk dir name state else state)
      (get_files apk) state.
Proof.
  unfold extract_assets.
  apply (filtered_loop store apk dir
           (fun name => startswith name (str "assets/"))).
Qed.

Lemma extract_libs_loop {FS : Type} (store : Store FS) (apk : Apk)
  (dir : pystr) (state : FS * list Written) :
  extract_libs store apk dir state
  = fold_left
      (fun state name =>
         if startswith name (str "lib/")
         then extract_entry store apk dir name state else state)
      (get_files apk) state.
Proof.
  unfold extract_libs.
  apply (filtered_loop store apk dir
           (fun name => startswith name (str "lib/"))).
Qed.

Lemma written_under_prefix {FS : Type} (store : Store FS) (apk : Apk)
  (dir : pystr) (keep : pystr -> bool) (fs : FS) (w : Written) :
  In w (snd (fold_left
               (fun state name =>
                  if keep name
                  then extract_entry store apk dir name state else state)
               (get_files apk) (fs, []))) ->
  keep (w_name w) = true /\ from_archive apk dir w.
Proof.
  intros H. apply extract_loop_sound in H.
  destruct H as [[]|(Hin & Hk & Hd & Hg)]. unfold from_archive. tauto.
Qed.


(** The sample archive on a file system that stores everything: the
    resource whose bytes cannot be read is left out, the code and the
    manifest are never written. *)
Example sample_apk_extraction :
  map w_name
    (snd (extract_resources always_stored sample_apk (str "out/resources")
            (tt, [])))
  = [str "res/layout/main.xml"]
  /\ map w_name
       (snd (extract_assets always_stored sample_apk (str "out/assets")
               (tt, [])))
     = [str "assets/data.bin"]
  /\ map w_name
       (snd (extract_libs always_stored sample_apk (str "out/libs")
               (tt, [])))
     = [str "lib/arm64-v8a/libapp.so"].
Proof. repeat split. Qed.

(** On a file system where an earlier write can block a later one, what
    is written depends on the order of the entries in the archive. *)
Example written_set_depends_on_order :
  map w_name
    (snd (extract_libs blocking_store
            (mkApk [str "lib/"; str "lib/arm64-v8a/libapp.so"]
               (fun _ => Ok [])) (str "out/libs") (false, [])))
  = [str "lib/"]
  /\ map w_name
       (snd (extract_libs blocking_store
               (mkApk [str "lib/arm64-v8a/libapp.so"; str "lib/"]
                  (fun _ => Ok [])) (str "out/libs") (false, [])))
     = [str "lib/arm64-v8a/libapp.so"; str "lib/"].
Proof. split; reflexivity. Qed.

Lemma prefixes_exclusive (name : pystr) :
  (startswith name (str "res/") = true ->
   startswith name (str "assets/") = false
   /\ startswith name (str "lib/") = false)
  /\ (startswith name (str "assets/") = true ->
      startswith name (str "lib/") = false).
Proof.
  destruct name as [|c name]; [split; discriminate|].
  cbn [startswith str map list_ascii_of_string N_of_ascii].
  split.
  - intros H. apply andb_true_iff in H. destruct H as [H _].
    apply N.eqb_eq in H. subst c. split; reflexivity.
  - intros H. apply andb_true_iff in H. destruct H as [H _].
    apply N.eqb_eq in H. subst c. reflexivity.
Qed.

(** No entry of the archive is written by two of the three extractors,
    and an entry outside [res/], [assets/] and [lib/], such as the code or
    the manifest, is written by none; this holds on any file system, in
    any state. *)
Theorem extractors_are_disjoint {FS : Type} (store : Store FS) (apk : Apk)
  (d1 d2 d3 : pystr) (fs1 fs2 fs3 : FS) (name : pystr) :
  let by_resources :=
    existsb (fun w => pystr_eqb (w_name w) name)
      (snd (extract_resources store apk d1 (fs1, []))) in
  let by_assets :=
    existsb (fun w => pystr_eqb (w_name w) name)
      (snd (extract_assets store apk d2 (fs2, []))) in
  let by_libs :=
    existsb (fun w => pystr_eqb (w_name w) name)
      (snd (extract_libs store apk d3 (fs3, []))) in
  by_resources && by_assets = false
  /\ by_resources && by_libs = false
  /\ by_assets && by_libs = false
  /\ (startswith name (str "res/") = false ->
      startswith name (str "assets/") = false ->
      startswith name (str "lib/") = false ->
      by_resources || by_assets || by_libs = false).
Proof.
  intros by_resources by_assets by_libs.
  assert (Hr : by_resources = true -> startswith name (str "res/") = true).
  { unfold by_resources. rewrite existsb_exists. intros (w & Hw & E).
    apply pystr_eqb_eq in E. subst name.
    rewrite extract_resources_loop in Hw.
    now apply written_under_prefix in Hw. }
  assert (Ha : by_assets = true -> startswith name (str "assets/") = true).
  { unfold by_assets. rewrite existsb_exists. intros (w & Hw & E).
    apply pystr_eqb_eq in E. subst name.
    rewrite extract_assets_loop in Hw.
    now apply written_under_prefix in Hw. }
  assert (Hl : by_libs = true -> startswith name (str "lib/") = true).
  { unfold by_libs. rewrite existsb_exists. intros (w & Hw & E).
    apply pystr_eqb_eq in E. subst name.
    rewrite extract_libs_loop in Hw.
    now apply written_under_prefix in Hw. }
  destruct (prefixes_exclusive name) as [Hra Hal].
  clearbody by_resources by_assets by_libs.
  repeat split.
  - destruct by_resources; [|reflexivity].
    destruct by_assets; [|reflexivity].
    destruct (Hra (Hr eq_refl)) as [H _]. rewrite (Ha eq_refl) in H.
    discriminate H.
  - destruct by_resources; [|reflexivity].
    destruct by_libs; [|reflexivity].
    destruct (Hra (Hr eq_refl)) as [_ H]. rewrite (Hl eq_refl) in H.
    discriminate H.
  - destruct by_assets; [|reflexivity].
    destruct by_libs; [|reflexivity].
    pose proof (Hal (Ha eq_refl)) as H. rewrite (Hl eq_refl) in H.
    discriminate H.
  - intros H1 H2 H3.
    destruct by_resources; [rewrite (Hr eq_refl) in H1; discriminate H1|].
    destruct by_assets; [rewrite (Ha eq_refl) in H2; discriminate H2|].
    destruct by_libs; [rewrite (Hl eq_refl) in H3; discriminate H3|].
    reflexivity.
Qed.

(** ** The WebView check within the scan *)

(** Paths as [pathlib] builds them: a trailing slash, a leading [./] and
    repeated slashes vanish, the directory [.] gives a relative path, a
    name with a root replaces the directory, and [..] stays. *)
Example joinpath_normalises :
  joinpath (str "/work/app") (str "java") = str "/work/app/java"
  /\ joinpath (str "/work/app/") (str "java") = str "/work/app/java"
  /\ joinpath (str "./output") (str "java") = str "output/java"
  /\ joinpath (str ".") (str "java") = str "java"
  /\ joinpath (str "/") (str "java") = str "/java"
  /\ joinpath (str "work//app/./") (str "java") = str "work/app/java"
  /\ joinpath (str "//srv/app") (str "java") = str "//srv/app/java"
  /\ joinpath (str "///srv/app") (str "java") = str "/srv/app/java"
  /\ joinpath (str "../app") (str "java") = str "../app/java"
  /\ joinpath (str "/work/app") (str "/etc/passwd") = str "/etc/passwd"
  /\ joinpath (str "/work/app/java") (str "com/app/Browser.java")
     = str "/work/app/java/com/app/Browser.java"
  /\ joinpath [] [] = str ".".
Proof. repeat split. Qed.

Lemma line_findings_not_webview (relative : pystr) (lines : list pystr)
  (n : Z) :
  filter is_webview_finding (lines_findings relative n lines) = [].
Proof.
  apply filter_none. intros v Hv. apply lines_findings_iff in Hv.
  destruct Hv as (i & line & pattern & issue & _ & _ & _ & ->).
  reflexivity.
Qed.

(** A file gets the WebView finding exactly when its text holds
    [WebView] and [setJavaScriptEnabled(true)] and nowhere holds
    [setAllowFileAccess(false)]; the finding names the file by the path
    [pathlib] makes of the scanned directory and the relative path, where
    the findings of the line rules name it by its relative path, and it
    carries no line number. *)
Theorem webview_finding_iff (h : Helpers) (dir : pystr) (f : SourceFile)
  (content : pystr) :
  read f = Ok content ->
  database_check_leaves_webview h ->
  exists found,
    analyze_java_code h dir [f] = Ok found
    /\ filter is_webview_finding found
       = if contains (str "WebView") content
            && contains (str "setJavaScriptEnabled(true)") content
            && negb (contains (str "setAllowFileAccess(false)") content)
         then [ mkFinding (Some (joinpath dir (rel_path f))) None
                  (Some (str "WEBVIEW_INSECURE")) (Some (str "HIGH"))
                  (Some webview_description) None
                  (Some webview_recommendation) ]
         else [].
Proof.
  intros Hread Hdb. rewrite analyze_java_code_flat_map.
  eexists. split; [reflexivity|]. cbn [flat_map]. rewrite app_nil_r.
  unfold file_findings. rewrite Hread. rewrite !filter_app.
  rewrite line_findings_not_webview. cbn [app].
  replace (filter is_webview_finding
             match analyze_database_security h content
                     (joinpath dir (rel_path f)) with
             | Ok found => found
             | Raise _ => []
             end) with (@nil Finding).
  2:{ destruct (analyze_database_security h content
                  (joinpath dir (rel_path f))) as [found|e] eqn:E;
        [|reflexivity].
      symmetry. apply filter_none. intros v Hv. now apply (Hdb _ _ _ _ E). }
  rewrite app_nil_r. unfold analyze_webview_security.
  destruct (contains (str "WebView") content); [|reflexivity].
  destruct (contains (str "setJavaScriptEnabled(true)") content);
    [|reflexivity].
  destruct (contains (str "setAllowFileAccess(false)") content);
    reflexivity.
Qed.

(** A project directory given as [./output/]: the finding records the
    path as [pathlib] prints it. *)
Lemma webview_finding_iff_witness :
  exists found,
    analyze_java_code undefined_methods
      (joinpath (str "./output/") (str "java")) [browser_file] = Ok found
    /\ filter is_webview_finding found
       = [ mkFinding (Some (str "output/java/com/app/Browser.java")) None
             (Some (str "WEBVIEW_INSECURE")) (Some (str "HIGH"))
             (Some webview_description) None
             (Some webview_recommendation) ].
Proof.
  assert (Hdb : database_check_leaves_webview undefined_methods)
    by (intros content file_path found v H; discriminate H).
  exact (webview_finding_iff undefined_methods
           (joinpath (str "./output/") (str "java")) browser_file
           (str "WebView w = new WebView(this);" ++ [newline]
            ++ str "w.getSettings().setJavaScriptEnabled(true);")
           eq_refl Hdb).
Defined.

(** ** The rules that are plain texts *)

Lemma startswith_iff (s prefix : pystr) :
  startswith s prefix = true <-> exists rest, s = prefix ++ rest.
Proof.
  revert s. induction prefix as [|p prefix IH]; intros s.
  - split; [now exists s|destruct s; reflexivity].
  - destruct s as [|c s]; cbn [startswith].
    + split; [discriminate|]. intros (rest & H). discriminate H.
    + rewrite andb_true_iff, N.eqb_eq, IH. split.
      * intros (-> & rest & ->). now exists rest.
      * intros (rest & H). injection H as -> ->. split; [reflexivity|].
        now exists rest.
Qed.

Lemma contains_iff (needle hay : pystr) :
  contains needle hay = true <-> occurs_in needle hay.
Proof.
  unfold occurs_in. induction hay as [|c hay IH]; cbn [contains].
  - rewrite orb_false_r, startswith_iff. split.
    + intros (rest & H). now exists [], rest.
    + intros (before & after & H).
      destruct before; [|discriminate H]. now exists after.
  - rewrite orb_true_iff, startswith_iff, IH. split.
    + intros [(rest & H)|(before & after & H)].
      * now exists [], rest.
      * exists (c :: before), after. cbn. now f_equal.
    + intros (before & after & H). destruct before as [|b before].
      * left. now exists after.
      * right. injection H as _ H. now exists before, after.
Qed.

Lemma re_match_Alt (a b : regex) (s : pystr) :
  re_match (Alt a b) s = re_match a s || re_match b s.
Proof.
  revert a b. induction s as [|c s IH]; intros a b; cbn [re_match nullable].
  - now rewrite !orb_false_r.
  - cbn [deriv]. rewrite IH.
    destruct (nullable a), (nullable b), (re_match (deriv c a) s);
      reflexivity.
Qed.

Lemma re_match_Void_Seq (r : regex) (s : pystr) :
  re_match (Seq Void r) s = false.
Proof.
  induction s as [|c s IH]; [reflexivity|].
  cbn [re_match nullable deriv andb orb]. exact IH.
Qed.

Lemma re_match_Eps_Seq (r : regex) (s : pystr) :
  re_match (Seq Eps r) s = re_match r s.
Proof.
  destruct s as [|c s]; cbn [re_match nullable deriv andb]; [reflexivity|].
  now rewrite re_match_Alt, re_match_Void_Seq.
Qed.

Lemma re_match_literal (text s : pystr) :
  re_match (literal text) s = startswith s text.
Proof.
  revert s. induction text as [|p text IH]; intros s.
  - destruct s; reflexivity.
  - destruct s as [|c s]; [reflexivity|].
    cbn [literal re_match nullable deriv charset_mem mem existsb andb orb
         startswith].
    rewrite orb_false_r, (N.eqb_sym p c).
    destruct (N.eqb c p).
    + now rewrite re_match_Eps_Seq, IH.
    + now rewrite re_match_Void_Seq.
Qed.

Lemma re_search_literal (text s : pystr) :
  re_search (literal text) s = contains text s.
Proof.
  induction s as [|c s IH]; cbn [re_search contains].
  - now rewrite re_match_literal.
  - now rewrite re_match_literal, IH.
Qed.

(** The rule for HTTP and the rule for clear-text traffic are case
    sensitive tests for a text anywhere in the line: a line is reported
    for them exactly when [http://], respectively the attribute
    [android:usesCleartextTraffic] set to ["true"], occurs in it. *)
Theorem literal_rules_are_substring_tests (line : pystr) :
  (re_search pattern_http line = true <-> occurs_in (str "http://") line)
  /\ (re_search pattern_cleartext line = true
      <-> occurs_in cleartext_attribute line).
Proof.
  unfold pattern_http, pattern_cleartext.
  rewrite !re_search_literal. split; apply contains_iff.
Qed.

(** ** From the analysis to the report *)

Lemma labelled_app (vs ws : list Finding) :
  labelled vs -> labelled ws -> labelled (vs ++ ws).
Proof. unfold labelled. intros. apply Forall_app. now split. Qed.

Lemma file_findings_labelled (h : Helpers) (dir : pystr) (f : SourceFile) :
  helpers_label_findings h -> labelled (file_findings h dir f).
Proof.
  intros (_ & _ & _ & _ & Hdb). unfold file_findings.
  destruct (read f) as [content|e]; [|constructor].
  repeat apply labelled_app.
  - unfold labelled. rewrite Forall_forall. intros v Hv.
    apply lines_findings_iff in Hv.
    destruct Hv as (i & line & pattern & issue & _ & _ & _ & ->).
    discriminate.
  - destruct (contains (str "WebView") content); [|constructor].
    unfold analyze_webview_security.
    destruct (contains (str "setJavaScriptEnabled(true)") content);
      [|constructor].
    destruct (negb (contains (str "setAllowFileAccess(false)") content));
      [|constructor].
    constructor; [discriminate|constructor].
  - destruct (analyze_database_security h content
                (joinpath dir (rel_path f))) as [found|e] eqn:E;
      [|constructor].
    exact (Hdb _ _ _ E).
Qed.

Lemma analyze_code_labelled (h : Helpers) (p : Project) (c : CodeAnalysis) :
  helpers_label_findings h ->
  analyze_code h p = Ok c -> labelled (ca_vulnerabilities c).
Proof.
  intros Hh. pose proof Hh as (_ & _ & _ & Hsmali & _).
  unfold analyze_code.
  assert (Hj : exists found,
             match java p with
             | Some files =>
                 found <- analyze_java_code h (fst (java_dir p)) files ;;
                 Ok ([] ++ found)
             | None => Ok []
             end = Ok found /\ labelled found).
  { destruct (java p) as [files|].
    - rewrite analyze_java_code_flat_map. eexists. split; [reflexivity|].
      cbn [app]. induction files as [|f files IH]; [constructor|].
      cbn [flat_map]. apply labelled_app; [|exact IH].
      now apply file_findings_labelled.
    - exists []. split; [reflexivity|constructor]. }
  destruct Hj as (jf & -> & Hjf). cbn [bind].
  destruct (smali p) as [sfiles|].
  - destruct (analyze_smali_code h (smali_dir p)) as [sf|e] eqn:E;
      [|discriminate].
    cbn [bind]. destruct (count_files h (java_dir p)); [|discriminate].
    cbn [bind]. destruct (count_files h (smali_dir p)); [|discriminate].
    cbn [bind]. intros H. injection H as <-. cbn [ca_vulnerabilities].
    apply labelled_app; [exact Hjf|exact (Hsmali _ _ E)].
  - cbn [bind]. destruct (count_files h (java_dir p)); [|discriminate].
    cbn [bind]. destruct (count_files h (smali_dir p)); [|discriminate].
    cbn [bind]. intros H. injection H as <-. exact Hjf.
Qed.

Lemma analyze_manifest_labelled (h : Helpers) (p : Project)
  (m : ManifestAnalysis) :
  helpers_label_findings h ->
  analyze_manifest h p = Ok m -> labelled (manifest_findings m).
Proof.
  intros (H1 & H2 & H3 & _). unfold analyze_manifest, manifest_try.
  destruct (manifest p) as [[root|e]|].
  - destruct (extract_permissions h root) as [ps|e].
    + destruct (analyze_components h root) as [cs|e].
      * destruct (check_component_vulnerabilities h cs) as [f1|e] eqn:E1.
        -- destruct (analyze_intent_filters h root) as [f2|e] eqn:E2.
           ++ destruct (check_security_config h root) as [f3|e] eqn:E3.
              ** cbn. intros H. injection H as <-. cbn.
                 repeat apply labelled_app;
                   [exact (H1 _ _ E1)|exact (H2 _ _ E2)|exact (H3 _ _ E3)].
              ** cbn. destruct (exc_is_Exception e); [|discriminate].
                 cbn. intros H. injection H as <-. cbn.
                 apply labelled_app; [exact (H1 _ _ E1)|exact (H2 _ _ E2)].
           ++ cbn. destruct (exc_is_Exception e); [|discriminate].
              cbn. intros H. injection H as <-. cbn. exact (H1 _ _ E1).
        -- cbn. destruct (exc_is_Exception e); [|discriminate].
           cbn. intros H. injection H as <-. constructor.
      * cbn. destruct (exc_is_Exception e); discriminate.
    + cbn. destruct (exc_is_Exception e); discriminate.
  - cbn. destruct (exc_is_Exception e); discriminate.
  - intros H. injection H as <-. constructor.
Qed.

Lemma analyze_permissions_labelled (h : Helpers) (p : Project)
  (pa : PermissionAnalysis) :
  analyze_permissions h p = Ok pa -> labelled (pa_vulnerabilities pa).
Proof.
  unfold analyze_permissions, permissions_try.
  destruct (manifest p) as [parsed|].
  2:{ intros H. injection H as <-. constructor. }
  destruct parsed as [root|e];
    [|cbn; destruct (exc_is_Exception e); discriminate].
  destruct (extract_permissions h root) as [permissions|e];
    [|cbn; destruct (exc_is_Exception e); discriminate].
  rewrite flag_dangerous_appends, app_nil_l.
  assert (Hd : labelled
                 (flat_map
                    (fun perm => if str_in perm dangerous_perms
                                 then [dangerous_finding perm] else [])
                    permissions))
    by (apply reports_Forall; discriminate).
  set (dangerous := flat_map _ permissions) in *.
  destruct (detect_used_permissions h (java_dir p)) as [used|e].
  - rewrite flag_unused_appends. cbn [bind local]. intros H.
    injection H as <-. cbn [pa_vulnerabilities].
    apply labelled_app; [exact Hd|]. apply reports_Forall. discriminate.
  - cbn [bind]. destruct (exc_is_Exception e); [|discriminate].
    cbn [bind local]. intros H. injection H as <-. cbn [pa_vulnerabilities].
    apply labelled_app; [exact Hd|]. constructor; [discriminate|constructor].
Qed.

Lemma create_report_content_returns (now : pystr) (r : ReportInput) :
  labelled (in_vulnerabilities r) ->
  exists content, create_report_content now r = Ok content.
Proof.
  unfold labelled, create_report_content. intros H.
  rewrite !select_severity_all by assumption. cbn [bind].
  cbn [render_severities]. unfold render_severity.
  rewrite !select_severity_all by assumption. cbn [bind].
  eexists. reflexivity.
Qed.

(** The report of a result the analysis returned is always produced when
    the findings of the helper methods have a severity: every finding the
    analyzer builds itself has one, so reading the severities never
    raises. *)
Theorem report_of_analysis_is_produced (h : Helpers)
  (self : SecurityAnalyzer) (p : Project) (r : AnalysisResult)
  (now : pystr) :
  helpers_label_findings h ->
  fst (full_analysis h self p) = Ok r ->
  exists content, create_report_content now (report_input r) = Ok content.
Proof.
  intros Hh Hrun. apply create_report_content_returns.
  unfold full_analysis in Hrun. cbn [fst] in Hrun.
  destruct (run_analysis_returns h self p r Hrun)
    as (permissions & components & found & issues & c & pa
        & Hm & Hc & Hp & Hv & _).
  cbn [report_input in_vulnerabilities]. rewrite Hv.
  repeat apply labelled_app.
  - exact (analyze_manifest_labelled h p _ Hh Hm).
  - exact (analyze_code_labelled h p c Hh Hc).
  - exact (analyze_permissions_labelled h p pa Hp).
Qed.

Lemma report_of_analysis_is_produced_witness :
  exists r,
    fst (full_analysis quiet_methods fresh_analyzer two_files_project) = Ok r
    /\ exists content,
         create_report_content (str "2024-05-01 10:00:00") (report_input r)
         = Ok content.
Proof.
  eexists. split.
  - vm_compute. reflexivity.
  - apply (report_of_analysis_is_produced quiet_methods fresh_analyzer
             two_files_project _ (str "2024-05-01 10:00:00")).
    + repeat split; intros;
        match goal with
        | H : _ = Ok _ |- _ => cbn in H; injection H as <-; constructor
        end.
    + vm_compute. reflexivity.
Defined.

(** ** The matcher and the language of a pattern *)

Lemma mem_iff (c : N) (cs : list N) : mem c cs = true <-> In c cs.
Proof.
  unfold mem. rewrite existsb_exists. split.
  - intros (x & Hx & E). apply N.eqb_eq in E. now subst.
  - intros H. exists c. split; [exact H|apply N.eqb_refl].
Qed.

Lemma matches_Seq_iff (r1 r2 : regex) (s : pystr) :
  matches (Seq r1 r2) s <->
  exists s1 s2, s = s1 ++ s2 /\ matches r1 s1 /\ matches r2 s2.
Proof.
  split.
  - intros H. inversion H; subst. eauto.
  - intros (s1 & s2 & -> & H1 & H2). now constructor.
Qed.

Lemma matches_Alt_iff (r1 r2 : regex) (s : pystr) :
  matches (Alt r1 r2) s <-> matches r1 s \/ matches r2 s.
Proof.
  split.
  - intros H. inversion H; subst; tauto.
  - intros [H|H]; [now apply matches_Alt_l|now apply matches_Alt_r].
Qed.

Lemma matches_Chr_iff (cs : charset) (s : pystr) :
  matches (Chr cs) s <-> exists c, s = [c] /\ charset_mem cs c = true.
Proof.
  split.
  - intros H. inversion H; subst. eauto.
  - intros (c & -> & H). now constructor.
Qed.

Lemma matches_Eps_iff (s : pystr) : matches Eps s <-> s = [].
Proof.
  split; [intros H; now inversion H|intros ->; constructor].
Qed.

Lemma matches_Void (s : pystr) : ~ matches Void s.
Proof. intros H. inversion H. Qed.

Lemma nullable_iff (r : regex) : nullable r = true <-> matches r [].
Proof.
  induction r as [| |cs|r1 IH1 r2 IH2|r1 IH1 r2 IH2|r IH]; cbn [nullable].
  - split; [discriminate|]. intros H. now apply matches_Void in H.
  - split; [constructor|reflexivity].
  - split; [discriminate|]. intros H. apply matches_Chr_iff in H.
    destruct H as (c & E & _). discriminate E.
  - rewrite andb_true_iff, IH1, IH2, matches_Seq_iff. split.
    + intros [H1 H2]. now exists [], [].
    + intros (s1 & s2 & E & H1 & H2). symmetry in E.
      apply app_eq_nil in E. destruct E as [-> ->]. now split.
  - now rewrite orb_true_iff, IH1, IH2, matches_Alt_iff.
  - split; [constructor|reflexivity].
Qed.

(** A non-empty string of a starred expression starts with a non-empty
    string of the expression. *)
Lemma matches_Star_cons (r : regex) (c : N) (s : pystr) :
  matches (Star r) (c :: s) ->
  exists s1 s2, s = s1 ++ s2 /\ matches r (c :: s1) /\ matches (Star r) s2.
Proof.
  intros H. remember (Star r) as r' eqn:Er. remember (c :: s) as s' eqn:Es.
  revert c s Er Es.
  induction H as [|cs0 c0 Hc0|a b t1 t2 Ha _ Hb _|a b t Ha _|a b t Hb _|r0
                 |r0 s1 s2 H1 _ H2 IH2];
    intros c s Er Es; try discriminate.
  injection Er as ->. destruct s1 as [|c1 s1].
  - cbn in Es. apply (IH2 c s eq_refl Es).
  - cbn in Es. injection Es as -> <-. now exists s1, s2.
Qed.

Lemma deriv_iff (r : regex) :
  forall (c : N) (s : pystr), matches (deriv c r) s <-> matches r (c :: s).
Proof.
  induction r as [| |cs|r1 IH1 r2 IH2|r1 IH1 r2 IH2|r IH]; intros c s;
    cbn [deriv].
  - split; intros H; now apply matches_Void in H.
  - split; intros H; [now apply matches_Void in H|].
    apply matches_Eps_iff in H. discriminate H.
  - rewrite matches_Chr_iff. destruct (charset_mem cs c) eqn:E.
    + rewrite matches_Eps_iff. split.
      * intros ->. now exists c.
      * intros (c' & H & _). now injection H.
    + split; [intros H; now apply matches_Void in H|].
      intros (c' & H & Hc). injection H as -> _. congruence.
  - assert (Hseq : matches (Seq (deriv c r1) r2) s <->
                   exists s1 s2, s = s1 ++ s2 /\ matches r1 (c :: s1)
                                 /\ matches r2 s2).
    { rewrite matches_Seq_iff. split.
      - intros (s1 & s2 & -> & H1 & H2). exists s1, s2.
        rewrite <- IH1. now repeat split.
      - intros (s1 & s2 & -> & H1 & H2). exists s1, s2.
        rewrite IH1. now repeat split. }
    assert (Hgoal : matches (Seq r1 r2) (c :: s) <->
                    (exists s1 s2, s = s1 ++ s2 /\ matches r1 (c :: s1)
                                   /\ matches r2 s2)
                    \/ (matches r1 [] /\ matches r2 (c :: s))).
    { rewrite matches_Seq_iff. split.
      - intros (s1 & s2 & E & H1 & H2). destruct s1 as [|c1 s1].
        + right. cbn in E. subst s2. now split.
        + left. cbn in E. injection E as <- ->. now exists s1, s2.
      - intros [(s1 & s2 & -> & H1 & H2)|[H1 H2]].
        + now exists (c :: s1), s2.
        + now exists [], (c :: s). }
    rewrite Hgoal. destruct (nullable r1) eqn:En.
    + rewrite matches_Alt_iff, Hseq, IH2.
      apply nullable_iff in En. tauto.
    + rewrite Hseq. split; [tauto|]. intros [H|[H _]]; [exact H|].
      apply nullable_iff in H. congruence.
  - now rewrite !matches_Alt_iff, IH1, IH2.
  - rewrite matches_Seq_iff. split.
    + intros (s1 & s2 & -> & H1 & H2). apply IH in H1.
      exact (matches_Star_app r (c :: s1) s2 H1 H2).
    + intros H. apply matches_Star_cons in H.
      destruct H as (s1 & s2 & -> & H1 & H2).
      exists s1, s2. rewrite IH. now repeat split.
Qed.

(** [re_match] accepts the strings with a prefix in the language. *)
Lemma re_match_iff (r : regex) (s : pystr) :
  re_match r s = true <->
  exists found rest, s = found ++ rest /\ matches r found.
Proof.
  revert r. induction s as [|c s IH]; intros r; cbn [re_match].
  - rewrite orb_false_r, nullable_iff. split.
    + intros H. now exists [], [].
    + intros (found & rest & E & H). symmetry in E.
      apply app_eq_nil in E. destruct E as [-> _]. exact H.
  - rewrite orb_true_iff, nullable_iff, IH. split.
    + intros [H|(found & rest & -> & H)].
      * now exists [], (c :: s).
      * exists (c :: found), rest. split; [reflexivity|].
        now apply deriv_iff.
    + intros (found & rest & E & H). destruct found as [|c' found].
      * now left.
      * right. cbn in E. injection E as <- ->. exists found, rest.
        split; [reflexivity|]. now apply deriv_iff.
Qed.

(** [re_search] accepts the strings with a part in the language. *)
Lemma re_search_iff (r : regex) (s : pystr) :
  re_search r s = true <->
  exists before found after,
    s = before ++ found ++ after /\ matches r found.
Proof.
  induction s as [|c s IH]; cbn [re_search].
  - rewrite orb_false_r, re_match_iff. split.
    + intros (found & rest & E & H). now exists [], found, rest.
    + intros (before & found & after & E & H).
      destruct before; [|discriminate E]. now exists found, after.
  - rewrite orb_true_iff, re_match_iff, IH. split.
    + intros [(found & rest & E & H)|(before & found & after & -> & H)].
      * now exists [], found, rest.
      * now exists (c :: before), found, after.
    + intros (before & found & after & E & H).
      destruct before as [|b before].
      * left. now exists found, after.
      * right. cbn in E. injection E as _ ->.
        now exists before, found, after.
Qed.

Lemma matches_Star_Chr (cs : charset) (s : pystr) :
  matches (Star (Chr cs)) s <-> Forall (fun c => charset_mem cs c = true) s.
Proof.
  split.
  - induction s as [|c s IH]; intros H; [constructor|].
    apply matches_Star_cons in H. destruct H as (s1 & s2 & -> & H1 & H2).
    inversion H1; subst. constructor; [assumption|]. now apply IH.
  - induction 1 as [|c s Hc _ IH]; [constructor|].
    exact (matches_Star_app (Chr cs) [c] s (matches_Chr cs c Hc) IH).
Qed.

Lemma matches_literal (text s : pystr) :
  matches (literal text) s <-> s = text.
Proof.
  revert s. induction text as [|p text IH]; intros s; cbn [literal].
  - split; [intros H; now inversion H|intros ->; constructor].
  - rewrite matches_Seq_iff. split.
    + intros (s1 & s2 & -> & H1 & H2). apply matches_Chr_iff in H1.
      destruct H1 as (c & -> & Hc). cbn in Hc. rewrite orb_false_r in Hc.
      apply N.eqb_eq in Hc. subst c. apply IH in H2. now subst.
    + intros ->. exists [p], text. repeat split.
      * constructor. cbn. now rewrite N.eqb_refl.
      * now apply IH.
Qed.

Lemma matches_literal_i (text s : pystr) :
  matches (literal_i text) s <-> same_ignoring_case text s.
Proof.
  unfold same_ignoring_case. revert s.
  induction text as [|p text IH]; intros s; cbn [literal_i].
  - split; [intros H; inversion H; constructor|].
    intros H. inversion H. constructor.
  - rewrite matches_Seq_iff. split.
    + intros (s1 & s2 & -> & H1 & H2). apply matches_Chr_iff in H1.
      destruct H1 as (c & -> & Hc). cbn [charset_mem] in Hc.
      apply mem_iff in Hc. constructor; [exact Hc|now apply IH].
    + intros H. inversion H as [|? c ? s' Hc Hrest]; subst.
      exists [c], s'. repeat split.
      * constructor. cbn [charset_mem]. now apply mem_iff.
      * now apply IH.
Qed.

Lemma all_spaces_iff (s : pystr) : matches spaces s <-> all_spaces s.
Proof. unfold spaces. now rewrite matches_Star_Chr. Qed.

Lemma matches_quote (s : pystr) :
  matches quote s <-> exists q, s = [q] /\ is_quote q.
Proof.
  unfold quote, is_quote. rewrite matches_Chr_iff.
  split; intros (q & -> & H); exists q; split; trivial.
  - cbn in H. rewrite orb_false_r, orb_true_iff, !N.eqb_eq in H. exact H.
  - cbn. rewrite orb_false_r, orb_true_iff, !N.eqb_eq. exact H.
Qed.

Lemma not_quote_iff (c : N) :
  charset_mem (NoneOf [dquote; squote]) c = true <-> ~ is_quote c.
Proof.
  unfold is_quote. cbn. rewrite orb_false_r, negb_true_iff, orb_false_iff.
  rewrite !N.eqb_neq. tauto.
Qed.

Lemma matches_quoted_body (s : pystr) :
  matches (Plus not_quote) s <->
  s <> [] /\ Forall (fun c => ~ is_quote c) s.
Proof.
  unfold Plus, not_quote. rewrite matches_Seq_iff. split.
  - intros (s1 & s2 & -> & H1 & H2). apply matches_Chr_iff in H1.
    destruct H1 as (c & -> & Hc). apply matches_Star_Chr in H2.
    split; [discriminate|]. constructor; [now apply not_quote_iff|].
    rewrite Forall_forall in *. intros x Hx. apply not_quote_iff.
    now apply H2.
  - intros [Hne H]. destruct s as [|c s]; [contradiction|].
    inversion H as [|? ? Hc Hs]; subst. exists [c], s. repeat split.
    + constructor. now apply not_quote_iff.
    + apply matches_Star_Chr. rewrite Forall_forall in *.
      intros x Hx. apply not_quote_iff. now apply Hs.
Qed.

(** The strings of a keyword followed by the assigned literal. *)
Lemma matches_assignment (keyword : regex) (s : pystr) :
  matches (Seq keyword assigned_literal) s <->
  exists word ws1 ws2 q1 body q2,
    s = word ++ ws1 ++ str "=" ++ ws2 ++ [q1] ++ body ++ [q2]
    /\ matches keyword word
    /\ all_spaces ws1 /\ all_spaces ws2
    /\ is_quote q1 /\ is_quote q2
    /\ body <> [] /\ Forall (fun c => ~ is_quote c) body.
Proof.
  unfold assigned_literal. split.
  - intros H.
    apply matches_Seq_iff in H. destruct H as (word & t1 & -> & Hw & H).
    apply matches_Seq_iff in H. destruct H as (ws1 & t2 & -> & H1 & H).
    apply matches_Seq_iff in H. destruct H as (eq & t3 & -> & He & H).
    apply matches_Seq_iff in H. destruct H as (ws2 & t4 & -> & H2 & H).
    apply matches_Seq_iff in H. destruct H as (o & t5 & -> & Ho & H).
    apply matches_Seq_iff in H. destruct H as (body & c & -> & Hb & Hc).
    apply matches_literal in He. subst eq.
    apply matches_quote in Ho. destruct Ho as (q1 & -> & Hq1).
    apply matches_quote in Hc. destruct Hc as (q2 & -> & Hq2).
    apply matches_quoted_body in Hb. destruct Hb as [Hne Hb].
    exists word, ws1, ws2, q1, body, q2.
    repeat split; trivial; now apply all_spaces_iff.
  - intros (word & ws1 & ws2 & q1 & body & q2 & -> & Hw & H1 & H2 & Hq1
            & Hq2 & Hne & Hb).
    repeat (apply matches_Seq; trivial).
    + now apply all_spaces_iff.
    + now apply matches_literal.
    + now apply all_spaces_iff.
    + apply matches_quote. now exists q1.
    + now apply matches_quoted_body.
    + apply matches_quote. now exists q2.
Qed.

Lemma search_assignment (keyword : regex) (accepts : pystr -> Prop)
  (line : pystr) :
  (forall word, matches keyword word <-> accepts word) ->
  re_search (Seq keyword assigned_literal) line = true
  <-> assigns_literal accepts line.
Proof.
  intros Hk. rewrite re_search_iff. unfold assigns_literal. split.
  - intros (before & found & after & -> & H).
    apply matches_assignment in H.
    destruct H as (word & ws1 & ws2 & q1 & body & q2 & -> & Hw & H).
    exists before, word, ws1, ws2, q1, body, q2, after.
    split; [now rewrite <- !app_assoc|]. split; [now apply Hk|exact H].
  - intros (before & word & ws1 & ws2 & q1 & body & q2 & after & -> & Hw
            & H).
    exists before, (word ++ ws1 ++ str "=" ++ ws2 ++ [q1] ++ body ++ [q2]),
      after.
    split; [now rewrite <- !app_assoc|].
    apply matches_assignment.
    exists word, ws1, ws2, q1, body, q2.
    split; [reflexivity|]. split; [now apply Hk|exact H].
Qed.

Lemma matches_api_key_word (word : pystr) :
  matches
    (Seq (literal_i (str "api"))
       (Seq (Opt (Chr (OneOf (str "_-")))) (literal_i (str "key")))) word
  <-> is_api_key_word word.
Proof.
  unfold is_api_key_word. rewrite matches_Seq_iff. split.
  - intros (api & t & -> & Ha & H). apply matches_Seq_iff in H.
    destruct H as (sep & key & -> & Hs & Hkey).
    exists api, sep, key. split; [reflexivity|].
    split; [now apply matches_literal_i|].
    split; [|now apply matches_literal_i].
    unfold Opt in Hs. inversion Hs as [| | |? ? ? H|? ? ? H| |]; subst.
    + inversion H. now left.
    + apply matches_Chr_iff in H. destruct H as (c & -> & Hc).
      cbn in Hc. rewrite orb_false_r, orb_true_iff, !N.eqb_eq in Hc.
      destruct Hc as [->| ->]; [right; left|right; right]; reflexivity.
  - intros (api & sep & key & -> & Ha & Hs & Hkey).
    exists api, (sep ++ key). split; [reflexivity|].
    split; [now apply matches_literal_i|].
    apply matches_Seq; [|now apply matches_literal_i].
    unfold Opt. destruct Hs as [->|[->| ->]].
    + apply matches_Alt_l. constructor.
    + apply matches_Alt_r. now constructor.
    + apply matches_Alt_r. now constructor.
Qed.

Lemma seq_assoc_matches (a b c : regex) (s : pystr) :
  matches (Seq a (Seq b c)) s <-> matches (Seq (Seq a b) c) s.
Proof.
  rewrite !matches_Seq_iff. split.
  - intros (s1 & t & -> & Ha & H). apply matches_Seq_iff in H.
    destruct H as (s2 & s3 & -> & Hb & Hc).
    exists (s1 ++ s2), s3. split; [now rewrite app_assoc|].
    split; [now constructor|exact Hc].
  - intros (t & s3 & -> & H & Hc). apply matches_Seq_iff in H.
    destruct H as (s1 & s2 & -> & Ha & Hb).
    exists s1, (s2 ++ s3). split; [now rewrite app_assoc|].
    split; [exact Ha|now constructor].
Qed.

(** The pattern of the API key is a keyword followed by the assigned
    literal, like the two others. *)
Lemma api_key_pattern_assoc (found : pystr) :
  matches
    (Seq (literal_i (str "api"))
       (Seq (Opt (Chr (OneOf (str "_-"))))
          (Seq (literal_i (str "key")) assigned_literal)))
    found
  <-> matches
        (Seq
           (Seq (literal_i (str "api"))
              (Seq (Opt (Chr (OneOf (str "_-"))))
                 (literal_i (str "key"))))
           assigned_literal)
        found.
Proof.
  rewrite <- (seq_assoc_matches (literal_i (str "api"))
                (Seq (Opt (Chr (OneOf (str "_-"))))
                   (literal_i (str "key")))
                assigned_literal found).
  rewrite (matches_Seq_iff (literal_i (str "api")) _ found).
  rewrite (matches_Seq_iff (literal_i (str "api")) _ found).
  split; intros (s1 & s2 & E & Ha & H); exists s1, s2;
    (split; [exact E|split; [exact Ha|]]);
    now apply (seq_assoc_matches (Opt (Chr (OneOf (str "_-"))))
                 (literal_i (str "key")) assigned_literal s2).
Qed.

(** What the three assignment rules report: a line in which the word
    [password], [token], or [api] and [key] with at most one [_] or [-]
    between them, in any case, is followed by an equals sign and a quoted
    non-empty text, white space being allowed around the sign.  The two
    quotes need not be of the same kind, and the word may be the end of a
    longer name. *)
Theorem assignment_rules_report (line : pystr) :
  (re_search pattern_password line = true
   <-> assigns_literal (same_ignoring_case (str "password")) line)
  /\ (re_search pattern_token line = true
      <-> assigns_literal (same_ignoring_case (str "token")) line)
  /\ (re_search pattern_api_key line = true
      <-> assigns_literal is_api_key_word line).
Proof.
  split; [|split].
  - apply search_assignment. intros word. apply matches_literal_i.
  - apply search_assignment. intros word. apply matches_literal_i.
  - unfold pattern_api_key.
    rewrite <- (search_assignment
                  (Seq (literal_i (str "api"))
                     (Seq (Opt (Chr (OneOf (str "_-"))))
                        (literal_i (str "key"))))
                  is_api_key_word line matches_api_key_word).
    rewrite !re_search_iff.
    pose proof api_key_pattern_assoc as Hassoc.
    split; intros (before & found & after & E & H);
      exists before, found, after; (split; [exact E|]);
      now apply Hassoc.
Qed.

(** ** The password line within its file *)

Lemma lstrip_spaces (ws s : pystr) :
  all_spaces ws -> lstrip (ws ++ s) = lstrip s.
Proof.
  induction 1 as [|c ws Hc _ IH]; [reflexivity|].
  cbn [app lstrip]. now rewrite Hc.
Qed.

Lemma all_spaces_rev (ws : pystr) : all_spaces ws -> all_spaces (rev ws).
Proof. apply Forall_rev. Qed.

(** [strip] takes the padding off a text that neither starts nor ends
    with white space. *)
Lemma strip_padded (before s after : pystr) :
  all_spaces before -> all_spaces after ->
  s <> [] -> trimmed s ->
  strip (before ++ s ++ after) = s.
Proof.
  intros Hb Ha Hne [Hfirst Hlast]. unfold strip.
  rewrite lstrip_spaces by exact Hb.
  destruct s as [|c s]; [contradiction|].
  cbn [app lstrip]. rewrite Hfirst.
  unfold rstrip. change (c :: s ++ after) with ((c :: s) ++ after).
  rewrite rev_app_distr, lstrip_spaces by now apply all_spaces_rev.
  destruct (rev (c :: s)) as [|d t] eqn:E.
  - apply (f_equal (@rev N)) in E. rewrite rev_involutive in E.
    discriminate E.
  - cbn [lstrip]. rewrite Hlast. rewrite <- E. apply rev_involutive.
Qed.

(** A character that is no white space lies behind padding of white
    space. *)
Lemma split_after_spaces (ws x before rest : pystr) (c : N) :
  all_spaces ws -> is_space c = false ->
  ws ++ x = before ++ c :: rest ->
  exists before', before = ws ++ before' /\ x = before' ++ c :: rest.
Proof.
  intros Hws Hc. revert before.
  induction Hws as [|w ws Hw _ IH]; intros before E.
  - now exists before.
  - destruct before as [|b before]; cbn in E; injection E as -> E.
    + congruence.
    + destruct (IH before E) as (before' & -> & ->). now exists before'.
Qed.

Lemma split_before_spaces (ws x before rest : pystr) (c : N) :
  all_spaces ws -> is_space c = false ->
  x ++ ws = before ++ c :: rest ->
  exists rest', rest = rest' ++ ws /\ x = before ++ c :: rest'.
Proof.
  intros Hws Hc E. apply (f_equal (@rev N)) in E.
  rewrite !rev_app_distr in E. cbn [rev] in E. rewrite <- app_assoc in E.
  cbn [app] in E.
  apply split_after_spaces in E; [|now apply all_spaces_rev|exact Hc].
  destruct E as (t & Hrest & Hx).
  apply (f_equal (@rev N)) in Hrest, Hx.
  rewrite rev_involutive in Hrest, Hx.
  rewrite rev_app_distr in Hrest, Hx. cbn [rev] in Hx.
  rewrite rev_involutive in Hrest, Hx.
  exists (rev t). split; [exact Hrest|].
  rewrite Hx. now rewrite <- app_assoc.
Qed.

Lemma trimmed_ends (s : pystr) :
  s <> [] -> trimmed s ->
  (exists c rest, s = c :: rest /\ is_space c = false)
  /\ (exists front d, s = front ++ [d] /\ is_space d = false).
Proof.
  intros Hne [Hfirst Hlast]. split.
  - destruct s as [|c rest]; [contradiction|]. now exists c, rest.
  - destruct (rev s) as [|d t] eqn:E.
    + apply (f_equal (@rev N)) in E. rewrite rev_involutive in E.
      contradiction.
    + exists (rev t), d. split; [|exact Hlast].
      apply (f_equal (@rev N)) in E. now rewrite rev_involutive in E.
Qed.

(** A pattern whose matches neither start nor end with white space finds
    in a padded line what it finds in the line. *)
Lemma re_search_padded (r : regex) (before s after : pystr) :
  (forall found, matches r found -> found <> [] /\ trimmed found) ->
  all_spaces before -> all_spaces after ->
  re_search r (before ++ s ++ after) = re_search r s.
Proof.
  intros Hsolid Hb Ha. apply eq_true_iff_eq. rewrite !re_search_iff. split.
  - intros (pre & found & post & E & Hm).
    destruct (Hsolid found Hm) as [Hne Ht].
    destruct (trimmed_ends found Hne Ht)
      as [(c & rest & Hc & Hcs) (front & d & Hd & Hds)].
    rewrite Hc in E. cbn [app] in E.
    apply split_after_spaces in E; [|exact Hb|exact Hcs].
    destruct E as (pre' & _ & E).
    change (c :: rest ++ post) with ((c :: rest) ++ post) in E.
    rewrite <- Hc, Hd in E.
    rewrite <- app_assoc, app_assoc in E. cbn [app] in E.
    apply split_before_spaces in E; [|exact Ha|exact Hds].
    destruct E as (post' & _ & E).
    exists pre', found, post'. split; [|exact Hm].
    rewrite E, Hd. now rewrite <- !app_assoc.
  - intros (pre & found & post & -> & Hm).
    exists (before ++ pre), found, (post ++ after). split; [|exact Hm].
    now rewrite <- !app_assoc.
Qed.

Lemma quote_is_no_space (q : N) : is_quote q -> is_space q = false.
Proof. intros [->| ->]; reflexivity. Qed.

Lemma trimmed_between (c d : N) (middle : pystr) :
  is_space c = false -> is_space d = false ->
  c :: middle ++ [d] <> [] /\ trimmed (c :: middle ++ [d]).
Proof.
  intros Hc Hd. split; [discriminate|]. split; [exact Hc|].
  change (c :: middle ++ [d]) with ((c :: middle) ++ [d]).
  rewrite rev_app_distr. exact Hd.
Qed.

(** What an assignment rule matches starts with the first letter of its
    keyword and ends with a quote. *)
Lemma assignment_trimmed (keyword : regex) (found : pystr) :
  (forall word,
     matches keyword word ->
     exists c rest, word = c :: rest /\ is_space c = false) ->
  matches (Seq keyword assigned_literal) found ->
  found <> [] /\ trimmed found.
Proof.
  intros Hk H. apply matches_assignment in H.
  destruct H as (word & ws1 & ws2 & q1 & body & q2 & -> & Hw & _ & _ & _
                 & Hq2 & _).
  destruct (Hk word Hw) as (c & rest & -> & Hc).
  replace ((c :: rest) ++ ws1 ++ str "=" ++ ws2 ++ [q1] ++ body ++ [q2])
    with (c :: (rest ++ ws1 ++ str "=" ++ ws2 ++ [q1] ++ body) ++ [q2])
    by (cbn [app]; now rewrite <- !app_assoc).
  apply trimmed_between; [exact Hc|now apply quote_is_no_space].
Qed.

Lemma keyword_first_letter (letter : N) (text word : pystr) :
  (forall c, In c (ignorecase letter) -> is_space c = false) ->
  same_ignoring_case (letter :: text) word ->
  exists c rest, word = c :: rest /\ is_space c = false.
Proof.
  intros Hl H. inversion H as [|? c ? rest Hc _]; subst.
  exists c, rest. split; [reflexivity|now apply Hl].
Qed.

Ltac letter_is_no_space :=
  let c := fresh "c" in
  let H := fresh "H" in
  intros c H; vm_compute in H;
  repeat (destruct H as [H|H]; [subst c; reflexivity|]);
  destruct H.

(** None of the five patterns matches a text that starts or ends with
    white space, or the empty text. *)
Lemma sensitive_patterns_trimmed (pattern : regex) (issue found : pystr) :
  In (pattern, issue) sensitive_patterns ->
  matches pattern found -> found <> [] /\ trimmed found.
Proof.
  unfold sensitive_patterns. cbn [In].
  intros [E|[E|[E|[E|[E|[]]]]]]; injection E as <- _; intros H.
  - apply (assignment_trimmed (literal_i (str "password"))); [|exact H].
    intros word Hw. apply matches_literal_i in Hw.
    apply (keyword_first_letter 112 (str "assword")); [|exact Hw].
    letter_is_no_space.
  - apply api_key_pattern_assoc in H.
    apply (assignment_trimmed _ found) in H; [exact H|].
    intros word Hw. apply matches_api_key_word in Hw.
    destruct Hw as (api & sep & key & -> & Ha & _).
    apply (keyword_first_letter 97 (str "pi")) in Ha;
      [|letter_is_no_space].
    destruct Ha as (c & rest & -> & Hc).
    now exists c, (rest ++ sep ++ key).
  - apply (assignment_trimmed (literal_i (str "token"))); [|exact H].
    intros word Hw. apply matches_literal_i in Hw.
    apply (keyword_first_letter 116 (str "oken")); [|exact Hw].
    letter_is_no_space.
  - apply matches_literal in H. subst found.
    split; [discriminate|split; reflexivity].
  - apply matches_literal in H. subst found.
    split; [discriminate|split; reflexivity].
Qed.

Lemma password_line_trimmed : password_line <> [] /\ trimmed password_line.
Proof. split; [discriminate|split; reflexivity]. Qed.

(** On the password line, padded with white space or not, only the first
    pattern fires, and the finding holds the line without the padding. *)
Lemma line_findings_padded_password_line (relative : pystr) (n : Z)
  (before after : pystr) :
  all_spaces before -> all_spaces after ->
  line_findings relative n (before ++ password_line ++ after)
  = [password_finding relative n].
Proof.
  intros Hb Ha.
  destruct password_line_matches as (H1 & H2 & H3 & H4 & H5).
  destruct password_line_trimmed as [Hne Ht].
  unfold line_findings.
  assert (Hsame : forall pattern issue,
             In (pattern, issue) sensitive_patterns ->
             re_search pattern (before ++ password_line ++ after)
             = re_search pattern password_line).
  { intros pattern issue Hin. apply re_search_padded; trivial.
    intros found. now apply (sensitive_patterns_trimmed pattern issue). }
  assert (Hp : re_search pattern_password (before ++ password_line ++ after)
               = true)
    by (rewrite <- H1; apply (Hsame _ issue_password); cbn; auto 10).
  assert (Hk : re_search pattern_api_key (before ++ password_line ++ after)
               = false)
    by (rewrite <- H2; apply (Hsame _ issue_api_key); cbn; auto 10).
  assert (Hn : re_search pattern_token (before ++ password_line ++ after)
               = false)
    by (rewrite <- H3; apply (Hsame _ issue_token); cbn; auto 10).
  assert (Hh : re_search pattern_http (before ++ password_line ++ after)
               = false)
    by (rewrite <- H4; apply (Hsame _ issue_http); cbn; auto 10).
  assert (Hc : re_search pattern_cleartext
                 (before ++ password_line ++ after) = false)
    by (rewrite <- H5; apply (Hsame _ issue_cleartext); cbn; auto 10).
  unfold sensitive_patterns. cbn [flat_map].
  rewrite Hp, Hk, Hn, Hh, Hc. cbn [app].
  unfold sensitive_finding, password_finding.
  now rewrite strip_padded.
Qed.

(** C6: a scanned file that holds the line [String password = "abc123";]
    at index [i], indented or followed by white space or neither, gets
    exactly one sensitive-data finding for line [i + 1]: it is of
    severity HIGH, carries that 1-based line number, and its evidence is
    the text of the line without the white space around it, which is what
    [strip] makes of the line. *)
Theorem password_line_reported_once (h : Helpers) (dir : pystr)
  (files : list SourceFile) (f : SourceFile) (content : pystr) (i : nat)
  (before after : pystr) :
  database_check_is_structural h ->
  NoDup (map rel_path files) ->
  In f files ->
  read f = Ok content ->
  all_spaces before -> all_spaces after ->
  nth_error (split newline content) i
  = Some (before ++ password_line ++ after) ->
  exists found,
    analyze_java_code h dir files = Ok found
    /\ filter (is_sensitive_at (rel_path f) (Z.of_nat i + 1)) found
       = [ mkFinding (Some (rel_path f)) (Some (Z.of_nat i + 1))
             (Some (str "SENSITIVE_DATA")) (Some (str "HIGH"))
             (Some (sensitive_prefix ++ issue_password))
             (Some password_line) None ]
    /\ strip (before ++ password_line ++ after) = password_line.
Proof.
  intros Hdb Hnodup Hin Hread Hb Ha Hnth.
  rewrite analyze_java_code_flat_map. eexists. split; [reflexivity|].
  split.
  2:{ destruct password_line_trimmed as [Hne Ht]. now apply strip_padded. }
  apply in_split in Hin. destruct Hin as (earlier & later & ->).
  rewrite map_app in Hnodup. cbn [map] in Hnodup.
  pose proof (NoDup_remove_2 _ _ _ Hnodup) as Hnotin.
  rewrite in_app_iff in Hnotin.
  rewrite flat_map_app. cbn [flat_map]. rewrite !filter_app.
  rewrite !filter_other_files by tauto.
  rewrite (filter_file_findings h dir f _ _ content Hdb Hread).
  pose proof (filter_lines_findings (rel_path f) _ 0 i _ Hnth) as Hline.
  rewrite Z.add_0_l in Hline. rewrite Hline.
  rewrite line_findings_padded_password_line by assumption.
  cbn [filter]. rewrite is_sensitive_at_password_finding. reflexivity.
Qed.

Lemma password_line_reported_once_witness :
  exists found,
    analyze_java_code undefined_methods (str "/work/app/java")
      indented_files
    = Ok found
    /\ filter (is_sensitive_at (rel_path indented_login_file)
                 (Z.of_nat 2 + 1)) found
       = [ mkFinding (Some (rel_path indented_login_file))
             (Some (Z.of_nat 2 + 1))
             (Some (str "SENSITIVE_DATA")) (Some (str "HIGH"))
             (Some (sensitive_prefix ++ issue_password))
             (Some password_line) None ]
    /\ strip (([9%N] ++ str "    ") ++ password_line ++ str "  ")
       = password_line.
Proof.
  apply (password_line_reported_once undefined_methods
           (str "/work/app/java") indented_files indented_login_file
           (str "class Login {" ++ [newline] ++ str "  void connect() {"
            ++ [newline] ++ [9%N] ++ str "    " ++ password_line
            ++ str "  " ++ [newline] ++ str "  }" ++ [newline] ++ str "}")
           2 ([9%N] ++ str "    ") (str "  ")).
  - intros content file_path found v H. discriminate H.
  - repeat constructor; simpl; intuition discriminate.
  - simpl. auto.
  - reflexivity.
  - repeat constructor.
  - repeat constructor.
  - reflexivity.
Defined.
